(** * deepsharebackend: the IPFS retriever and the upload service

    A shallow embedding of [retrieve_cid.py] (gateway fallback resolver,
    content sniffing, rendering routines, batch driver) and of the two upload
    endpoints of [main.py], together with the properties stated about them.

    Python values are modelled as follows.
    - [bytes] is a list of bytes; [str] is a list of Unicode code points, so
      that slicing ([cid[:10]]) and [len] count what Python counts.
    - A value produced by [json.loads] is a [json] tree; a dict is an
      association list in insertion order with unique keys.
    - A Python function is a state-and-exception computation [M A] over a
      [World]: the outside world (network, image viewer, clock), the HTTP
      exchanges made so far, the lines printed and the files of the working
      directory.
    - Third-party libraries ([requests], [PIL], [json]) are operations of the
      classes [External] and [Codecs]; every theorem holds for all of their
      instances.  Whether a file can be opened for writing is decided by
      the outside world; once it is open, the write succeeds.  Standard
      output is taken to accept every text: printing a line succeeds. *)

From Stdlib Require Import ZArith NArith List Ascii String Lia DecimalString.
From Stdlib.Strings Require Import Byte.
From stdpp Require Import base option list gmap.
Import ListNotations.

Set Warnings "-register-all".
Open Scope N_scope.

(** ** Bytes and text *)

Abbreviation bytes := (list byte).
Abbreviation str := (list N).

(** A Python string literal. *)
Definition lit (s : string) : str := map N_of_ascii (list_ascii_of_string s).

(** A Python bytes literal. *)
Definition blit (s : string) : bytes := list_byte_of_string s.

(** [content.startswith(prefix)] on bytes. *)
Fixpoint startswith (content prefix : bytes) {struct prefix} : bool :=
  match prefix with
  | [] => true
  | p :: ps =>
      match content with
      | [] => false
      | c :: cs => Byte.eqb c p && startswith cs ps
      end
  end.

(** [needle in hay] on two [str]: substring search. *)
Fixpoint str_startswith (s prefix : str) {struct prefix} : bool :=
  match prefix with
  | [] => true
  | p :: ps =>
      match s with
      | [] => false
      | c :: cs => N.eqb c p && str_startswith cs ps
      end
  end.

Fixpoint str_contains (hay needle : str) : bool :=
  str_startswith hay needle ||
  match hay with
  | [] => false
  | _ :: rest => str_contains rest needle
  end.

(** [s[:n]] and [s[-n:]] for a non-negative constant [n]. *)
Definition slice_to {A} (n : nat) (s : list A) : list A := take n s.
Definition slice_last {A} (n : nat) (s : list A) : list A :=
  drop (length s - n)%nat s.

(** [bytes.decode('utf-8')], strict: [None] stands for UnicodeDecodeError.
    Overlong forms, surrogates and code points above U+10FFFF are refused. *)
Definition is_cont (b : byte) : bool :=
  (128 <=? Byte.to_N b) && (Byte.to_N b <=? 191).
Definition cont_bits (b : byte) : N := Byte.to_N b - 128.

Fixpoint utf8_decode (bs : bytes) : option str :=
  match bs with
  | [] => Some []
  | b0 :: t0 =>
      let n0 := Byte.to_N b0 in
      if n0 <? 128 then cons n0 <$> utf8_decode t0
      else if (192 <=? n0) && (n0 <? 224) then
        match t0 with
        | b1 :: t1 =>
            let cp := (n0 - 192) * 64 + cont_bits b1 in
            if is_cont b1 && (128 <=? cp) then cons cp <$> utf8_decode t1
            else None
        | _ => None
        end
      else if (224 <=? n0) && (n0 <? 240) then
        match t0 with
        | b1 :: b2 :: t2 =>
            let cp := (n0 - 224) * 4096 + cont_bits b1 * 64 + cont_bits b2 in
            if is_cont b1 && is_cont b2 && (2048 <=? cp)
               && negb ((55296 <=? cp) && (cp <=? 57343))
            then cons cp <$> utf8_decode t2
            else None
        | _ => None
        end
      else if (240 <=? n0) && (n0 <? 248) then
        match t0 with
        | b1 :: b2 :: b3 :: t3 =>
            let cp := (n0 - 240) * 262144 + cont_bits b1 * 4096
                      + cont_bits b2 * 64 + cont_bits b3 in
            if is_cont b1 && is_cont b2 && is_cont b3
               && (65536 <=? cp) && (cp <=? 1114111)
            then cons cp <$> utf8_decode t3
            else None
        | _ => None
        end
      else None
  end.

(** Truthiness of an optional string, as in [if PINATA_JWT:]: [None] and the
    empty string are false. *)
Definition truthy (o : option str) : bool :=
  match o with
  | Some (_ :: _) => true
  | _ => false
  end.

(** ** JSON values *)

(** A float is carried as the text [json.dumps] prints for it ([repr], or
    NaN and Infinity): the programs only print floats and test them for
    zero. *)
Inductive json : Type :=
| JNull
| JBool (b : bool)
| JInt (n : Z)
| JFloat (repr : str)
| JStr (s : str)
| JList (items : list json)
| JDict (d : list (str * json)).

(** Dict lookup and item assignment on the association list. *)
Fixpoint dict_lookup (d : list (str * json)) (k : str) : option json :=
  match d with
  | [] => None
  | (k', v) :: rest => if decide (k' = k) then Some v else dict_lookup rest k
  end.

Fixpoint dict_set (d : list (str * json)) (k : str) (v : json)
  : list (str * json) :=
  match d with
  | [] => [(k, v)]
  | (k', v') :: rest =>
      if decide (k' = k) then (k, v) :: rest else (k', v') :: dict_set rest k v
  end.

(** ** Exceptions *)

(** The exception classes the two programs can meet.  Every one of them is a
    subclass of [Exception].  [RequestsJSONDecodeError] is the error of
    [response.json()], a subclass of both [RequestException] and
    [json.JSONDecodeError]. *)
Inductive exn : Type :=
| RequestException (msg : str)
| RequestsJSONDecodeError
| HTTPException (status_code : Z) (detail : detail)
| JSONDecodeError
| UnicodeDecodeError
| UnidentifiedImageError
| TypeError
| AttributeError
| KeyError
| ValueError (msg : str)
| OSError (msg : str)
| OtherException (msg : str)
with detail : Type :=
| PinataApiError (status_code : Z) (body : bytes)
| PinataUploadFailed (msg : str)
| SupabaseAuthFailed (body : bytes)
| SupabaseTableNotFound
| SupabaseInsertFailed (msg : str)
| InvalidMetadataJson
| UploadFailed (cause : exn).

Definition is_RequestException (e : exn) : bool :=
  match e with
  | RequestException _ | RequestsJSONDecodeError => true
  | _ => false
  end.

Definition is_JSONDecodeError (e : exn) : bool :=
  match e with
  | JSONDecodeError | RequestsJSONDecodeError => true
  | _ => false
  end.

Definition is_HTTPException (e : exn) : bool :=
  match e with
  | HTTPException _ _ => true
  | _ => false
  end.

(** [str(e)] for the exceptions whose text the programs print. *)
Definition exn_str (e : exn) : str :=
  match e with
  | RequestException msg | ValueError msg | OSError msg
  | OtherException msg => msg
  | _ => []
  end.

Inductive result (A : Type) : Type :=
| Ok (a : A)
| Raise (e : exn).
Arguments Ok {A} a.
Arguments Raise {A} e.

(** ** Python operators on JSON values *)

(** [needle in container] *)
Definition py_in (needle : str) (container : json) : result bool :=
  match container with
  | JDict d => Ok (bool_decide (is_Some (dict_lookup d needle)))
  | JList items =>
      Ok (existsb (fun x => match x with
                            | JStr s => bool_decide (s = needle)
                            | _ => false
                            end) items)
  | JStr s => Ok (str_contains s needle)
  | _ => Raise TypeError
  end.

(** [obj.get(key, default)] *)
Definition py_get (obj : json) (key : str) (default : json) : result json :=
  match obj with
  | JDict d =>
      Ok (match dict_lookup d key with Some v => v | None => default end)
  | _ => Raise AttributeError
  end.

(** [obj[key]] for a string key *)
Definition py_getitem (obj : json) (key : str) : result json :=
  match obj with
  | JDict d =>
      match dict_lookup d key with Some v => Ok v | None => Raise KeyError end
  | _ => Raise TypeError
  end.

(** [len(v)] *)
Definition py_len (v : json) : result nat :=
  match v with
  | JStr s => Ok (length s)
  | JList items => Ok (length items)
  | JDict d => Ok (length d)
  | _ => Raise TypeError
  end.

(** [v[:n]] and [v[-n:]].  Slicing a dict raises TypeError or KeyError
    depending on the Python version; both are plain [Exception]s and the
    model raises TypeError. *)
Definition py_slice_to (n : nat) (v : json) : result json :=
  match v with
  | JStr s => Ok (JStr (slice_to n s))
  | JList items => Ok (JList (slice_to n items))
  | _ => Raise TypeError
  end.

Definition py_slice_last (n : nat) (v : json) : result json :=
  match v with
  | JStr s => Ok (JStr (slice_last n s))
  | JList items => Ok (JList (slice_last n items))
  | _ => Raise TypeError
  end.

(** [content.decode('utf-8')] as a library call. *)
Definition decode (content : bytes) : result str :=
  match utf8_decode content with
  | Some text => Ok text
  | None => Raise UnicodeDecodeError
  end.

(** [obj[key] = v] for a string key *)
Definition py_setitem (obj : json) (key : str) (v : json) : result json :=
  match obj with
  | JDict d => Ok (JDict (dict_set d key v))
  | _ => Raise TypeError
  end.

(** Truthiness of a JSON value, as in [if not ipfs_hash:]. *)
Definition py_truthy (v : json) : bool :=
  match v with
  | JNull => false
  | JBool b => b
  | JInt n => negb (n =? 0)%Z
  | JFloat repr =>
      negb (bool_decide (repr = lit "0.0") || bool_decide (repr = lit "-0.0"))
  | JStr s => negb (bool_decide (s = []))
  | JList items => negb (bool_decide (items = []))
  | JDict d => negb (bool_decide (d = []))
  end.

(** [a or b] on optional strings. *)
Definition py_or (a b : option str) : option str :=
  if truthy a then a else b.

(** An optional string interpolated in an f-string: [None] prints as the
    text None. *)
Definition fmt_opt (o : option str) : str := default (lit "None") o.

(** [str(n)] for an integer. *)
Definition str_of_Z (n : Z) : str :=
  lit (NilZero.string_of_int (Z.to_int n)).

(** [k.lower()] on the ASCII letters. *)
Definition str_lower (s : str) : str :=
  map (fun c => if (65 <=? c) && (c <=? 90) then c + 32 else c) s.

(** ** HTTP *)

Inductive Method := GET | POST.

Inductive Payload : Type :=
| NoBody
| Multipart (filename : str) (file_data : bytes) (content_type : str)
            (pinataMetadata pinataOptions : json)
| JsonBody (data : json).

Record Request : Type := mkRequest {
  req_method : Method;
  req_url : str;
  req_headers : list (str * str);
  req_params : list (str * str);
  req_payload : Payload;
  req_timeout : Z
}.

Record Response : Type := mkResponse {
  status_code : Z;
  resp_headers : list (str * str);
  content : bytes
}.

(** What [requests.get] / [requests.post] does: it returns a response or
    raises a [RequestException] with a message. *)
Inductive Outcome : Type :=
| Responds (r : Response)
| Fails (msg : str).

(** ** Images *)

Record ImageInfo : Type := mkImageInfo {
  img_format : str;
  img_width : Z;
  img_height : Z;
  img_mode : str
}.

(** ** The libraries and the outside world *)

Class Codecs : Type := {
  (** [Image.open(io.BytesIO(content))] *)
  Image_open : bytes -> result ImageInfo;
  (** [json.loads(text)] *)
  json_loads : str -> result json;
  (** what [json.dump(data, f, indent=2)] writes to a UTF-8 text file *)
  json_dump_indent2 : json -> bytes;
  (** [json.dumps(data, separators=(',', ':')).encode('utf-8')] *)
  json_dumps_compact : json -> bytes;
  (** [response.json()]: [None] when it raises its JSONDecodeError *)
  Response_json : Response -> option json
}.

Class External (Ext : Type) : Type := {
  (** one blocking HTTP exchange *)
  requests_send : Request -> Ext -> Outcome * Ext;
  (** [img.show()] *)
  Image_show : ImageInfo -> Ext -> result unit * Ext;
  (** [int(time.time())] *)
  time_time : Ext -> Z * Ext;
  (** [open(filename, 'w')] and [open(filename, 'wb')]: [None] when the
      file opens, [Some msg] when [open] raises an OSError with that text
      (no such directory, permission denied, ...) *)
  open_error : str -> Ext -> option str
}.

(** ** Standard output *)

(** The labels of the "Detected:" lines of [main]. *)
Inductive Label : Type :=
| LabelJPEG
| LabelPNG
| LabelJSON
| LabelImage (format : str).

(** One constructor per [print] call of the two programs, carrying the
    values the line interpolates. *)
Inductive Line : Type :=
(* retrieve_from_ipfs *)
| L_retrieving (cid : str)
| L_trying (name : str)
| L_success
| L_forbidden
| L_not_found
| L_status (code : Z)
| L_error (msg50 : str)
| L_failed_all
| L_maybe_unpinned
(* display_image *)
| L_image_ok
| L_image_format (format : str)
| L_image_size (w h : Z)
| L_image_mode (mode : str)
| L_saved (filename : str)
| L_no_display
| L_image_error (e : exn)
| L_saved_raw (filename : str)
(* display_json *)
| L_json_ok
| L_size (n : nat)
| L_json_content
| L_json_pretty (data : json)
| L_base_image (n : nat)
| L_depth_image (n : nat)
| L_depth_data
| L_shape (v : json)
| L_valid_pixels (v : json)
| L_signature (head tail : json)
| L_not_json
| L_first_500
| L_head_text (prefix : bytes)
| L_json_error (e : exn)
(* main *)
| L_rule
| L_rule_nl
| L_title
| L_gateway (host : str)
| L_api_auth
| L_blank
| L_detected (l : Label)
| L_unknown
| L_head_hex (prefix : bytes)
| L_complete
(* main.py *)
| L_pinata_ok (cid : json)
| L_retry_quoted
| L_supabase_error (d : detail)
| L_supabase_ok
| L_uploading_image
| L_image_uploaded (cid : json)
| L_uploading_metadata
| L_metadata_uploaded (cid : json)
| L_storing
| L_stored (image_cid metadata_cid : json).

(** ** The world and the computation monad *)

(** [exchanges] is the history of the HTTP exchanges made so far, oldest
    first: it records what the program did, the program never reads it. *)
Record World (Ext : Type) : Type := mkWorld {
  ext : Ext;
  exchanges : list (Request * Outcome);
  stdout : list Line;
  files : gmap str bytes
}.
Arguments mkWorld {Ext} _ _ _ _.
Arguments ext {Ext} _.
Arguments exchanges {Ext} _.
Arguments stdout {Ext} _.
Arguments files {Ext} _.

(** The requests issued so far, oldest first. *)
Definition sent {Ext} (w : World Ext) : list Request := map fst (exchanges w).

Definition M (Ext A : Type) : Type := World Ext -> result A * World Ext.

Definition ret {Ext A} (a : A) : M Ext A := fun w => (Ok a, w).

Definition bind {Ext A B} (m : M Ext A) (k : A -> M Ext B) : M Ext B :=
  fun w =>
    match m w with
    | (Ok a, w') => k a w'
    | (Raise e, w') => (Raise e, w')
    end.

Definition raise {Ext A} (e : exn) : M Ext A := fun w => (Raise e, w).

(** [try: m  except E as e: handler e], where the handler re-raises the
    exceptions its clauses do not match. *)
Definition try_except {Ext A} (m : M Ext A) (handler : exn -> M Ext A)
  : M Ext A :=
  fun w =>
    match m w with
    | (Ok a, w') => (Ok a, w')
    | (Raise e, w') => handler e w'
    end.

(** The result of a library call that may raise. *)
Definition lift {Ext A} (r : result A) : M Ext A := fun w => (r, w).

Declare Scope py_scope.
Delimit Scope py_scope with py.
Notation "x <- m ;; k" := (bind m (fun x => k))
  (at level 100, m at next level, right associativity) : py_scope.
Notation "m ;; k" := (bind m (fun _ => k))
  (at level 100, right associativity) : py_scope.
Open Scope py_scope.

Definition print {Ext} (l : Line) : M Ext unit :=
  fun w => (Ok tt, mkWorld (ext w) (exchanges w) (stdout w ++ [l]) (files w)).


(** [requests.get] / [requests.post]: the outside world answers the request
    and the exchange is recorded. *)
Definition send `{External Ext} (rq : Request) : M Ext Response :=
  fun w =>
    match requests_send rq (ext w) with
    | (o, e') =>
        (match o with
         | Responds r => Ok r
         | Fails msg => Raise (RequestException msg)
         end,
         mkWorld e' (exchanges w ++ [(rq, o)]) (stdout w) (files w))
    end.

(** [with open(filename, 'wb') as f: f.write(data)]: when [open] raises,
    nothing is written. *)
Definition write_file `{External Ext} (filename : str) (data : bytes)
  : M Ext unit :=
  fun w =>
    match open_error filename (ext w) with
    | None =>
        (Ok tt, mkWorld (ext w) (exchanges w) (stdout w)
                        (<[filename := data]> (files w)))
    | Some msg => (Raise (OSError msg), w)
    end.

Definition show `{External Ext} (img : ImageInfo) : M Ext unit :=
  fun w =>
    match Image_show img (ext w) with
    | (r, e') => (r, mkWorld e' (exchanges w) (stdout w) (files w))
    end.

Definition now `{External Ext} : M Ext Z :=
  fun w =>
    match time_time (ext w) with
    | (t, e') => (Ok t, mkWorld e' (exchanges w) (stdout w) (files w))
    end.

(** * retrieve_cid.py *)

Module RetrieveCid.

(** The module-level configuration read from the environment. *)
Record Config : Type := mkConfig {
  PINATA_GATEWAY : str;
  PINATA_API_KEY : option str;
  PINATA_SECRET_KEY : option str;
  PINATA_JWT : option str
}.

(** [os.getenv(name)] and [os.getenv(name, default)] over [os.environ]. *)
Definition getenv (environ : gmap str str) (name : str) : option str :=
  environ !! name.

Definition load_config (environ : gmap str str) : Config :=
  {| PINATA_GATEWAY :=
       default (lit "amethyst-impossible-ptarmigan-368.mypinata.cloud")
               (getenv environ (lit "PINATA_GATEWAY"));
     PINATA_API_KEY := getenv environ (lit "PINATA_API_KEY");
     PINATA_SECRET_KEY := getenv environ (lit "PINATA_SECRET_KEY");
     PINATA_JWT := getenv environ (lit "PINATA_JWT") |}.

(** One entry of the [gateways] list. *)
Record Gateway : Type := mkGateway {
  url : str;
  headers : list (str * str);
  name : str
}.

(** The GET request [requests.get(url, headers=headers, timeout=30)]. *)
Definition request_of (gateway : Gateway) : Request :=
  mkRequest GET (url gateway) (headers gateway) [] NoBody 30.

(** How one pass through the loop body ends. *)
Inductive Step (A : Type) : Type :=
| Return (a : A)
| Continue.
Arguments Return {A} a.
Arguments Continue {A}.

(** The content classes of the sniffing code of [main]. *)
Inductive Class : Type :=
| ClsJPEG
| ClsPNG
| ClsJSON
| ClsImage (format : str)
| ClsUnknown.

Definition JPEG_MAGIC : bytes := [xff; xd8; xff].
Definition PNG_MAGIC : bytes := [x89; x50; x4e; x47].

(** The file name [f"retrieved_{cid[:10]}{ext}"]. *)
Definition retrieved_name (cid : str) (extension : string) : str :=
  lit "retrieved_" ++ slice_to 10 cid ++ lit extension.

Section Program.

Context {Ext : Type} `{!External Ext} `{!Codecs}.
Variable cfg : Config.

(** *** retrieve_from_ipfs *)

(** The list built by the [append] and the [extend] at the top of
    [retrieve_from_ipfs]. *)
Definition gateways (cid : str) : list Gateway :=
  let gateways := [] in
  let gateways :=
    if truthy (PINATA_JWT cfg) then
      gateways ++
      [ {| url := lit "https://" ++ PINATA_GATEWAY cfg ++ lit "/ipfs/" ++ cid;
           headers := [ (lit "Authorization",
                         lit "Bearer " ++ default [] (PINATA_JWT cfg)) ];
           name := lit "Pinata Authenticated Gateway (JWT)" |} ]
    else gateways in
  gateways ++
  [ {| url := lit "https://ipfs.io/ipfs/" ++ cid;
       headers := [];
       name := lit "IPFS.io Public Gateway" |};
    {| url := lit "https://gateway.pinata.cloud/ipfs/" ++ cid;
       headers := [];
       name := lit "Pinata Public Gateway" |};
    {| url := lit "https://dweb.link/ipfs/" ++ cid;
       headers := [];
       name := lit "Protocol Labs dweb.link" |};
    {| url := lit "https://" ++ PINATA_GATEWAY cfg ++ lit "/ipfs/" ++ cid;
       headers := [];
       name := lit "Custom Pinata Gateway" |} ].

(** The body of [for i, gateway in enumerate(gateways)]. *)
Definition attempt (cid : str) (i : nat) (gateway : Gateway)
  : M Ext (Step bytes) :=
  try_except
    ((if Nat.eqb i 0 then print (L_retrieving cid) else ret tt) ;;
     print (L_trying (name gateway)) ;;
     response <- send (request_of gateway) ;;
     if (status_code response =? 200)%Z then
       print L_success ;;
       ret (Return (content response))
     else if (status_code response =? 403)%Z then
       print L_forbidden ;;
       ret Continue
     else if (status_code response =? 404)%Z then
       print L_not_found ;;
       ret Continue
     else
       print (L_status (status_code response)) ;;
       ret Continue)
    (fun e =>
       if is_RequestException e then
         print (L_error (slice_to 50 (exn_str e))) ;;
         ret Continue
       else raise e).

Fixpoint for_gateways (cid : str) (i : nat) (gs : list Gateway)
  : M Ext (option bytes) :=
  match gs with
  | [] => ret None
  | gateway :: rest =>
      s <- attempt cid i gateway ;;
      match s with
      | Return body => ret (Some body)
      | Continue => for_gateways cid (S i) rest
      end
  end.

Definition retrieve_from_ipfs (cid : str) : M Ext (option bytes) :=
  r <- for_gateways cid 0 (gateways cid) ;;
  match r with
  | Some body => ret (Some body)
  | None =>
      print L_failed_all ;;
      print L_maybe_unpinned ;;
      ret None
  end.

(** *** display_image *)

Definition display_image (content : bytes) (cid : str) : M Ext unit :=
  try_except
    (img <- lift (Image_open content) ;;
     print L_image_ok ;;
     print (L_image_format (img_format img)) ;;
     print (L_image_size (img_width img) (img_height img)) ;;
     print (L_image_mode (img_mode img)) ;;
     let filename := retrieved_name cid ".jpg" in
     write_file filename content ;;
     print (L_saved filename) ;;
     try_except (show img) (fun _ => print L_no_display))
    (fun e =>
       print (L_image_error e) ;;
       let filename := retrieved_name cid ".bin" in
       write_file filename content ;;
       print (L_saved_raw filename)).

(** *** display_json *)

(** The block under "If it contains base64 images, try to extract them". *)
Definition inspect (data : json) : M Ext unit :=
  has_data <- lift (py_in (lit "data") data) ;;
  if has_data : bool then
    data_obj <- lift (py_get data (lit "data") (JDict [])) ;;
    has_base <- lift (py_in (lit "baseImage") data_obj) ;;
    (if has_base : bool then
       v <- lift (py_getitem data_obj (lit "baseImage")) ;;
       n <- lift (py_len v) ;;
       print (L_base_image n)
     else ret tt) ;;
    has_depth <- lift (py_in (lit "depthImage") data_obj) ;;
    (if has_depth : bool then
       v <- lift (py_get data_obj (lit "depthImage") (JStr [])) ;;
       n <- lift (py_len v) ;;
       print (L_depth_image n)
     else ret tt) ;;
    has_depth_data <- lift (py_in (lit "depthData") data_obj) ;;
    (if has_depth_data : bool then
       depth_data <- lift (py_get data_obj (lit "depthData") (JDict [])) ;;
       print L_depth_data ;;
       shape <- lift (py_get depth_data (lit "shape") (JStr (lit "N/A"))) ;;
       print (L_shape shape) ;;
       valid <- lift (py_get depth_data (lit "valid_pixels")
                             (JStr (lit "N/A"))) ;;
       print (L_valid_pixels valid)
     else ret tt) ;;
    has_sig <- lift (py_in (lit "signature") data) ;;
    (if has_sig : bool then
       sig <- lift (py_get data (lit "signature") (JStr [])) ;;
       head <- lift (py_slice_to 30 sig) ;;
       n <- lift (py_len sig) ;;
       tail <- (if (60 <? n)%nat then lift (py_slice_last 30 sig)
                else ret (JStr [])) ;;
       print (L_signature head tail)
     else ret tt)
  else ret tt.

Definition display_json (content : bytes) (cid : str) : M Ext unit :=
  try_except
    (text <- lift (decode content) ;;
     data <- lift (json_loads text) ;;
     print L_json_ok ;;
     print (L_size (length content)) ;;
     print L_json_content ;;
     print (L_json_pretty data) ;;
     let filename := retrieved_name cid ".json" in
     write_file filename (json_dump_indent2 data) ;;
     print (L_saved filename) ;;
     inspect data)
    (fun e =>
       if is_JSONDecodeError e then
         print L_not_json ;;
         print L_first_500 ;;
         print (L_head_text (slice_to 500 content)) ;;
         let filename := retrieved_name cid ".txt" in
         write_file filename content ;;
         print (L_saved_raw filename)
       else
         print (L_json_error e) ;;
         let filename := retrieved_name cid ".bin" in
         write_file filename content ;;
         print (L_saved_raw filename)).

(** *** main *)

(** The [if]/[elif]/[else] chain of the loop body, from "Try to determine
    content type" on. *)
Definition sniff_and_display (content : bytes) (cid : str) : M Ext unit :=
  if startswith content JPEG_MAGIC then
    print (L_detected LabelJPEG) ;;
    display_image content cid
  else if startswith content PNG_MAGIC then
    print (L_detected LabelPNG) ;;
    display_image content cid
  else if startswith content (blit "{") || startswith content (blit "[") then
    print (L_detected LabelJSON) ;;
    display_json content cid
  else
    try_except
      (text <- lift (decode content) ;;
       _ <- lift (json_loads text) ;;
       print (L_detected LabelJSON) ;;
       display_json content cid)
      (fun _ =>
         try_except
           (img <- lift (Image_open content) ;;
            print (L_detected (LabelImage (img_format img))) ;;
            display_image content cid)
           (fun _ =>
              print L_unknown ;;
              print (L_size (length content)) ;;
              print (L_head_hex (slice_to 200 content)) ;;
              print (L_head_text (slice_to 200 content)) ;;
              let filename := retrieved_name cid ".bin" in
              write_file filename content ;;
              print (L_saved filename))).

(** The body of [for cid in cids]. *)
Definition loop_body (cid : str) : M Ext unit :=
  print L_rule_nl ;;
  content <- retrieve_from_ipfs cid ;;
  match content with
  | None => ret tt
  | Some content => sniff_and_display content cid
  end.

Fixpoint for_cids (cids : list str) : M Ext unit :=
  match cids with
  | [] => ret tt
  | cid :: rest => loop_body cid ;; for_cids rest
  end.

Definition image_cid : str :=
  lit "bafkreifuoydyklral6zubbjrirvvu5jdxr6dypemkppzxamnoxfwwja7lu".
Definition metadata_cid : str :=
  lit "bafybeicozdjmw4t3h7ryknzkfxe2v4anh7ablo4tvhrqvcuxqpx63g4e6u".

Definition main (argv : list str) : M Ext unit :=
  let cids :=
    if (1 <? length argv)%nat then drop 1 argv
    else [image_cid; metadata_cid] in
  print L_rule ;;
  print L_title ;;
  print L_rule ;;
  print (L_gateway (PINATA_GATEWAY cfg)) ;;
  (if truthy (PINATA_API_KEY cfg) then print L_api_auth else ret tt) ;;
  print L_blank ;;
  for_cids cids ;;
  print L_rule ;;
  print L_complete.

(** *** The sniffing code as a function of the payload *)

(** The class the branch tests of [sniff_and_display] select, read off the
    same tests in the same order. *)
Definition classify (content : bytes) : Class :=
  if startswith content JPEG_MAGIC then ClsJPEG
  else if startswith content PNG_MAGIC then ClsPNG
  else if startswith content (blit "{") || startswith content (blit "[")
  then ClsJSON
  else
    match decode content with
    | Ok text =>
        match json_loads text with
        | Ok _ => ClsJSON
        | Raise _ =>
            match Image_open content with
            | Ok img => ClsImage (img_format img)
            | Raise _ => ClsUnknown
            end
        end
    | Raise _ =>
        match Image_open content with
        | Ok img => ClsImage (img_format img)
        | Raise _ => ClsUnknown
        end
    end.

(** *** Vocabulary of the properties *)

(** A candidate's answer is a miss when it is not a 200 response: another
    status, or a transport error. *)
Definition is_miss (o : Outcome) : bool :=
  match o with
  | Responds r => negb (status_code r =? 200)%Z
  | Fails _ => true
  end.

(** Asking the candidates [gs] one after the other from the state [e] of the
    outside world: [Some e'] when every one of them misses, [e'] being the
    state they leave. *)
Fixpoint all_miss (gs : list Gateway) (e : Ext) : option Ext :=
  match gs with
  | [] => Some e
  | gateway :: rest =>
      let '(o, e') := requests_send (request_of gateway) e in
      if is_miss o then all_miss rest e' else None
  end.

(** The two rendering routines. *)
Inductive Routine : Type :=
| ImageRoutine
| JsonRoutine.

Definition render (routine : Routine) : bytes -> str -> M Ext unit :=
  match routine with
  | ImageRoutine => display_image
  | JsonRoutine => display_json
  end.

(** The payload cannot be read by the routine it was handed to: the image
    does not open, or the bytes do not decode or do not parse. *)
Definition unreadable (routine : Routine) (content : bytes) : bool :=
  match routine with
  | ImageRoutine =>
      match Image_open content with
      | Ok _ => false
      | Raise _ => true
      end
  | JsonRoutine =>
      match decode content with
      | Ok text =>
          match json_loads text with
          | Ok _ => false
          | Raise _ => true
          end
      | Raise _ => true
      end
  end.

(** Asking the candidates [gs] one after the other from the state [e]: the
    first 200 response, if there is one. *)
Fixpoint first_answer (gs : list Gateway) (e : Ext) : option Response :=
  match gs with
  | [] => None
  | gateway :: rest =>
      let '(o, e') := requests_send (request_of gateway) e in
      match o with
      | Responds r =>
          if (status_code r =? 200)%Z then Some r else first_answer rest e'
      | Fails _ => first_answer rest e'
      end
  end.

(** What [classify] says about a file left for a payload: its extension
    and its contents. *)
Definition persisted (content : bytes) (extension : string) (data : bytes)
  : Prop :=
  match classify content with
  | ClsJPEG | ClsPNG | ClsImage _ =>
      extension = match Image_open content with
                  | Ok _ => ".jpg"%string
                  | Raise _ => ".bin"%string
                  end /\
      data = content
  | ClsJSON =>
      (extension = ".json"%string /\
       exists text value,
         decode content = Ok text /\ json_loads text = Ok value /\
         data = json_dump_indent2 value) \/
      ((extension = ".txt"%string \/ extension = ".bin"%string) /\
       data = content)
  | ClsUnknown => extension = ".bin"%string /\ data = content
  end.

(** The lines a computation prints when run from [w]. *)
Definition printed {A} (m : M Ext A) (w : World Ext) : list Line :=
  drop (length (stdout w)) (stdout (snd (m w))).

End Program.

(** The classes announced by the lines of [main]: one per "Detected:" line
    and per "Unknown content type" line. *)
Definition class_of_label (l : Label) : Class :=
  match l with
  | LabelJPEG => ClsJPEG
  | LabelPNG => ClsPNG
  | LabelJSON => ClsJSON
  | LabelImage format => ClsImage format
  end.

Fixpoint announced (out : list Line) : list Class :=
  match out with
  | [] => []
  | L_detected l :: rest => class_of_label l :: announced rest
  | L_unknown :: rest => ClsUnknown :: announced rest
  | _ :: rest => announced rest
  end.

(** A computation is quiet when all it does is print lines that announce no
    class: the outside world, the exchanges and the files stay as they
    are. *)
Definition quiet {Ext A} (m : M Ext A) : Prop :=
  forall w, exists r out,
    m w = (r, mkWorld (ext w) (exchanges w) (stdout w ++ out) (files w)) /\
    announced out = [].

(** The extension [display_json] gives the raw payload after an error. *)
Definition json_extension (e : exn) : string :=
  if is_JSONDecodeError e then ".txt"%string else ".bin"%string.

(** The whitespace bytes of Python, and the first byte that is not one. *)
Definition is_space (b : byte) : bool :=
  match b with
  | x20 | x09 | x0a | x0d | x0b | x0c => true
  | _ => false
  end.

Fixpoint first_non_whitespace (content : bytes) : option byte :=
  match content with
  | [] => None
  | b :: rest => if is_space b then first_non_whitespace rest else Some b
  end.

(** The extensions of the files the program writes. *)
Definition extensions : list string := [".jpg"; ".json"; ".bin"; ".txt"]%string.

(** In the state [e] of the outside world the four files named after [cid]
    can be opened for writing. *)
Definition openable `{External Ext} (cid : str) (e : Ext) : Prop :=
  forall extension,
    In extension extensions ->
    open_error (retrieved_name cid extension) e = None.

(** The requests a full pass over the candidates makes, written out: the
    address and the headers of each, in priority order. *)
Definition candidate_requests (cfg : Config) (cid : str) : list Request :=
  (if truthy (PINATA_JWT cfg) then
     [ mkRequest GET
         (lit "https://" ++ PINATA_GATEWAY cfg ++ lit "/ipfs/" ++ cid)
         [ (lit "Authorization",
            lit "Bearer " ++ default [] (PINATA_JWT cfg)) ]
         [] NoBody 30 ]
   else []) ++
  [ mkRequest GET (lit "https://ipfs.io/ipfs/" ++ cid) [] [] NoBody 30;
    mkRequest GET (lit "https://gateway.pinata.cloud/ipfs/" ++ cid) [] []
              NoBody 30;
    mkRequest GET (lit "https://dweb.link/ipfs/" ++ cid) [] [] NoBody 30;
    mkRequest GET
      (lit "https://" ++ PINATA_GATEWAY cfg ++ lit "/ipfs/" ++ cid) [] []
      NoBody 30 ].

End RetrieveCid.

(** * main.py: the upload endpoints *)

Module UploadService.

Record Config : Type := mkConfig {
  PINATA_JWT : option str;
  PINATA_API_KEY : option str;
  PINATA_SECRET_KEY : option str;
  PINATA_GATEWAY : option str;
  SUPABASE_URL : option str;
  SUPABASE_KEY : option str
}.

(** The module-level code: reading the environment and the two checks that
    raise ValueError at import time. *)
Definition load_config (environ : gmap str str) : result Config :=
  let cfg :=
    {| PINATA_JWT := environ !! lit "PINATA_JWT";
       PINATA_API_KEY := environ !! lit "PINATA_API_KEY";
       PINATA_SECRET_KEY := environ !! lit "PINATA_SECRET_KEY";
       PINATA_GATEWAY := environ !! lit "PINATA_GATEWAY";
       SUPABASE_URL := environ !! lit "SUPABASE_URL";
       SUPABASE_KEY := py_or (environ !! lit "SUPABASE_SERVICE_ROLE_KEY")
                             (environ !! lit "SUPABASE_ANON_KEY") |} in
  if negb (truthy (PINATA_JWT cfg))
     && (negb (truthy (PINATA_API_KEY cfg))
         || negb (truthy (PINATA_SECRET_KEY cfg)))
  then Raise (ValueError (lit "Pinata credentials not found"))
  else if negb (truthy (SUPABASE_URL cfg)) || negb (truthy (SUPABASE_KEY cfg))
  then Raise (ValueError (lit "Supabase credentials not found"))
  else Ok cfg.

Definition PINATA_API_URL : str :=
  lit "https://api.pinata.cloud/pinning/pinFileToIPFS".

(** A FastAPI [UploadFile]: its [filename] and what [await image.read()]
    returns. *)
Record UploadFile : Type := mkUploadFile {
  filename : option str;
  file_bytes : bytes
}.

(** The content of the 200 [JSONResponse] of the two endpoints.  The
    [gateway_url] text f"https://{PINATA_GATEWAY}/ipfs/{cid}" is kept as the
    two values it interpolates. *)
Record UploadResult : Type := mkUploadResult {
  success : bool;
  cid : json;
  metadata_cid : option json;
  gateway_url : option str * json;
  wallet_address : str
}.

(** The routes declared by [@app.post]. *)
Inductive Endpoint : Type :=
| Upload
| UploadJson.

(** The row [data] that [store_in_supabase] posts. *)
Definition row (wallet_address : str) (image_cid metadata_cid : json) : json :=
  JDict [ (lit "wallet_address", JStr wallet_address);
          (lit "image_cid", image_cid);
          (lit "metadata_cid", metadata_cid) ].

(** [response.raise_for_status()] *)
Definition raise_for_status {Ext} (response : Response) : M Ext unit :=
  if (400 <=? status_code response)%Z && (status_code response <? 600)%Z
  then raise (RequestException (lit "HTTPError"))
  else ret tt.

Section Program.

Context {Ext : Type} `{!External Ext} `{!Codecs}.
Variable cfg : Config.

Definition response_json (response : Response) : M Ext json :=
  match Response_json response with
  | Some v => ret v
  | None => raise RequestsJSONDecodeError
  end.

(** *** upload_to_ipfs *)

Definition upload_to_ipfs (file_data : bytes) (filename : str)
    (metadata : json) : M Ext json :=
  let pinata_metadata :=
    JDict [ (lit "name", JStr filename); (lit "keyvalues", metadata) ] in
  headers <-
    (if truthy (PINATA_API_KEY cfg) && truthy (PINATA_SECRET_KEY cfg) then
       ret [ (lit "pinata_api_key", fmt_opt (PINATA_API_KEY cfg));
             (lit "pinata_secret_api_key", fmt_opt (PINATA_SECRET_KEY cfg)) ]
     else if truthy (PINATA_JWT cfg) then
       ret [ (lit "Authorization",
              lit "Bearer " ++ fmt_opt (PINATA_JWT cfg)) ]
     else raise (ValueError (lit "No Pinata credentials available"))) ;;
  let pinata_options := JDict [ (lit "cidVersion", JInt 1) ] in
  try_except
    (let upload_headers :=
       filter (fun kv => str_lower (fst kv) <> lit "content-type") headers in
     response <-
       send (mkRequest POST PINATA_API_URL upload_headers []
               (Multipart filename file_data (lit "application/octet-stream")
                          pinata_metadata pinata_options) 60) ;;
     (if negb (status_code response =? 200)%Z then
        raise (HTTPException (status_code response)
                 (PinataApiError (status_code response) (content response)))
      else ret tt) ;;
     raise_for_status response ;;
     result <- response_json response ;;
     ipfs_hash <- lift (py_get result (lit "IpfsHash") JNull) ;;
     (if negb (py_truthy ipfs_hash) then
        raise (ValueError (lit "No IPFS hash returned from Pinata"))
      else ret tt) ;;
     print (L_pinata_ok ipfs_hash) ;;
     ret ipfs_hash)
    (fun e =>
       if is_RequestException e then
         raise (HTTPException 500 (PinataUploadFailed (exn_str e)))
       else raise e).

(** *** store_in_supabase *)

Definition supabase_headers : list (str * str) :=
  [ (lit "apikey", fmt_opt (SUPABASE_KEY cfg));
    (lit "Authorization", lit "Bearer " ++ fmt_opt (SUPABASE_KEY cfg));
    (lit "Content-Type", lit "application/json");
    (lit "Prefer", lit "return=representation") ].

Definition store_in_supabase (wallet_address : str)
    (image_cid metadata_cid : json) : M Ext json :=
  try_except
    (let url := fmt_opt (SUPABASE_URL cfg) ++ lit "/rest/v1/images" in
     let headers := supabase_headers in
     let data := row wallet_address image_cid metadata_cid in
     response <- send (mkRequest POST url headers [] (JsonBody data) 10) ;;
     response <-
       (if (status_code response =? 401)%Z then
          print L_retry_quoted ;;
          let url :=
            fmt_opt (SUPABASE_URL cfg) ++ lit "/rest/v1/" ++ [34] ++ lit "images"
            ++ [34] in
          send (mkRequest POST url headers [] (JsonBody data) 10)
        else ret response) ;;
     (if (status_code response =? 401)%Z then
        print (L_supabase_error (SupabaseAuthFailed (content response))) ;;
        raise (HTTPException 401 (SupabaseAuthFailed (content response)))
      else ret tt) ;;
     (if (status_code response =? 404)%Z then
        print (L_supabase_error SupabaseTableNotFound) ;;
        raise (HTTPException 404 SupabaseTableNotFound)
      else ret tt) ;;
     raise_for_status response ;;
     result <- response_json response ;;
     print L_supabase_ok ;;
     ret result)
    (fun e =>
       if is_HTTPException e then raise e
       else if is_RequestException e then
         print (L_supabase_error (SupabaseInsertFailed (exn_str e))) ;;
         raise (HTTPException 500 (SupabaseInsertFailed (exn_str e)))
       else raise e).

(** *** The endpoints *)

(** [json.loads(metadata)] under its own [try], answering 400 on a
    JSONDecodeError. *)
Definition parse_metadata (metadata : str) : M Ext json :=
  try_except (lift (json_loads metadata))
    (fun e =>
       if is_JSONDecodeError e then raise (HTTPException 400 InvalidMetadataJson)
       else raise e).

(** The two [except] clauses that close each endpoint. *)
Definition endpoint_errors {A} (e : exn) : M Ext A :=
  if is_HTTPException e then raise e
  else raise (HTTPException 500 (UploadFailed e)).

Definition upload_capture (wallet_address : str) (image : UploadFile)
    (metadata : str) : M Ext UploadResult :=
  try_except
    (let image_data := file_bytes image in
     metadata_dict <- parse_metadata metadata ;;
     metadata_dict <-
       lift (py_setitem metadata_dict (lit "wallet_address")
                        (JStr wallet_address)) ;;
     let filename :=
       if truthy (filename image) then default [] (filename image)
       else lit "capture_" ++ slice_to 10 wallet_address ++ lit ".jpg" in
     cid <- upload_to_ipfs image_data filename metadata_dict ;;
     _ <- store_in_supabase wallet_address cid cid ;;
     ret {| success := true;
            cid := cid;
            metadata_cid := None;
            gateway_url := (PINATA_GATEWAY cfg, cid);
            wallet_address := wallet_address |})
    endpoint_errors.

Definition upload_json_capture (wallet_address : str) (image : UploadFile)
    (metadata : str) : M Ext UploadResult :=
  try_except
    (let image_data := file_bytes image in
     metadata_dict <- parse_metadata metadata ;;
     timestamp <- now ;;
     let image_filename :=
       lit "original_" ++ slice_to 10 wallet_address ++ lit "_"
       ++ str_of_Z timestamp ++ lit ".jpg" in
     print L_uploading_image ;;
     image_cid <-
       upload_to_ipfs image_data image_filename
         (JDict [ (lit "wallet_address", JStr wallet_address);
                  (lit "type", JStr (lit "original_image")) ]) ;;
     print (L_image_uploaded image_cid) ;;
     metadata_dict <-
       lift (py_setitem metadata_dict (lit "wallet_address")
                        (JStr wallet_address)) ;;
     metadata_dict <-
       lift (py_setitem metadata_dict (lit "image_cid") image_cid) ;;
     let json_bytes := json_dumps_compact metadata_dict in
     let json_filename :=
       lit "metadata_" ++ slice_to 10 wallet_address ++ lit "_"
       ++ str_of_Z timestamp ++ lit ".json" in
     print L_uploading_metadata ;;
     json_cid <-
       upload_to_ipfs json_bytes json_filename
         (JDict [ (lit "wallet_address", JStr wallet_address);
                  (lit "type", JStr (lit "metadata"));
                  (lit "image_cid", image_cid) ]) ;;
     print (L_metadata_uploaded json_cid) ;;
     print L_storing ;;
     _ <- store_in_supabase wallet_address image_cid json_cid ;;
     print (L_stored image_cid json_cid) ;;
     ret {| success := true;
            cid := image_cid;
            metadata_cid := Some json_cid;
            gateway_url := (PINATA_GATEWAY cfg, image_cid);
            wallet_address := wallet_address |})
    endpoint_errors.

(** The routing of a POST to its handler. *)
Definition handle (endpoint : Endpoint) (wallet_address : str)
    (image : UploadFile) (metadata : str) : M Ext UploadResult :=
  match endpoint with
  | Upload => upload_capture wallet_address image metadata
  | UploadJson => upload_json_capture wallet_address image metadata
  end.

(** *** Vocabulary of the properties *)

(** The identifier the pinning provider returns in an answer: the
    [IpfsHash] member of its JSON body. *)
Definition ipfs_hash_of (o : Outcome) : option json :=
  match o with
  | Responds r =>
      match Response_json r with
      | Some result =>
          match py_get result (lit "IpfsHash") JNull with
          | Ok v => Some v
          | Raise _ => None
          end
      | None => None
      end
  | Fails _ => None
  end.

(** The identifiers returned by the pinning provider in a run of
    exchanges, oldest first: one per multipart upload. *)
Definition pinned (xs : list (Request * Outcome)) : list json :=
  omap (fun x : Request * Outcome =>
          match req_payload (fst x) with
          | Multipart _ _ _ _ _ => ipfs_hash_of (snd x)
          | _ => None
          end) xs.

(** The rows posted to the record store in a run of exchanges. *)
Definition rows (xs : list (Request * Outcome)) : list json :=
  omap (fun x : Request * Outcome =>
          match req_payload (fst x) with
          | JsonBody data => Some data
          | _ => None
          end) xs.

(** The exchanges a computation makes when run from [w]. *)
Definition exchanged {A} (m : M Ext A) (w : World Ext)
  : list (Request * Outcome) :=
  drop (length (exchanges w)) (exchanges (snd (m w))).

End Program.

End UploadService.

(** * A reference environment

    Concrete instances of [Codecs] and [External], used to run the programs
    on given inputs.  The JSON reader covers the fragment of JSON made of
    objects, arrays, strings without escapes, integers and the three
    literals; the image reader covers PNG files whose header chunk, with
    its checksum, is directly followed by the first data chunk, and refuses
    everything else.  On the payloads used below they answer as [json] and
    [PIL] do. *)

Module Reference.

(** ** Reading JSON *)

Definition is_ws (c : N) : bool :=
  (c =? 32) || (c =? 9) || (c =? 10) || (c =? 13).

Fixpoint skip_ws (s : str) : str :=
  match s with
  | c :: rest => if is_ws c then skip_ws rest else s
  | [] => []
  end.

(** The body of a string after its opening quote, and what follows the
    closing quote. *)
Fixpoint scan_string (s : str) : option (str * str) :=
  match s with
  | [] => None
  | c :: rest =>
      if c =? 34 then Some ([], rest)
      else if (c =? 92) || (c <? 32) then None
      else
        match scan_string rest with
        | Some (body, rest') => Some (c :: body, rest')
        | None => None
        end
  end.

Definition is_digit (c : N) : bool := (48 <=? c) && (c <=? 57).

Fixpoint scan_digits (acc : Z) (s : str) : Z * str :=
  match s with
  | c :: rest =>
      if is_digit c then scan_digits (10 * acc + Z.of_N (c - 48))%Z rest
      else (acc, s)
  | [] => (acc, [])
  end.

(** An integer: an optional minus sign, then a single 0 or digits that do
    not start with 0.  A fraction or an exponent after it is outside the
    fragment. *)
Definition scan_int (s : str) : option (Z * str) :=
  let '(negative, s1) :=
    match s with
    | 45 :: rest => (true, rest)
    | _ => (false, s)
    end in
  match s1 with
  | c :: rest =>
      if is_digit c then
        let '(n, rest') := if c =? 48 then (0%Z, rest) else scan_digits 0 s1 in
        match rest' with
        | 46 :: _ | 101 :: _ | 69 :: _ => None
        | _ => Some (if negative then (- n)%Z else n, rest')
        end
      else None
  | [] => None
  end.

Fixpoint parse_value (fuel : nat) (s : str) : option (json * str) :=
  match fuel with
  | O => None
  | S fuel' =>
      match s with
      | 123 :: rest =>
          match skip_ws rest with
          | 125 :: rest' => Some (JDict [], rest')
          | rest' => parse_members fuel' [] rest'
          end
      | 91 :: rest =>
          match skip_ws rest with
          | 93 :: rest' => Some (JList [], rest')
          | rest' => parse_items fuel' [] rest'
          end
      | 34 :: rest =>
          match scan_string rest with
          | Some (body, rest') => Some (JStr body, rest')
          | None => None
          end
      | 116 :: 114 :: 117 :: 101 :: rest => Some (JBool true, rest)
      | 102 :: 97 :: 108 :: 115 :: 101 :: rest => Some (JBool false, rest)
      | 110 :: 117 :: 108 :: 108 :: rest => Some (JNull, rest)
      | _ =>
          match scan_int s with
          | Some (n, rest) => Some (JInt n, rest)
          | None => None
          end
      end
  end
with parse_items (fuel : nat) (acc : list json) (s : str)
  : option (json * str) :=
  match fuel with
  | O => None
  | S fuel' =>
      match parse_value fuel' s with
      | Some (v, rest) =>
          match skip_ws rest with
          | 44 :: rest' => parse_items fuel' (acc ++ [v]) (skip_ws rest')
          | 93 :: rest' => Some (JList (acc ++ [v]), rest')
          | _ => None
          end
      | None => None
      end
  end
with parse_members (fuel : nat) (acc : list (str * json)) (s : str)
  : option (json * str) :=
  match fuel with
  | O => None
  | S fuel' =>
      match s with
      | 34 :: rest =>
          match scan_string rest with
          | Some (key, rest1) =>
              match skip_ws rest1 with
              | 58 :: rest2 =>
                  match parse_value fuel' (skip_ws rest2) with
                  | Some (v, rest3) =>
                      match skip_ws rest3 with
                      | 44 :: rest4 =>
                          parse_members fuel' (dict_set acc key v)
                                        (skip_ws rest4)
                      | 125 :: rest4 => Some (JDict (dict_set acc key v), rest4)
                      | _ => None
                      end
                  | None => None
                  end
              | _ => None
              end
          | None => None
          end
      | _ => None
      end
  end.

Definition json_loads_ref (text : str) : result json :=
  match parse_value (2 * length text + 2) (skip_ws text) with
  | Some (v, rest) =>
      match skip_ws rest with
      | [] => Ok v
      | _ => Raise JSONDecodeError
      end
  | None => Raise JSONDecodeError
  end.

(** ** Writing JSON *)

Definition hex_digit (n : N) : N := if n <? 10 then 48 + n else 87 + n.

Definition hex4 (n : N) : str :=
  [ hex_digit (n / 4096 mod 16); hex_digit (n / 256 mod 16);
    hex_digit (n / 16 mod 16); hex_digit (n mod 16) ].

(** One character of a string under [ensure_ascii]; 92 is the backslash. *)
Definition escape (c : N) : str :=
  if c =? 34 then [92; 34]
  else if c =? 92 then [92; 92]
  else if c =? 10 then 92 :: lit "n"
  else if c =? 13 then 92 :: lit "r"
  else if c =? 9 then 92 :: lit "t"
  else if c =? 8 then 92 :: lit "b"
  else if c =? 12 then 92 :: lit "f"
  else if (32 <=? c) && (c <=? 126) then [c]
  else if c <? 65536 then 92 :: lit "u" ++ hex4 c
  else
    let v := c - 65536 in
    92 :: lit "u" ++ hex4 (55296 + v / 1024)
    ++ 92 :: lit "u" ++ hex4 (56320 + v mod 1024).

Definition quote (s : str) : str := [34] ++ flat_map escape s ++ [34].

Fixpoint join (sep : str) (parts : list str) : str :=
  match parts with
  | [] => []
  | [p] => p
  | p :: rest => p ++ sep ++ join sep rest
  end.

Definition newline_indent (level : nat) : str := 10 :: repeat 32 (2 * level)%nat.

(** [json.dumps(v, indent=2)] *)
Fixpoint dumps_indent2 (level : nat) (v : json) : str :=
  match v with
  | JNull => lit "null"
  | JBool true => lit "true"
  | JBool false => lit "false"
  | JInt n => str_of_Z n
  | JFloat repr => repr
  | JStr s => quote s
  | JList [] => lit "[]"
  | JList items =>
      lit "[" ++ newline_indent (S level)
      ++ join (lit "," ++ newline_indent (S level))
              (map (dumps_indent2 (S level)) items)
      ++ newline_indent level ++ lit "]"
  | JDict [] => lit "{}"
  | JDict d =>
      lit "{" ++ newline_indent (S level)
      ++ join (lit "," ++ newline_indent (S level))
              (map (fun kv => let '(k, x) := kv in
                              quote k ++ lit ": " ++ dumps_indent2 (S level) x)
                   d)
      ++ newline_indent level ++ lit "}"
  end.

(** [json.dumps(v, separators=(',', ':'))] *)
Fixpoint dumps_compact (v : json) : str :=
  match v with
  | JNull => lit "null"
  | JBool true => lit "true"
  | JBool false => lit "false"
  | JInt n => str_of_Z n
  | JFloat repr => repr
  | JStr s => quote s
  | JList items => lit "[" ++ join (lit ",") (map dumps_compact items) ++ lit "]"
  | JDict d =>
      lit "{"
      ++ join (lit ",")
              (map (fun kv => let '(k, x) := kv in
                              quote k ++ lit ":" ++ dumps_compact x) d)
      ++ lit "}"
  end.

(** The bytes of an ASCII text. *)
Definition ascii_bytes (s : str) : bytes :=
  map (fun c => default x00 (Byte.of_N c)) s.

(** ** Reading a PNG header *)

Definition be32 (b3 b2 b1 b0 : byte) : Z :=
  Z.of_N (((Byte.to_N b3 * 256 + Byte.to_N b2) * 256 + Byte.to_N b1) * 256
          + Byte.to_N b0).

Definition png_mode (depth colour : byte) : option str :=
  match depth, colour with
  | x08, x00 => Some (lit "L")
  | x08, x02 => Some (lit "RGB")
  | x08, x03 => Some (lit "P")
  | x08, x04 => Some (lit "LA")
  | x08, x06 => Some (lit "RGBA")
  | _, _ => None
  end.

(** The CRC-32 of PNG chunks. *)
Fixpoint crc_shift (n : nat) (c : N) : N :=
  match n with
  | O => c
  | S n =>
      crc_shift n (if N.odd c then N.lxor (N.shiftr c 1) 3988292384
                   else N.shiftr c 1)
  end.

Definition crc32 (data : bytes) : N :=
  N.lxor
    (fold_left (fun c b => crc_shift 8 (N.lxor c (Byte.to_N b))) data
               4294967295)
    4294967295.

(** [Image.open] on a PNG file: the signature, the IHDR chunk with a valid
    checksum and a known mode, then the header of the first IDAT chunk,
    where PIL stops reading.  A file that ends before that chunk is
    refused. *)
Definition Image_open_ref (content : bytes) : result ImageInfo :=
  match content with
  | x89 :: x50 :: x4e :: x47 :: x0d :: x0a :: x1a :: x0a
    :: x00 :: x00 :: x00 :: x0d :: x49 :: x48 :: x44 :: x52
    :: w3 :: w2 :: w1 :: w0 :: h3 :: h2 :: h1 :: h0
    :: depth :: colour :: compression :: filtering :: interlace
    :: c3 :: c2 :: c1 :: c0
    :: _ :: _ :: _ :: _ :: x49 :: x44 :: x41 :: x54 :: _ =>
      if (Z.of_N
            (crc32 [ x49; x48; x44; x52; w3; w2; w1; w0; h3; h2; h1; h0;
                     depth; colour; compression; filtering; interlace ])
          =? be32 c3 c2 c1 c0)%Z
      then
        match png_mode depth colour, filtering with
        | Some mode, x00 =>
            Ok (mkImageInfo (lit "PNG") (be32 w3 w2 w1 w0)
                            (be32 h3 h2 h1 h0) mode)
        | _, _ => Raise UnidentifiedImageError
        end
      else Raise UnidentifiedImageError
  | _ => Raise UnidentifiedImageError
  end.

#[export] Instance codecs : Codecs := {|
  Image_open := Image_open_ref;
  json_loads := json_loads_ref;
  json_dump_indent2 := fun v => ascii_bytes (dumps_indent2 0 v);
  json_dumps_compact := fun v => ascii_bytes (dumps_compact v);
  Response_json := fun r =>
    match utf8_decode (content r) with
    | Some text =>
        match json_loads_ref text with
        | Ok v => Some v
        | Raise _ => None
        end
    | None => None
    end
|}.

(** ** A scripted outside world *)

(** The answers the network will give, in order, whatever is asked; once
    the script is used up every request fails.  No image viewer is
    available and the clock stands still.  The working directory is
    writable and has no subdirectory: a file opens unless its name holds a
    slash. *)
Record Script : Type := mkScript {
  answers : list Outcome;
  clock : Z
}.

#[export] Instance scripted : External Script := {|
  requests_send := fun _ s =>
    match answers s with
    | o :: rest => (o, mkScript rest (clock s))
    | [] => (Fails (lit "connection refused"), s)
    end;
  Image_show := fun _ s => (Raise (OtherException (lit "no viewer")), s);
  time_time := fun s => (clock s, s);
  open_error := fun filename _ =>
    if existsb (N.eqb 47) filename
    then Some (lit "[Errno 2] No such file or directory")
    else None
|}.

(** A world in which nothing has happened yet. *)
Definition fresh (answers : list Outcome) : World Script :=
  mkWorld (mkScript answers 1700000000) [] [] ∅.

Definition respond (status : Z) (body : bytes) : Outcome :=
  Responds (mkResponse status [] body).

End Reference.


(** * Scenarios

    Concrete configurations, identifiers, payloads and network scripts on
    which the programs are run. *)

Module Scenario.
Import Reference.

(** A bytes literal in which the apostrophe stands for the double quote. *)
Definition dq (s : string) : bytes :=
  map (fun b => match b with x27 => x22 | _ => b end) (blit s).

(** No variable set: the default gateway host, no credentials. *)
Definition cfg_public : RetrieveCid.Config := RetrieveCid.load_config ∅.

(** A bearer token is set and the gateway host is a public one. *)
Definition cfg_jwt_on_public_host : RetrieveCid.Config :=
  RetrieveCid.load_config {[ lit "PINATA_JWT" := lit "secret-token";
                             lit "PINATA_GATEWAY" := lit "ipfs.io" ]}.

(** A bearer token is set. *)
Definition cfg_jwt : RetrieveCid.Config :=
  RetrieveCid.load_config {[ lit "PINATA_JWT" := lit "secret-token" ]}.

Definition X : str := RetrieveCid.metadata_cid.
Definition Y : str := RetrieveCid.image_cid.

Definition ipfs_io (cid : str) : RetrieveCid.Gateway :=
  RetrieveCid.mkGateway (lit "https://ipfs.io/ipfs/" ++ cid) []
                        (lit "IPFS.io Public Gateway").
Definition pinata_public (cid : str) : RetrieveCid.Gateway :=
  RetrieveCid.mkGateway (lit "https://gateway.pinata.cloud/ipfs/" ++ cid) []
                        (lit "Pinata Public Gateway").
Definition dweb_link (cid : str) : RetrieveCid.Gateway :=
  RetrieveCid.mkGateway (lit "https://dweb.link/ipfs/" ++ cid) []
                        (lit "Protocol Labs dweb.link").
Definition custom (cid : str) : RetrieveCid.Gateway :=
  RetrieveCid.mkGateway
    (lit "https://amethyst-impossible-ptarmigan-368.mypinata.cloud/ipfs/"
     ++ cid) []
    (lit "Custom Pinata Gateway").

(** The first gateway times out, the second answers 404, the third answers
    200 with a JSON body. *)
Definition wallet_body : bytes := dq "{'wallet_address':'0xabc'}".
Definition wallet_response : Response := mkResponse 200 [] wallet_body.

Definition third_answers : list Outcome :=
  [ Fails (lit "Read timed out."); respond 404 []; Responds wallet_response ].

(** Every gateway misses. *)
Definition nobody_answers : list Outcome :=
  [ Fails (lit "Read timed out."); respond 404 []; respond 403 [];
    respond 500 [] ].

(** A second failing identifier followed by one that the first gateway
    serves. *)
Definition fails_then_answers : list Outcome :=
  nobody_answers ++ [ Responds wallet_response ].


(** An identifier whose first ten characters hold a slash: the files named
    after it lie in a directory that does not exist. *)
Definition slashed : str := lit "a/b".

(** Payloads. *)
Definition space_brace : bytes := blit " {".
Definition one_in_brackets : bytes := blit "[1]".
Definition not_json : bytes := blit "{not json".
Definition truncated_png : bytes := [x89; x50; x4e; x47].
Definition dead_beef : bytes := [xde; xad; xbe; xef].

Definition space_then_object : bytes := dq " {'a':1}".

(** [wallet_body] as [json.dump] with indent 2 writes it back. *)
Definition wallet_pretty : bytes :=
  blit "{" ++ [x0a] ++ dq "  'wallet_address': '0xabc'" ++ [x0a] ++ blit "}".

(** A complete PNG file: one RGBA pixel. *)
Definition one_pixel_png : bytes :=
  [ x89; x50; x4e; x47; x0d; x0a; x1a; x0a;
    x00; x00; x00; x0d; x49; x48; x44; x52;
    x00; x00; x00; x01; x00; x00; x00; x01; x08; x06; x00; x00; x00;
    x1f; x15; xc4; x89;
    x00; x00; x00; x0a; x49; x44; x41; x54;
    x78; x9c; x63; x00; x01; x00; x00; x05; x00; x01;
    x0d; x0a; x2d; xb4;
    x00; x00; x00; x00; x49; x45; x4e; x44; xae; x42; x60; x82 ].

(** The upload service: a bearer token and the record store are set. *)
Definition sq (s : string) : str := map Byte.to_N (dq s).

Definition service_environ : gmap str str :=
  {[ lit "PINATA_JWT" := lit "secret-token";
     lit "SUPABASE_URL" := lit "https://db.example";
     lit "SUPABASE_ANON_KEY" := lit "anon-key" ]}.

Definition service_cfg : UploadService.Config :=
  UploadService.mkConfig (Some (lit "secret-token")) None None None
                         (Some (lit "https://db.example"))
                         (Some (lit "anon-key")).

Definition wallet : str := lit "0xabc".
Definition capture : UploadService.UploadFile :=
  UploadService.mkUploadFile (Some (lit "capture.jpg")) [xff; xd8; xff; xe0].
Definition capture_metadata : str := sq "{'depth':1}".

Definition hash_one : json := JStr (lit "bafkreiaaa").
Definition hash_two : json := JStr (lit "bafkreibbb").

(** The provider pins what it is sent and the record store accepts the
    row; before that, the record store once answers 401. *)
Definition pin_then_store : list Outcome :=
  [ respond 200 (dq "{'IpfsHash':'bafkreiaaa'}");
    respond 401 (dq "{'message':'no'}");
    respond 201 (dq "[{'id':1}]") ].

Definition pin_twice_then_store : list Outcome :=
  [ respond 200 (dq "{'IpfsHash':'bafkreiaaa'}");
    respond 200 (dq "{'IpfsHash':'bafkreibbb'}");
    respond 201 (dq "[{'id':2}]") ].

End Scenario.

(** * Which documents [display_json] can inspect *)

Module Inspection.

(** [len(v)] is defined. *)
Definition sized (v : json) : bool :=
  match v with
  | JStr _ | JList _ | JDict _ => true
  | _ => false
  end.

(** [v[:30]], [len(v)] and [v[-30:]] are defined. *)
Definition sliceable (v : json) : bool :=
  match v with
  | JStr _ | JList _ => true
  | _ => false
  end.

Definition is_dict (v : json) : bool :=
  match v with
  | JDict _ => true
  | _ => false
  end.

(** A member that may be absent and satisfies [p] when present. *)
Definition field_ok (p : json -> bool) (o : option json) : bool :=
  match o with
  | None => true
  | Some v => p v
  end.

(** [name in v] holds (and does not raise). *)
Definition present (name : string) (v : json) : bool :=
  match py_in (lit name) v with
  | Ok b => b
  | Raise _ => false
  end.

(** The test [name in obj] and the access that follows it go through: in a
    dict the member is absent or satisfies [p]; a list or a string passes
    only when it does not contain [name], since it has neither [get] nor a
    string index. *)
Definition member_ok (p : json -> bool) (name : string) (obj : json) : bool :=
  match obj with
  | JDict o => field_ok p (dict_lookup o (lit name))
  | JList _ | JStr _ => negb (present name obj)
  | _ => false
  end.

(** The value of the [data] member lets the three tests and the accesses
    that follow them go through. *)
Definition data_obj_ok (data_obj : json) : bool :=
  member_ok sized "baseImage" data_obj
  && member_ok sized "depthImage" data_obj
  && member_ok is_dict "depthData" data_obj.

(** The documents on which the block of [display_json] that looks for
    base64 images runs to its end. *)
Definition inspectable (data : json) : bool :=
  match data with
  | JDict d =>
      match dict_lookup d (lit "data") with
      | None => true
      | Some data_obj =>
          data_obj_ok data_obj
          && field_ok sliceable (dict_lookup d (lit "signature"))
      end
  | JList _ | JStr _ => negb (present "data" data)
  | _ => false
  end.

(** A computation that only prints lines announcing no class and ends as
    [ok] tells: normally when [ok] is true, with an error that is not a
    JSONDecodeError when it is false. *)
Definition ends {Ext} (m : M Ext unit) (ok : bool) : Prop :=
  forall w, exists r out,
    m w = (r, mkWorld (ext w) (exchanges w) (stdout w ++ out) (files w)) /\
    RetrieveCid.announced out = [] /\
    match r with
    | Ok _ => ok = true
    | Raise e => ok = false /\ is_JSONDecodeError e = false
    end.

(** No string of the document holds a surrogate code point: every text
    [display_json] prints from it can be encoded by a strict standard
    output. *)
Definition encodable (s : str) : bool :=
  forallb (fun c => (c <? 55296) || (57343 <? c)) s.

Fixpoint surrogate_free (v : json) : bool :=
  match v with
  | JStr s => encodable s
  | JList items => forallb surrogate_free items
  | JDict d =>
      forallb (fun kv => match kv with
                         | (k, x) => encodable k && surrogate_free x
                         end) d
  | _ => true
  end.

End Inspection.

(** * Computations that stay with one identifier *)

Module Locality.
Import RetrieveCid.

(** The name is none of the four file names derived from [cid]. *)
Definition foreign (cid name : str) : Prop :=
  forall extension,
    In extension extensions -> name <> retrieved_name cid extension.

(** Whatever its end, the computation makes no HTTP exchange, only adds
    lines to the output, and leaves every file foreign to [cid] as it
    was. *)
Definition framed {Ext A} (cid : str) (m : M Ext A) : Prop :=
  forall w, exists r w' out,
    m w = (r, w') /\
    exchanges w' = exchanges w /\
    stdout w' = stdout w ++ out /\
    forall name, foreign cid name -> files w' !! name = files w !! name.

(** The same, and the first class the computation announces is [c]. *)
Definition headed {Ext A} (cid : str) (c : Class) (m : M Ext A) : Prop :=
  forall w, exists r w' out,
    m w = (r, w') /\
    exchanges w' = exchanges w /\
    stdout w' = stdout w ++ out /\
    hd_error (announced out) = Some c /\
    forall name, foreign cid name -> files w' !! name = files w !! name.

End Locality.

(** * The identifiers of a run *)

Module Batch.


End Batch.

(** * The decisions of the upload service *)

Module Service.
Import UploadService.

Section Tables.

Context {lib : Codecs}.
Variable cfg : Config.

(** The credentials [upload_to_ipfs] sends: the key pair when both parts
    are set, else the bearer token, else none. *)
Definition pinata_headers : option (list (str * str)) :=
  if truthy (PINATA_API_KEY cfg) && truthy (PINATA_SECRET_KEY cfg) then
    Some [ (lit "pinata_api_key", fmt_opt (PINATA_API_KEY cfg));
           (lit "pinata_secret_api_key", fmt_opt (PINATA_SECRET_KEY cfg)) ]
  else if truthy (PINATA_JWT cfg) then
    Some [ (lit "Authorization", lit "Bearer " ++ fmt_opt (PINATA_JWT cfg)) ]
  else None.

(** The one request of [upload_to_ipfs]. *)
Definition pin_request (headers : list (str * str)) (file_data : bytes)
    (filename : str) (metadata : json) : Request :=
  mkRequest POST PINATA_API_URL headers []
    (Multipart filename file_data (lit "application/octet-stream")
       (JDict [ (lit "name", JStr filename); (lit "keyvalues", metadata) ])
       (JDict [ (lit "cidVersion", JInt 1) ]))
    60.

(** What [upload_to_ipfs] makes of the provider's answer. *)
Definition pin_result (o : Outcome) : result json :=
  match o with
  | Fails msg => Raise (HTTPException 500 (PinataUploadFailed msg))
  | Responds r =>
      if (status_code r =? 200)%Z then
        match Response_json r with
        | None => Raise (HTTPException 500 (PinataUploadFailed []))
        | Some result =>
            match py_get result (lit "IpfsHash") JNull with
            | Raise e => Raise e
            | Ok ipfs_hash =>
                if py_truthy ipfs_hash then Ok ipfs_hash
                else Raise (ValueError (lit "No IPFS hash returned from Pinata"))
            end
        end
      else
        Raise (HTTPException (status_code r)
                 (PinataApiError (status_code r) (content r)))
  end.

(** The request of [store_in_supabase], to the plain or to the quoted
    table name. *)
Definition insert_request (quoted : bool) (wallet_address : str)
    (image_cid metadata_cid : json) : Request :=
  mkRequest POST
    (if quoted then
       fmt_opt (SUPABASE_URL cfg) ++ lit "/rest/v1/" ++ [34] ++ lit "images"
       ++ [34]
     else fmt_opt (SUPABASE_URL cfg) ++ lit "/rest/v1/images")
    (supabase_headers cfg) []
    (JsonBody (row wallet_address image_cid metadata_cid)) 10.

(** What [store_in_supabase] makes of the answer it settles on. *)
Definition insert_result (o : Outcome) : result json :=
  match o with
  | Fails msg => Raise (HTTPException 500 (SupabaseInsertFailed msg))
  | Responds r =>
      if (status_code r =? 401)%Z then
        Raise (HTTPException 401 (SupabaseAuthFailed (content r)))
      else if (status_code r =? 404)%Z then
        Raise (HTTPException 404 SupabaseTableNotFound)
      else if (400 <=? status_code r)%Z && (status_code r <? 600)%Z then
        Raise (HTTPException 500 (SupabaseInsertFailed (lit "HTTPError")))
      else
        match Response_json r with
        | None => Raise (HTTPException 500 (SupabaseInsertFailed []))
        | Some result => Ok result
        end
  end.

(** The first answer asks for the retry: a 401 response. *)
Definition unauthorized (o : Outcome) : bool :=
  match o with
  | Responds r => (status_code r =? 401)%Z
  | Fails _ => false
  end.

(** The [keyvalues] a multipart request carries. *)
Definition keyvalues_of (rq : Request) : option json :=
  match req_payload rq with
  | Multipart _ _ _ (JDict d) _ => dict_lookup d (lit "keyvalues")
  | _ => None
  end.

End Tables.




End Service.

(** * The registration check *)

Module Registration.
Import UploadService.

(** What leaves [check_registration]: the content of its 200 JSONResponse;
    the HTTPException of status 500 whose detail is the text Registration
    check failed followed by the text of the error; or an exception that
    its one [except] clause does not catch. *)
Inductive Reply : Type :=
| Content (registered : bool) (wallet_address : str)
| CheckFailed (msg : str)
| Uncaught (e : exn).

Section Program.

Context {Ext : Type} {io : External Ext} {lib : Codecs}.
Variable cfg : Config.

(** [requests.get(url, headers=headers, params=params, timeout=10)] *)
Definition lookup_request (wallet_address : str) : Request :=
  mkRequest GET (fmt_opt (SUPABASE_URL cfg) ++ lit "/rest/v1/Devices")
    [ (lit "apikey", fmt_opt (SUPABASE_KEY cfg));
      (lit "Authorization", lit "Bearer " ++ fmt_opt (SUPABASE_KEY cfg));
      (lit "Content-Type", lit "application/json") ]
    [ (lit "wallet_address", lit "eq." ++ wallet_address);
      (lit "select", lit "wallet_address") ]
    NoBody 10.

(** The body of the [try], up to the value of [is_registered]. *)
Definition is_registered (wallet_address : str) : M Ext bool :=
  response <- send (lookup_request wallet_address) ;;
  raise_for_status response ;;
  data <- response_json response ;;
  n <- lift (py_len data) ;;
  ret (0 <? n)%nat.

Definition check_registration (wallet_address : str)
  : World Ext -> Reply * World Ext :=
  fun w =>
    match is_registered wallet_address w with
    | (Ok registered, w') => (Content registered wallet_address, w')
    | (Raise e, w') =>
        (if is_RequestException e then CheckFailed (exn_str e)
         else Uncaught e, w')
    end.

End Program.

End Registration.

(** * More scenarios *)

Module Scenario2.
Import Reference Scenario.

(** A JSON list that contains the string data. *)
Definition list_with_data : bytes := dq "['data']".

(** An identifier that shares its first ten characters with [Y]. *)
Definition Y_sibling : str := take 10 Y ++ lit "zzzzzzzz".

(** A complete one-pixel greyscale PNG. *)
Definition grey_pixel_png : bytes :=
  [ x89; x50; x4e; x47; x0d; x0a; x1a; x0a;
    x00; x00; x00; x0d; x49; x48; x44; x52;
    x00; x00; x00; x01; x00; x00; x00; x01; x08; x00; x00; x00; x00;
    x3a; x7e; x9b; x55;
    x00; x00; x00; x0a; x49; x44; x41; x54;
    x78; x9c; x63; x60; x00; x00; x00; x02; x00; x01;
    x48; xaf; xa4; x71;
    x00; x00; x00; x00; x49; x45; x4e; x44; xae; x42; x60; x82 ].


(** An upload service started without any credential for the provider. *)
Definition bare_cfg : UploadService.Config :=
  UploadService.mkConfig None None None None
                         (Some (lit "https://db.example"))
                         (Some (lit "anon-key")).

(** The headers [service_cfg] sends to the provider. *)
Definition token_headers : list (str * str) :=
  [ (lit "Authorization", lit "Bearer secret-token") ].

(** Metadata texts: not JSON; JSON but a list; an object that names
    another wallet. *)
Definition broken_metadata : str := lit "{not json".
Definition list_metadata : str := lit "[1]".
Definition claiming_metadata : str :=
  sq "{'wallet_address':'0xother','depth':1}".

(** Answers of the record store to the registration check: one device, no
    device, an error object, a bare number. *)
Definition one_device : Outcome :=
  respond 200 (dq "[{'wallet_address':'0xabc'}]").
Definition no_device : Outcome := respond 200 (blit "[]").
Definition error_object : Outcome := respond 200 (dq "{'message':'no'}").
Definition bare_number : Outcome := respond 200 (blit "1").

(** The provider is out of quota. *)
Definition over_quota : Outcome := respond 429 (blit "slow down").

End Scenario2.

(** * Quiet computations *)

Module QuietFacts.
Import RetrieveCid.

Lemma announced_app out1 out2 :
  announced (out1 ++ out2) = announced out1 ++ announced out2.
Proof.
  induction out1 as [| l out1 IH]; [ reflexivity | ].
  destruct l; simpl; try assumption.
  all: rewrite IH; reflexivity.
Qed.

Section Facts.

Context {Ext : Type}.

Lemma quiet_ret {A} (a : A) : quiet (Ext := Ext) (ret a).
Proof.
  intros [e x o f]. exists (Ok a), []. simpl. rewrite app_nil_r. auto.
Qed.

Lemma quiet_raise {A} e : quiet (Ext := Ext) (raise (A := A) e).
Proof.
  intros [e0 x o f]. exists (Raise e), []. simpl. rewrite app_nil_r. auto.
Qed.

Lemma quiet_lift {A} (r : result A) : quiet (Ext := Ext) (lift r).
Proof.
  intros [e x o f]. exists r, []. simpl. rewrite app_nil_r. auto.
Qed.

Lemma quiet_print l : announced [l] = [] -> quiet (Ext := Ext) (print l).
Proof. intros Hl w. exists (Ok tt), [l]. auto. Qed.

Lemma quiet_bind {A B} (m : M Ext A) (k : A -> M Ext B) :
  quiet m -> (forall a, quiet (k a)) -> quiet (bind m k).
Proof.
  intros Hm Hk w. destruct (Hm w) as (r & out & Hrun & Hout).
  unfold bind. rewrite Hrun. destruct r as [a | e].
  - destruct (Hk a (mkWorld (ext w) (exchanges w) (stdout w ++ out) (files w)))
      as (r' & out' & Hrun' & Hout').
    exists r', (out ++ out'). rewrite Hrun'. simpl.
    rewrite app_assoc, announced_app, Hout, Hout'. auto.
  - exists (Raise e), out. auto.
Qed.

Lemma quiet_if {A} (b : bool) (m1 m2 : M Ext A) :
  quiet m1 -> quiet m2 -> quiet (if b then m1 else m2).
Proof. destruct b; auto. Qed.

End Facts.

Ltac quiet_steps :=
  repeat first
    [ apply quiet_ret | apply quiet_raise | apply quiet_lift
    | apply quiet_print; reflexivity
    | apply quiet_if
    | apply quiet_bind; [ | intros ? ] ].

(** Closes a goal on a run that has been unfolded down to its final world. *)
Ltac settle :=
  eexists _, _; split; [ reflexivity | ]; cbn;
  repeat split; rewrite <- ?app_assoc; try reflexivity.

End QuietFacts.
(** * The gateway fallback resolver *)

Module ResolverFacts.
Import RetrieveCid QuietFacts.

Section Facts.

Context {Ext : Type} `{!External Ext} `{!Codecs}.
Variable cfg : Config.

(** What one pass through the loop body leaves behind, whatever its end:
    one more exchange, the answer of the outside world to the candidate's
    request, and no file touched. *)
Lemma attempt_exchange cid i gateway (w : World Ext) :
  exists s w1,
    attempt cid i gateway w = (Ok s, w1) /\
    ext w1 = snd (requests_send (request_of gateway) (ext w)) /\
    exchanges w1 =
      exchanges w
      ++ [(request_of gateway,
           fst (requests_send (request_of gateway) (ext w)))] /\
    files w1 = files w /\
    s = match fst (requests_send (request_of gateway) (ext w)) with
        | Responds r =>
            if (status_code r =? 200)%Z then Return (content r) else Continue
        | Fails _ => Continue
        end.
Proof.
  unfold attempt, try_except, bind, send, print, ret.
  destruct (Nat.eqb i 0); cbn;
    destruct (requests_send (request_of gateway) (ext w)) as [[r | msg] e'];
    cbn.
  all: try (destruct (status_code r =? 200)%Z; cbn;
            [ | destruct (status_code r =? 403)%Z; cbn;
                [ | destruct (status_code r =? 404)%Z; cbn ] ]).
  all: eexists _, _; repeat split; reflexivity.
Qed.

Lemma sent_app_exchange (w w1 : World Ext) rq o :
  exchanges w1 = exchanges w ++ [(rq, o)] -> sent w1 = sent w ++ [rq].
Proof. unfold sent. intros ->. rewrite map_app. reflexivity. Qed.

(** Misses carry the loop forward: after the candidates [pre] have all
    missed, the loop stands before the remaining ones. *)
Lemma for_gateways_misses cid pre :
  forall i (w : World Ext) e1 rest,
    all_miss pre (ext w) = Some e1 ->
    exists w1,
      for_gateways cid i (pre ++ rest) w
      = for_gateways cid (i + length pre) rest w1 /\
      ext w1 = e1 /\
      sent w1 = sent w ++ map request_of pre /\
      files w1 = files w.
Proof.
  induction pre as [| gateway pre IH]; intros i w e1 rest Hmiss.
  - simpl in *. injection Hmiss as <-. exists w.
    rewrite Nat.add_0_r, app_nil_r. auto.
  - simpl in Hmiss.
    destruct (attempt_exchange cid i gateway w)
      as (s & w1 & Hrun & Hext & Hlog & Hfiles & Hs).
    destruct (requests_send (request_of gateway) (ext w)) as [o e'] eqn:Hsend.
    simpl in *.
    destruct (is_miss o) eqn:Ho; [ | discriminate ].
    assert (s = Continue) as ->.
    { subst s. destruct o as [r | msg]; [ | reflexivity ].
      simpl in Ho. destruct (status_code r =? 200)%Z; [ discriminate | reflexivity ]. }
    rewrite <- Hext in Hmiss.
    destruct (IH (S i) w1 e1 rest Hmiss) as (w2 & Hloop & Hext2 & Hsent2 & Hfiles2).
    exists w2. unfold bind at 1. rewrite Hrun.
    rewrite Hloop. replace (i + S (length pre))%nat with (S i + length pre)%nat by lia.
    repeat split; auto.
    + rewrite Hsent2, (sent_app_exchange _ _ _ _ Hlog), <- app_assoc. reflexivity.
    + congruence.
Qed.


(** The resolver never raises; what it prints announces no class and it
    touches no file. *)
Lemma attempt_prints cid i gateway (w : World Ext) :
  exists s w1 out,
    attempt cid i gateway w = (Ok s, w1) /\
    stdout w1 = stdout w ++ out /\ announced out = [] /\
    files w1 = files w.
Proof.
  unfold attempt, try_except, bind, send, print, ret.
  destruct (Nat.eqb i 0); cbn;
    destruct (requests_send (request_of gateway) (ext w)) as [[r | msg] e'];
    cbn.
  all: try (destruct (status_code r =? 200)%Z; cbn;
            [ | destruct (status_code r =? 403)%Z; cbn;
                [ | destruct (status_code r =? 404)%Z; cbn ] ]).
  all: eexists _, _, _; split; [ reflexivity | ]; cbn;
    repeat split; rewrite <- ?app_assoc; reflexivity.
Qed.

Lemma for_gateways_prints cid gs :
  forall i (w : World Ext),
    exists r w1 out,
      for_gateways cid i gs w = (Ok r, w1) /\
      stdout w1 = stdout w ++ out /\ announced out = [] /\
      files w1 = files w.
Proof.
  induction gs as [| gateway gs IH]; intros i w.
  - exists None, w, []. simpl. rewrite app_nil_r. auto.
  - destruct (attempt_prints cid i gateway w)
      as (s & w1 & out1 & Hrun & Ho1 & Ha1 & Hf1).
    simpl. unfold bind at 1. rewrite Hrun. destruct s as [body | ].
    + exists (Some body), w1, out1. auto.
    + destruct (IH (S i) w1) as (r & w2 & out2 & Hloop & Ho2 & Ha2 & Hf2).
      exists r, w2, (out1 ++ out2). rewrite Hloop.
      repeat split.
      * rewrite Ho2, Ho1, <- app_assoc. reflexivity.
      * rewrite announced_app, Ha1, Ha2. reflexivity.
      * congruence.
Qed.

Lemma retrieve_from_ipfs_prints cid (w : World Ext) :
  exists r w1 out,
    retrieve_from_ipfs cfg cid w = (Ok r, w1) /\
    stdout w1 = stdout w ++ out /\ announced out = [] /\
    files w1 = files w.
Proof.
  destruct (for_gateways_prints cid (gateways cfg cid) 0 w)
    as (r & w1 & out & Hloop & Ho & Ha & Hf).
  unfold retrieve_from_ipfs. unfold bind at 1. rewrite Hloop.
  destruct r as [body | ].
  - exists (Some body), w1, out. auto.
  - eexists None, _, (out ++ [L_failed_all; L_maybe_unpinned]).
    split; [ reflexivity | ]. cbn. repeat split.
    + rewrite Ho, <- !app_assoc. reflexivity.
    + rewrite announced_app, Ha. reflexivity.
    + assumption.
Qed.

(** C1.  When a candidate is the first in priority order to answer 200,
    every earlier one having answered another status or failed in
    transport, the resolver returns the body of that answer, and the requests
    it has issued are those of the earlier candidates and of that one, in
    order: no later candidate is asked. *)
Theorem first_success_short_circuits cid pre gateway post (w : World Ext)
    e1 r e2 :
  gateways cfg cid = pre ++ gateway :: post ->
  all_miss pre (ext w) = Some e1 ->
  requests_send (request_of gateway) e1 = (Responds r, e2) ->
  status_code r = 200%Z ->
  exists w',
    retrieve_from_ipfs cfg cid w = (Ok (Some (content r)), w') /\
    sent w' = sent w ++ map request_of pre ++ [request_of gateway] /\
    ext w' = e2 /\
    files w' = files w.
Proof.
  intros Hsplit Hmiss Hsend H200.
  destruct (for_gateways_misses cid pre 0 w e1 (gateway :: post) Hmiss)
    as (w1 & Hloop & Hext1 & Hsent1 & Hfiles1).
  destruct (attempt_exchange cid (0 + length pre) gateway w1)
    as (s & w2 & Hrun & Hext2 & Hlog2 & Hfiles2 & Hs).
  rewrite Hext1, Hsend in *. simpl in *.
  rewrite H200 in Hs. simpl in Hs. subst s.
  exists w2. unfold retrieve_from_ipfs. unfold bind at 1.
  rewrite Hsplit, Hloop. simpl. unfold bind at 1. rewrite Hrun.
  repeat split.
  - rewrite (sent_app_exchange _ _ _ _ Hlog2), Hsent1, <- app_assoc.
    reflexivity.
  - assumption.
  - congruence.
Qed.

(** When every candidate misses, the loop runs to its end. *)
Lemma retrieve_all_miss cid (w : World Ext) e' :
  all_miss (gateways cfg cid) (ext w) = Some e' ->
  exists w',
    retrieve_from_ipfs cfg cid w = (Ok None, w') /\
    sent w' = sent w ++ map request_of (gateways cfg cid) /\
    ext w' = e' /\
    files w' = files w.
Proof.
  intros Hmiss.
  destruct (for_gateways_misses cid (gateways cfg cid) 0 w e' [] Hmiss)
    as (w1 & Hloop & Hext1 & Hsent1 & Hfiles1).
  rewrite app_nil_r in Hloop.
  unfold retrieve_from_ipfs. unfold bind at 1. rewrite Hloop. simpl.
  eexists. split; [ reflexivity | ]. simpl. auto.
Qed.

(** The requests of the candidates, written out. *)
Lemma candidate_requests_spelled cid :
  map request_of (gateways cfg cid) = candidate_requests cfg cid.
Proof.
  unfold gateways, candidate_requests.
  destruct (truthy (PINATA_JWT cfg)); reflexivity.
Qed.

(** C2.  When every candidate answers a status other than 200 or fails in
    transport, the resolver returns None without raising, and the requests
    it has issued are exactly these GET requests, each once, in this order:
    with the bearer token to the configured gateway when a token is set,
    then without any header to ipfs.io, to gateway.pinata.cloud, to
    dweb.link and to the configured gateway. *)
Theorem exhaustion_returns_none cid (w : World Ext) e' :
  all_miss (gateways cfg cid) (ext w) = Some e' ->
  exists w',
    retrieve_from_ipfs cfg cid w = (Ok None, w') /\
    sent w' =
      sent w ++
      (if truthy (PINATA_JWT cfg) then
         [ mkRequest GET
             (lit "https://" ++ PINATA_GATEWAY cfg ++ lit "/ipfs/" ++ cid)
             [ (lit "Authorization",
                lit "Bearer " ++ default [] (PINATA_JWT cfg)) ]
             [] NoBody 30 ]
       else []) ++
      [ mkRequest GET (lit "https://ipfs.io/ipfs/" ++ cid) [] [] NoBody 30;
        mkRequest GET (lit "https://gateway.pinata.cloud/ipfs/" ++ cid) [] []
                  NoBody 30;
        mkRequest GET (lit "https://dweb.link/ipfs/" ++ cid) [] [] NoBody 30;
        mkRequest GET
          (lit "https://" ++ PINATA_GATEWAY cfg ++ lit "/ipfs/" ++ cid) [] []
          NoBody 30 ] /\
    ext w' = e' /\
    files w' = files w.
Proof.
  intros Hmiss.
  destruct (retrieve_all_miss cid w e' Hmiss)
    as (w' & Hrun & Hsent & Hext & Hfiles).
  exists w'. rewrite candidate_requests_spelled in Hsent. auto.
Qed.

(** C3.  The candidate list is, in this order: the primary gateway with an
    Authorization: Bearer header, present exactly when the token is set to
    a non-empty value; ipfs.io; gateway.pinata.cloud; dweb.link; the primary
    gateway again without headers.  Without a token only the first entry is
    missing. *)
Theorem gateways_priority_order cid :
  let primary := lit "https://" ++ PINATA_GATEWAY cfg ++ lit "/ipfs/" ++ cid in
  let public :=
    [ mkGateway (lit "https://ipfs.io/ipfs/" ++ cid) []
                (lit "IPFS.io Public Gateway");
      mkGateway (lit "https://gateway.pinata.cloud/ipfs/" ++ cid) []
                (lit "Pinata Public Gateway");
      mkGateway (lit "https://dweb.link/ipfs/" ++ cid) []
                (lit "Protocol Labs dweb.link");
      mkGateway primary [] (lit "Custom Pinata Gateway") ] in
  match PINATA_JWT cfg with
  | Some (c :: token) =>
      gateways cfg cid =
        mkGateway primary [ (lit "Authorization", lit "Bearer " ++ c :: token) ]
                  (lit "Pinata Authenticated Gateway (JWT)")
        :: public
  | _ => gateways cfg cid = public
  end.
Proof.
  unfold gateways. destruct (PINATA_JWT cfg) as [[| c token] |]; reflexivity.
Qed.

(** C9.  Whatever the configuration, the candidate list ends with the four
    candidates that need no token, so it has at least four entries and is
    never empty. *)
Theorem gateways_never_empty cid :
  (exists authenticated,
     gateways cfg cid =
       authenticated ++
       [ mkGateway (lit "https://ipfs.io/ipfs/" ++ cid) []
                   (lit "IPFS.io Public Gateway");
         mkGateway (lit "https://gateway.pinata.cloud/ipfs/" ++ cid) []
                   (lit "Pinata Public Gateway");
         mkGateway (lit "https://dweb.link/ipfs/" ++ cid) []
                   (lit "Protocol Labs dweb.link");
         mkGateway (lit "https://" ++ PINATA_GATEWAY cfg ++ lit "/ipfs/" ++ cid)
                   [] (lit "Custom Pinata Gateway") ]) /\
  (4 <= length (gateways cfg cid))%nat /\
  gateways cfg cid <> [].
Proof.
  unfold gateways. destruct (truthy (PINATA_JWT cfg)); simpl.
  - split; [ eexists [_]; reflexivity | split; [ lia | discriminate ] ].
  - split; [ exists []; reflexivity | split; [ lia | discriminate ] ].
Qed.

End Facts.

Import Reference Scenario.

Lemma first_success_short_circuits_witness :
  gateways cfg_public X = [ipfs_io X; pinata_public X] ++ dweb_link X :: [custom X] /\
  exists w',
    retrieve_from_ipfs cfg_public X (fresh third_answers)
    = (Ok (Some wallet_body), w') /\
    sent w' = map request_of [ipfs_io X; pinata_public X; dweb_link X] /\
    ext w' = mkScript [] 1700000000 /\
    files w' = ∅.
Proof.
  split; [ reflexivity | ].
  apply (first_success_short_circuits cfg_public X
           [ipfs_io X; pinata_public X] (dweb_link X) [custom X]
           (fresh third_answers)
           (mkScript [Responds wallet_response] 1700000000)
           wallet_response (mkScript [] 1700000000));
    reflexivity.
Defined.

Lemma exhaustion_returns_none_witness :
  all_miss (gateways cfg_jwt X) (ext (fresh nobody_answers))
  = Some (mkScript [] 1700000000) /\
  exists w',
    retrieve_from_ipfs cfg_jwt X (fresh nobody_answers) = (Ok None, w') /\
    sent w' =
      [ mkRequest GET
          (lit "https://amethyst-impossible-ptarmigan-368.mypinata.cloud/ipfs/"
           ++ X)
          [ (lit "Authorization", lit "Bearer secret-token") ] [] NoBody 30;
        mkRequest GET (lit "https://ipfs.io/ipfs/" ++ X) [] [] NoBody 30;
        mkRequest GET (lit "https://gateway.pinata.cloud/ipfs/" ++ X) [] []
                  NoBody 30;
        mkRequest GET (lit "https://dweb.link/ipfs/" ++ X) [] [] NoBody 30;
        mkRequest GET
          (lit "https://amethyst-impossible-ptarmigan-368.mypinata.cloud/ipfs/"
           ++ X)
          [] [] NoBody 30 ] /\
    ext w' = mkScript [] 1700000000 /\
    files w' = ∅.
Proof.
  split; [ reflexivity | ].
  apply (exhaustion_returns_none cfg_jwt X (fresh nobody_answers)
           (mkScript [] 1700000000)).
  reflexivity.
Defined.

End ResolverFacts.

(** * The inspection block of display_json *)

Module InspectFacts.
Import RetrieveCid QuietFacts Inspection.

Section Facts.

Context {Ext : Type} {io : External Ext} {lib : Codecs}.

Local Opaque lit.

Lemma ends_ret : ends (Ext := Ext) (ret tt) true.
Proof.
  intros w. exists (Ok tt), []. destruct w; simpl. rewrite app_nil_r. auto.
Qed.

Lemma ends_raise e :
  is_JSONDecodeError e = false -> ends (Ext := Ext) (raise e) false.
Proof.
  intros He w. exists (Raise e), []. destruct w; simpl.
  rewrite app_nil_r. auto.
Qed.

Lemma ends_print l : announced [l] = [] -> ends (Ext := Ext) (print l) true.
Proof. intros Hl w. exists (Ok tt), [l]. auto. Qed.

(** Sequencing: the whole ends normally when both parts do. *)
Lemma ends_seq (m : M Ext unit) (k : unit -> M Ext unit) b1 b2 :
  ends m b1 -> (forall u, ends (k u) b2) -> ends (bind m k) (b1 && b2).
Proof.
  intros Hm Hk w. destruct (Hm w) as (r & out & Hrun & Hout & Hr).
  unfold bind. rewrite Hrun. destruct r as [u | e].
  - destruct (Hk u (mkWorld (ext w) (exchanges w) (stdout w ++ out) (files w)))
      as (r' & out' & Hrun' & Hout' & Hr').
    exists r', (out ++ out'). rewrite Hrun'. simpl.
    rewrite app_assoc, announced_app, Hout, Hout', Hr. auto.
  - exists (Raise e), out. destruct Hr as [-> He]. auto.
Qed.

(** A line, then the rest. *)
Lemma ends_print_then l (k : M Ext unit) b :
  announced [l] = [] -> ends k b -> ends (print l ;; k) b.
Proof.
  intros Hl Hk. change b with (true && b).
  apply ends_seq; [ apply ends_print; exact Hl | intros _; exact Hk ].
Qed.

(** A library call followed by what uses its value. *)
Lemma ends_lift {A} (r : result A) (k : A -> M Ext unit) b :
  match r with
  | Ok a => ends (k a) b
  | Raise e => b = false /\ is_JSONDecodeError e = false
  end ->
  ends (bind (lift r) k) b.
Proof.
  intros H w. unfold bind, lift. destruct r as [a | e].
  - apply H.
  - exists (Raise e), []. destruct w; simpl. rewrite app_nil_r. auto.
Qed.

(** The three accesses the block makes after a test: [len(obj[name])],
    [len(obj.get(name, ""))] and [obj.get(name, {}).get(...)]. *)
Lemma base_image_ends data_obj :
  ends (Ext := Ext)
    (has_base <- lift (py_in (lit "baseImage") data_obj) ;;
     if has_base : bool then
       v <- lift (py_getitem data_obj (lit "baseImage")) ;;
       n <- lift (py_len v) ;;
       print (L_base_image n)
     else ret tt)
    (member_ok sized "baseImage" data_obj).
Proof.
  apply ends_lift. unfold member_ok, present, field_ok.
  destruct data_obj as [| | | | s | items | o]; simpl; auto.
  - destruct (str_contains s (lit "baseImage")); simpl;
      [ apply ends_lift; simpl; auto | apply ends_ret ].
  - destruct (existsb _ items); simpl;
      [ apply ends_lift; simpl; auto | apply ends_ret ].
  - destruct (dict_lookup o (lit "baseImage")) as [v | ] eqn:Hv.
    + rewrite bool_decide_eq_true_2 by eauto.
      apply ends_lift. simpl. rewrite ?Hv. apply ends_lift.
      destruct v; simpl; auto; apply ends_print; reflexivity.
    + rewrite bool_decide_eq_false_2 by (intros [x Hx]; discriminate).
      apply ends_ret.
Qed.

Lemma depth_image_ends data_obj :
  ends (Ext := Ext)
    (has_depth <- lift (py_in (lit "depthImage") data_obj) ;;
     if has_depth : bool then
       v <- lift (py_get data_obj (lit "depthImage") (JStr [])) ;;
       n <- lift (py_len v) ;;
       print (L_depth_image n)
     else ret tt)
    (member_ok sized "depthImage" data_obj).
Proof.
  apply ends_lift. unfold member_ok, present, field_ok.
  destruct data_obj as [| | | | s | items | o]; simpl; auto.
  - destruct (str_contains s (lit "depthImage")); simpl;
      [ apply ends_lift; simpl; auto | apply ends_ret ].
  - destruct (existsb _ items); simpl;
      [ apply ends_lift; simpl; auto | apply ends_ret ].
  - destruct (dict_lookup o (lit "depthImage")) as [v | ] eqn:Hv.
    + rewrite bool_decide_eq_true_2 by eauto.
      apply ends_lift. simpl. rewrite ?Hv. apply ends_lift.
      destruct v; simpl; auto; apply ends_print; reflexivity.
    + rewrite bool_decide_eq_false_2 by (intros [x Hx]; discriminate).
      apply ends_ret.
Qed.

Lemma depth_data_ends data_obj :
  ends (Ext := Ext)
    (has_depth_data <- lift (py_in (lit "depthData") data_obj) ;;
     if has_depth_data : bool then
       depth_data <- lift (py_get data_obj (lit "depthData") (JDict [])) ;;
       print L_depth_data ;;
       shape <- lift (py_get depth_data (lit "shape") (JStr (lit "N/A"))) ;;
       print (L_shape shape) ;;
       valid <- lift (py_get depth_data (lit "valid_pixels")
                             (JStr (lit "N/A"))) ;;
       print (L_valid_pixels valid)
     else ret tt)
    (member_ok is_dict "depthData" data_obj).
Proof.
  apply ends_lift. unfold member_ok, present, field_ok.
  destruct data_obj as [| | | | s | items | o]; simpl; auto.
  - destruct (str_contains s (lit "depthData")); simpl;
      [ apply ends_lift; simpl; auto | apply ends_ret ].
  - destruct (existsb _ items); simpl;
      [ apply ends_lift; simpl; auto | apply ends_ret ].
  - destruct (dict_lookup o (lit "depthData")) as [v | ] eqn:Hv.
    + rewrite bool_decide_eq_true_2 by eauto.
      apply ends_lift. simpl. rewrite ?Hv.
      destruct v as [| | | | | | dd]; simpl.
      all: apply ends_print_then; [ reflexivity | ].
      all: apply ends_lift; simpl; auto.
      apply ends_print_then; [ reflexivity | ].
      apply ends_lift. simpl. apply ends_print. reflexivity.
    + rewrite bool_decide_eq_false_2 by (intros [x Hx]; discriminate).
      apply ends_ret.
Qed.

Lemma signature_ends d :
  ends (Ext := Ext)
    (has_sig <- lift (py_in (lit "signature") (JDict d)) ;;
     if has_sig : bool then
       sig <- lift (py_get (JDict d) (lit "signature") (JStr [])) ;;
       head <- lift (py_slice_to 30 sig) ;;
       n <- lift (py_len sig) ;;
       tail <- (if (60 <? n)%nat then lift (py_slice_last 30 sig)
                else ret (JStr [])) ;;
       print (L_signature head tail)
     else ret tt)
    (field_ok sliceable (dict_lookup d (lit "signature"))).
Proof.
  apply ends_lift. simpl. unfold field_ok.
  destruct (dict_lookup d (lit "signature")) as [sig | ] eqn:Hsig.
  - rewrite bool_decide_eq_true_2 by eauto.
    apply ends_lift. simpl. rewrite ?Hsig. apply ends_lift.
    destruct sig as [| | | | s | items | dd]; simpl; auto.
    + apply ends_lift. simpl. intros w.
      destruct (60 <? length s)%nat; unfold bind, lift, ret, print; simpl;
        eexists (Ok tt), [_]; auto.
    + apply ends_lift. simpl. intros w.
      destruct (60 <? length items)%nat; unfold bind, lift, ret, print; simpl;
        eexists (Ok tt), [_]; auto.
  - rewrite bool_decide_eq_false_2 by (intros [x Hx]; discriminate).
    apply ends_ret.
Qed.

(** A guarded block followed by the rest of the code. *)
Lemma ends_block {A} (r : result A) (f : A -> M Ext unit)
    (rest : M Ext unit) b1 b2 :
  ends (bind (lift r) f) b1 ->
  ends rest b2 ->
  ends (bind (lift r) (fun a => bind (f a) (fun _ => rest))) (b1 && b2).
Proof.
  intros H1 H2 w.
  destruct (ends_seq _ (fun _ => rest) _ _ H1 (fun _ => H2) w)
    as (r' & out & Hrun & Hout).
  exists r', out. split; [ | exact Hout ].
  rewrite <- Hrun. unfold bind, lift. destruct r; reflexivity.
Qed.

(** The inspection block runs to its end exactly on the inspectable
    documents; on the others it raises an error that is not a
    JSONDecodeError.  Either way it only prints. *)
Lemma inspect_ends data : ends (Ext := Ext) (inspect data) (inspectable data).
Proof.
  unfold inspect, inspectable.
  destruct data as [| | | | s | items | d]; apply ends_lift; simpl; auto.
  - unfold present. simpl. destruct (str_contains s (lit "data")); simpl;
      [ apply ends_lift; simpl; auto | apply ends_ret ].
  - unfold present. simpl. destruct (existsb _ items); simpl;
      [ apply ends_lift; simpl; auto | apply ends_ret ].
  - destruct (dict_lookup d (lit "data")) as [data_obj | ] eqn:Hdata.
    + rewrite bool_decide_eq_true_2 by eauto.
      apply ends_lift. simpl. rewrite ?Hdata.
      unfold data_obj_ok. rewrite <- !andb_assoc.
      apply ends_block; [ apply base_image_ends | ].
      apply ends_block; [ apply depth_image_ends | ].
      apply ends_block; [ apply depth_data_ends | ].
      apply signature_ends.
    + rewrite bool_decide_eq_false_2 by (intros [x Hx]; discriminate).
      apply ends_ret.
Qed.

End Facts.

End InspectFacts.

(** * The rendering routines and the sniffing code *)

Module RenderFacts.
Import RetrieveCid QuietFacts Inspection InspectFacts Locality.

Section Facts.

Context {Ext : Type} `{!External Ext} `{!Codecs}.

Lemma inspect_quiet data : quiet (Ext := Ext) (inspect data).
Proof. unfold inspect. quiet_steps. Qed.

(** ** Writing a file *)

Lemma write_file_ok name data (w : World Ext) :
  open_error name (ext w) = None ->
  write_file name data w
  = (Ok tt, mkWorld (ext w) (exchanges w) (stdout w)
                    (<[ name := data ]> (files w))).
Proof. unfold write_file. intros ->. reflexivity. Qed.

Lemma write_file_denied name data (w : World Ext) msg :
  open_error name (ext w) = Some msg ->
  write_file name data w = (Raise (OSError msg), w).
Proof. unfold write_file. intros ->. reflexivity. Qed.

(** ** Framed computations *)

Lemma framed_quiet {A} cid (m : M Ext A) : quiet m -> framed cid m.
Proof.
  intros Hm w. destruct (Hm w) as (r & out & Hrun & _).
  eexists r, _, out. split; [ exact Hrun | ]. auto.
Qed.

Lemma framed_ret {A} cid (a : A) : framed (Ext := Ext) cid (ret a).
Proof. apply framed_quiet, quiet_ret. Qed.

Lemma framed_raise {A} cid e : framed (Ext := Ext) cid (raise (A := A) e).
Proof. apply framed_quiet, quiet_raise. Qed.

Lemma framed_lift {A} cid (r : result A) : framed (Ext := Ext) cid (lift r).
Proof. apply framed_quiet, quiet_lift. Qed.

Lemma framed_print cid l : framed (Ext := Ext) cid (print l).
Proof. intros w. eexists (Ok tt), _, [l]. split; [ reflexivity | ]. auto. Qed.

Lemma framed_ends cid (m : M Ext unit) b : ends m b -> framed cid m.
Proof.
  intros Hm w. destruct (Hm w) as (r & out & Hrun & _).
  eexists r, _, out. split; [ exact Hrun | ]. auto.
Qed.

Lemma framed_show cid img : framed cid (show (Ext := Ext) img).
Proof.
  intros w. unfold show. destruct (Image_show img (ext w)) as [r e'].
  eexists r, _, []. split; [ reflexivity | ]. simpl.
  rewrite app_nil_r. auto.
Qed.

Lemma framed_write cid extension data :
  In extension extensions ->
  framed cid (write_file (Ext := Ext) (retrieved_name cid extension) data).
Proof.
  intros Hin w. unfold write_file.
  destruct (open_error (retrieved_name cid extension) (ext w)) as [msg | ].
  - eexists _, _, []. split; [ reflexivity | ]. rewrite app_nil_r. auto.
  - eexists _, _, []. split; [ reflexivity | ]. simpl. rewrite app_nil_r.
    repeat split; auto. intros name Hname.
    apply lookup_insert_ne, not_eq_sym, Hname, Hin.
Qed.

Lemma framed_bind {A B} cid (m : M Ext A) (k : A -> M Ext B) :
  framed cid m -> (forall a, framed cid (k a)) -> framed cid (bind m k).
Proof.
  intros Hm Hk w. destruct (Hm w) as (r & w1 & out1 & Hrun & Hx1 & Ho1 & Hf1).
  unfold bind. rewrite Hrun. destruct r as [a | e].
  - destruct (Hk a w1) as (r' & w2 & out2 & Hrun' & Hx2 & Ho2 & Hf2).
    exists r', w2, (out1 ++ out2). rewrite Hrun'. repeat split.
    + congruence.
    + rewrite Ho2, Ho1, app_assoc. reflexivity.
    + intros name Hname. rewrite Hf2, Hf1; auto.
  - exists (Raise e), w1, out1. auto.
Qed.

Lemma framed_try {A} cid (m : M Ext A) (h : exn -> M Ext A) :
  framed cid m -> (forall e, framed cid (h e)) -> framed cid (try_except m h).
Proof.
  intros Hm Hh w. destruct (Hm w) as (r & w1 & out1 & Hrun & Hx1 & Ho1 & Hf1).
  unfold try_except. rewrite Hrun. destruct r as [a | e].
  - exists (Ok a), w1, out1. auto.
  - destruct (Hh e w1) as (r' & w2 & out2 & Hrun' & Hx2 & Ho2 & Hf2).
    exists r', w2, (out1 ++ out2). rewrite Hrun'. repeat split.
    + congruence.
    + rewrite Ho2, Ho1, app_assoc. reflexivity.
    + intros name Hname. rewrite Hf2, Hf1; auto.
Qed.

Lemma framed_if {A} cid (b : bool) (m1 m2 : M Ext A) :
  framed cid m1 -> framed cid m2 -> framed cid (if b then m1 else m2).
Proof. destruct b; auto. Qed.

(** ** Headed computations *)

Lemma headed_print_then {A} cid l c (k : M Ext A) :
  announced [l] = [c] -> framed cid k -> headed cid c (print l ;; k).
Proof.
  intros Hl Hk w. unfold bind, print.
  match goal with
  | |- context [k ?W] =>
      destruct (Hk W) as (r & w' & out & Hrun & Hx & Ho & Hf)
  end.
  exists r, w', (l :: out). rewrite Hrun.
  cbn [ext exchanges stdout files] in *. repeat split; auto.
  - rewrite Ho, <- app_assoc. reflexivity.
  - change (l :: out) with ([l] ++ out). rewrite announced_app, Hl.
    reflexivity.
Qed.

Lemma headed_try {A} cid c (m : M Ext A) (h : exn -> M Ext A) :
  headed cid c m -> (forall e, framed cid (h e)) ->
  headed cid c (try_except m h).
Proof.
  intros Hm Hh w.
  destruct (Hm w) as (r & w1 & out1 & Hrun & Hx1 & Ho1 & Ha1 & Hf1).
  unfold try_except. rewrite Hrun. destruct r as [a | e].
  - exists (Ok a), w1, out1. auto.
  - destruct (Hh e w1) as (r' & w2 & out2 & Hrun' & Hx2 & Ho2 & Hf2).
    exists r', w2, (out1 ++ out2). rewrite Hrun'. repeat split.
    + congruence.
    + rewrite Ho2, Ho1, app_assoc. reflexivity.
    + rewrite announced_app. destruct (announced out1); [ discriminate | ].
      exact Ha1.
    + intros name Hname. rewrite Hf2, Hf1; auto.
Qed.

End Facts.

Ltac framed_steps :=
  repeat match goal with
    | |- framed _ (ret _) => apply framed_ret
    | |- framed _ (raise _) => apply framed_raise
    | |- framed _ (lift _) => apply framed_lift
    | |- framed _ (print _) => apply framed_print
    | |- framed _ (show _) => apply framed_show
    | |- framed _ (write_file _ _) =>
        apply framed_write; unfold extensions; solve [ simpl; auto 10 ]
    | |- framed _ (if _ then _ else _) => apply framed_if
    | |- framed _ (try_except _ _) => apply framed_try; [ | intros ? ]
    | |- framed _ (bind _ _) => apply framed_bind; [ | intros ? ]
    end.

Section Routines.

Context {Ext : Type} `{!External Ext} `{!Codecs}.

Local Opaque lit retrieved_name slice_to inspect.

(** Whatever happens, [display_image] and [display_json] stay with the
    files of their identifier. *)
Lemma display_image_framed content cid :
  framed (Ext := Ext) cid (display_image content cid).
Proof. unfold display_image. cbv zeta. framed_steps. Qed.

Lemma display_json_framed content cid :
  framed (Ext := Ext) cid (display_json content cid).
Proof.
  unfold display_json. cbv zeta. framed_steps.
  eapply framed_ends, inspect_ends.
Qed.

(** When the file it is to write can be opened, [display_image] returns
    normally.  It touches one file, which receives the payload: the .jpg
    one when the image opens, the .bin one when it does not. *)
Lemma display_image_spec content cid (w : World Ext) :
  open_error
    (retrieved_name cid
       match Image_open content with
       | Ok _ => ".jpg"
       | Raise _ => ".bin"
       end) (ext w) = None ->
  exists w' out,
    display_image content cid w = (Ok tt, w') /\
    exchanges w' = exchanges w /\
    stdout w' = stdout w ++ out /\ announced out = [] /\
    files w' =
      <[ retrieved_name cid
           match Image_open content with
           | Ok _ => ".jpg"
           | Raise _ => ".bin"
           end := content ]> (files w).
Proof.
  intros Hopen.
  unfold display_image, try_except, bind, lift, print, write_file, show.
  destruct (Image_open content) as [img | e]; cbn; rewrite Hopen; cbn.
  - destruct (Image_show img (ext w)) as [[[] | e] e']; cbn; settle.
  - settle.
Qed.

(** When the files named after the identifier can be opened,
    [display_json] returns normally.  Undecodable bytes and errors other
    than JSONDecodeError leave the payload in the .bin file, a
    JSONDecodeError leaves it in the .txt file, and a parsed value is
    written to the .json file as [json.dump] prints it; when the inspection
    block then raises, the payload is added under .bin. *)
Lemma display_json_spec content cid (w : World Ext) :
  openable cid (ext w) ->
  exists w' out,
    display_json content cid w = (Ok tt, w') /\
    ext w' = ext w /\
    exchanges w' = exchanges w /\
    stdout w' = stdout w ++ out /\ announced out = [] /\
    files w' =
      match decode content with
      | Raise e =>
          <[ retrieved_name cid (json_extension e) := content ]> (files w)
      | Ok text =>
          match json_loads text with
          | Raise e =>
              <[ retrieved_name cid (json_extension e) := content ]> (files w)
          | Ok data =>
              if inspectable data then
                <[ retrieved_name cid ".json" := json_dump_indent2 data ]>
                  (files w)
              else
                <[ retrieved_name cid ".bin" := content ]>
                  (<[ retrieved_name cid ".json" := json_dump_indent2 data ]>
                     (files w))
          end
      end.
Proof.
  intros Hopen.
  assert (Hjson : open_error (retrieved_name cid ".json") (ext w) = None)
    by (apply Hopen; unfold extensions; simpl; auto 10).
  assert (Hbin : open_error (retrieved_name cid ".bin") (ext w) = None)
    by (apply Hopen; unfold extensions; simpl; auto 10).
  assert (Htxt : open_error (retrieved_name cid ".txt") (ext w) = None)
    by (apply Hopen; unfold extensions; simpl; auto 10).
  unfold display_json, try_except, json_extension. unfold bind at 1.
  unfold lift at 1.
  destruct (decode content) as [text | e]; cbn.
  2: { unfold bind, print, write_file.
       destruct (is_JSONDecodeError e); cbn; rewrite ?Hbin, ?Htxt; settle. }
  destruct (json_loads text) as [data | e]; cbn.
  2: { unfold bind, print, write_file.
       destruct (is_JSONDecodeError e); cbn; rewrite ?Hbin, ?Htxt; settle. }
  unfold bind at 1. rewrite write_file_ok by exact Hjson. cbn.
  match goal with
  | |- context [inspect data ?W] =>
      destruct (inspect_ends data W) as (r & out & Hrun & Hout & Hr);
      rewrite Hrun; clear Hrun
  end.
  cbn. destruct r as [[] | e]; cbn.
  - rewrite Hr. settle. rewrite !announced_app, Hout. reflexivity.
  - destruct Hr as [-> He]. rewrite He.
    unfold bind, print, write_file. cbn. rewrite Hbin. cbn. settle.
    rewrite !announced_app, Hout. reflexivity.
Qed.

Local Opaque display_image display_json.

Lemma headed_after_ok {A B} cid c (a : A) (k : A -> M Ext B) h :
  headed cid c (try_except (k a) h) ->
  headed cid c (try_except (bind (lift (Ok a)) k) h).
Proof. intros Hm w. exact (Hm w). Qed.

Lemma headed_after_raise {A B} cid c e (k : A -> M Ext B) h :
  headed cid c (h e) ->
  headed cid c (try_except (bind (lift (Raise e)) k) h).
Proof. intros Hm w. exact (Hm w). Qed.

Ltac routine_steps :=
  framed_steps;
  first [ apply display_image_framed | apply display_json_framed ].

(** Whatever happens, also when a file cannot be opened, the sniffing code
    makes no HTTP exchange, touches no file but those named after the
    identifier, and the first class it announces is the one [classify]
    computes. *)
Lemma sniff_and_display_headed content cid :
  headed (Ext := Ext) cid (classify content) (sniff_and_display content cid).
Proof.
  unfold sniff_and_display, classify. cbv zeta.
  destruct (startswith content JPEG_MAGIC).
  { apply headed_print_then; [ reflexivity | apply display_image_framed ]. }
  destruct (startswith content PNG_MAGIC).
  { apply headed_print_then; [ reflexivity | apply display_image_framed ]. }
  destruct (startswith content (blit "{") || startswith content (blit "[")).
  { apply headed_print_then; [ reflexivity | apply display_json_framed ]. }
  assert (Hinner :
    headed cid
      match Image_open content with
      | Ok img => ClsImage (img_format img)
      | Raise _ => ClsUnknown
      end
      (try_except
         (img <- lift (Image_open content) ;;
          print (L_detected (LabelImage (img_format img))) ;;
          display_image content cid)
         (fun _ =>
            print L_unknown ;;
            print (L_size (length content)) ;;
            print (L_head_hex (slice_to 200 content)) ;;
            print (L_head_text (slice_to 200 content)) ;;
            write_file (retrieved_name cid ".bin") content ;;
            print (L_saved (retrieved_name cid ".bin"))))).
  { destruct (Image_open content) as [img | e].
    - apply headed_after_ok, headed_try.
      + apply headed_print_then; [ reflexivity | apply display_image_framed ].
      + intros e. framed_steps.
    - apply headed_after_raise.
      apply headed_print_then; [ reflexivity | framed_steps ]. }
  destruct (decode content) as [text | e].
  2: { apply headed_after_raise.
       destruct (Image_open content); exact Hinner. }
  apply headed_after_ok.
  destruct (json_loads text) as [data | e].
  2: { apply headed_after_raise.
       destruct (Image_open content); exact Hinner. }
  apply headed_after_ok, headed_try.
  - apply headed_print_then; [ reflexivity | apply display_json_framed ].
  - intros e. routine_steps.
Qed.

(** What the sniffing code does with a payload when the files named after
    the identifier can be opened: it returns normally, it makes no HTTP
    exchange, it announces exactly the class [classify] computes, and it
    leaves the files [display_image], [display_json] or its own last branch
    write. *)
Lemma sniff_and_display_spec content cid (w : World Ext) :
  openable cid (ext w) ->
  exists w' out,
    sniff_and_display content cid w = (Ok tt, w') /\
    exchanges w' = exchanges w /\
    stdout w' = stdout w ++ out /\ announced out = [classify content] /\
    match classify content with
    | ClsJPEG | ClsPNG | ClsImage _ =>
        files w' =
          <[ retrieved_name cid
               match Image_open content with
               | Ok _ => ".jpg"
               | Raise _ => ".bin"
               end := content ]> (files w)
    | ClsJSON =>
        files w' =
          match decode content with
          | Raise e =>
              <[ retrieved_name cid (json_extension e) := content ]> (files w)
          | Ok text =>
              match json_loads text with
              | Raise e =>
                  <[ retrieved_name cid (json_extension e) := content ]>
                    (files w)
              | Ok data =>
                  if inspectable data then
                    <[ retrieved_name cid ".json" := json_dump_indent2 data ]>
                      (files w)
                  else
                    <[ retrieved_name cid ".bin" := content ]>
                      (<[ retrieved_name cid ".json" :=
                            json_dump_indent2 data ]> (files w))
              end
          end
    | ClsUnknown => files w' = <[ retrieved_name cid ".bin" := content ]> (files w)
    end.
Proof.
  intros Hopen.
  assert (Hjpg : open_error (retrieved_name cid ".jpg") (ext w) = None)
    by (apply Hopen; unfold extensions; simpl; auto 10).
  assert (Hbin : open_error (retrieved_name cid ".bin") (ext w) = None)
    by (apply Hopen; unfold extensions; simpl; auto 10).
  assert (Hpick :
    open_error
      (retrieved_name cid
         match Image_open content with
         | Ok _ => ".jpg"
         | Raise _ => ".bin"
         end) (ext w) = None)
    by (destruct (Image_open content); assumption).
  unfold sniff_and_display, classify.
  destruct (startswith content JPEG_MAGIC).
  { unfold bind, print.
    match goal with
    | |- context [display_image content cid ?W] =>
        destruct (display_image_spec content cid W Hpick)
          as (w' & out & -> & Hx & Ho & Ha & Hf)
    end.
    cbn in *. exists w', (L_detected LabelJPEG :: out).
    repeat split; auto.
    - rewrite Ho, <- app_assoc. reflexivity.
    - simpl. rewrite Ha. reflexivity. }
  destruct (startswith content PNG_MAGIC).
  { unfold bind, print.
    match goal with
    | |- context [display_image content cid ?W] =>
        destruct (display_image_spec content cid W Hpick)
          as (w' & out & -> & Hx & Ho & Ha & Hf)
    end.
    cbn in *. exists w', (L_detected LabelPNG :: out).
    repeat split; auto.
    - rewrite Ho, <- app_assoc. reflexivity.
    - simpl. rewrite Ha. reflexivity. }
  destruct (startswith content (blit "{") || startswith content (blit "[")).
  { unfold bind, print.
    match goal with
    | |- context [display_json content cid ?W] =>
        destruct (display_json_spec content cid W Hopen)
          as (w' & out & -> & He & Hx & Ho & Ha & Hf)
    end.
    cbn in *. exists w', (L_detected LabelJSON :: out).
    repeat split; auto.
    - rewrite Ho, <- app_assoc. reflexivity.
    - simpl. rewrite Ha. reflexivity. }
  assert (Himage :
    exists w' out,
      try_except
        (img <- lift (Image_open content) ;;
         print (L_detected (LabelImage (img_format img))) ;;
         display_image content cid)
        (fun _ =>
           print L_unknown ;;
           print (L_size (length content)) ;;
           print (L_head_hex (slice_to 200 content)) ;;
           print (L_head_text (slice_to 200 content)) ;;
           write_file (retrieved_name cid ".bin") content ;;
           print (L_saved (retrieved_name cid ".bin"))) w = (Ok tt, w') /\
      exchanges w' = exchanges w /\
      stdout w' = stdout w ++ out /\
      announced out =
        [match Image_open content with
         | Ok img => ClsImage (img_format img)
         | Raise _ => ClsUnknown
         end] /\
      match Image_open content with
      | Ok _ =>
          files w' = <[ retrieved_name cid ".jpg" := content ]> (files w)
      | Raise _ =>
          files w' = <[ retrieved_name cid ".bin" := content ]> (files w)
      end).
  { unfold try_except, bind, lift, print.
    destruct (Image_open content) as [img | e] eqn:Hopened; cbn.
    - match goal with
      | |- context [display_image content cid ?W] =>
          destruct (display_image_spec content cid W)
            as (w' & out & -> & Hx & Ho & Ha & Hf);
            [ rewrite Hopened; exact Hjpg | ]
      end.
      rewrite Hopened in Hf.
      cbn in *. exists w', (L_detected (LabelImage (img_format img)) :: out).
      repeat split; try congruence.
      + rewrite Ho, <- app_assoc. reflexivity.
      + simpl. rewrite Ha. reflexivity.
    - rewrite write_file_ok by exact Hbin. cbn.
      eexists _, _. split; [ reflexivity | ]. cbn.
      repeat split; rewrite <- ?app_assoc; reflexivity. }
  unfold try_except at 1. unfold bind at 1. unfold lift at 1.
  destruct (decode content) as [text | e] eqn:Hdec; cbv beta iota.
  2: { destruct Himage as (w' & out & Hrun & Hx & Ho & Ha & Hf).
       exists w', out. rewrite Hrun.
       destruct (Image_open content); auto. }
  unfold bind at 1. unfold lift at 1.
  destruct (json_loads text) as [data | e] eqn:Hloads; cbv beta iota.
  2: { destruct Himage as (w' & out & Hrun & Hx & Ho & Ha & Hf).
       exists w', out. rewrite Hrun.
       destruct (Image_open content); auto. }
  unfold bind, print.
  match goal with
  | |- context [display_json content cid ?W] =>
      destruct (display_json_spec content cid W Hopen)
        as (w' & out & -> & He & Hx & Ho & Ha & Hf)
  end.
  rewrite Hdec, Hloads in Hf.
  cbn in *. exists w', (L_detected LabelJSON :: out).
  repeat split; auto.
  - rewrite Ho, <- app_assoc. reflexivity.
  - simpl. rewrite Ha. reflexivity.
Qed.

End Routines.

#[local] Transparent display_image display_json.

Section Claims.

Context {Ext : Type} `{!External Ext} `{!Codecs}.

Local Opaque lit retrieved_name slice_to inspect.

(** C4 (amended).  A payload that does not begin with the JPEG or the PNG
    signature and whose first byte is an opening brace or bracket is
    classified as JSON and handed to [display_json]. *)
Theorem leading_brace_routes_to_json content cid (w : World Ext) :
  startswith content JPEG_MAGIC = false ->
  startswith content PNG_MAGIC = false ->
  hd_error content = Some x7b \/ hd_error content = Some x5b ->
  classify content = ClsJSON /\
  sniff_and_display content cid w
  = (print (L_detected LabelJSON) ;; display_json content cid) w.
Proof.
  intros Hjpeg Hpng Hfirst. unfold classify, sniff_and_display.
  rewrite Hjpeg, Hpng.
  assert (startswith content (blit "{") || startswith content (blit "[") = true)
    as ->; [ | split; reflexivity ].
  destruct content as [| b rest]; simpl in Hfirst.
  - destruct Hfirst; discriminate.
  - destruct Hfirst as [[= ->] | [= ->]]; reflexivity.
Qed.

Lemma json_extension_cases e :
  json_extension e = ".txt"%string \/ json_extension e = ".bin"%string.
Proof. unfold json_extension. destruct (is_JSONDecodeError e); auto. Qed.

Lemma json_extension_listed e : In (json_extension e) extensions.
Proof.
  unfold json_extension, extensions.
  destruct (is_JSONDecodeError e); simpl; auto.
Qed.

(** C5 (amended).  When the files named after the identifier can be opened
    for writing, the sniffing code and the routine it calls return normally
    and leave a file named retrieved_, the first 10 characters of the
    identifier and an extension that follows the class.  Under an image
    class it is the .jpg file when the image opens and the .bin file when
    it does not, and it holds the payload.  Under the unknown class it is
    the .bin file and holds the payload.  Under the JSON class: a payload
    that is not UTF-8 goes to the .bin file; a text that does not parse goes
    to the .txt file after a JSONDecodeError and to the .bin file after
    another error; a text that parses is written to the .json file, not as
    it was retrieved but as [json.dump] with indent 2 prints the parsed
    value, and nothing else is written except, possibly, the payload under
    .bin. *)
Theorem payload_persisted content cid (w : World Ext) :
  openable cid (ext w) ->
  let name := fun extension : string =>
    lit "retrieved_" ++ take 10 cid ++ lit extension in
  exists w',
    sniff_and_display content cid w = (Ok tt, w') /\
    match classify content with
    | ClsJPEG | ClsPNG | ClsImage _ =>
        files w' =
          <[ name match Image_open content with
                  | Ok _ => ".jpg"%string
                  | Raise _ => ".bin"%string
                  end := content ]> (files w)
    | ClsUnknown => files w' = <[ name ".bin"%string := content ]> (files w)
    | ClsJSON =>
        match utf8_decode content with
        | None => files w' = <[ name ".bin"%string := content ]> (files w)
        | Some text =>
            match json_loads text with
            | Raise e =>
                files w' =
                  <[ name (if is_JSONDecodeError e then ".txt"%string else ".bin"%string)
                     := content ]> (files w)
            | Ok data =>
                files w' =
                  <[ name ".json"%string := json_dump_indent2 data ]> (files w) \/
                files w' =
                  <[ name ".bin"%string := content ]>
                    (<[ name ".json"%string := json_dump_indent2 data ]> (files w))
            end
        end
    end.
Proof.
  intros Hopen name.
  destruct (sniff_and_display_spec content cid w Hopen)
    as (w' & out & Hrun & _ & _ & _ & Hfiles).
  exists w'. split; [ exact Hrun | ].
  change name with (retrieved_name cid).
  destruct (classify content); try exact Hfiles.
  unfold decode in Hfiles.
  destruct (utf8_decode content) as [text | ]; [ | exact Hfiles ].
  destruct (json_loads text) as [data | e]; [ | exact Hfiles ].
  destruct (inspectable data); auto.
Qed.

(** C6 (amended).  When a rendering routine cannot read the payload it was
    handed (the image does not open, the bytes are not UTF-8, the text
    does not parse), what follows depends on whether the file for the raw
    payload can be opened: the .txt file after a JSONDecodeError, the .bin
    file otherwise.  When it can, the routine returns normally and that
    file holds the payload.  When it cannot, the OSError of [open] leaves
    the routine and no file is written. *)
Theorem unreadable_payload_saved_raw routine content cid (w : World Ext) :
  unreadable routine content = true ->
  let extension :=
    match routine with
    | ImageRoutine => ".bin"%string
    | JsonRoutine =>
        match utf8_decode content with
        | None => ".bin"%string
        | Some text =>
            match json_loads text with
            | Raise e =>
                if is_JSONDecodeError e then ".txt"%string else ".bin"%string
            | Ok _ => ".bin"%string
            end
        end
    end in
  let name := lit "retrieved_" ++ take 10 cid ++ lit extension in
  (extension = ".bin"%string \/ extension = ".txt"%string) /\
  match open_error name (ext w) with
  | None =>
      exists w',
        render routine content cid w = (Ok tt, w') /\
        files w' = <[ name := content ]> (files w)
  | Some msg =>
      exists w',
        render routine content cid w = (Raise (OSError msg), w') /\
        files w' = files w
  end.
Proof.
  intros Hbad. cbv zeta.
  destruct routine; cbn [render unreadable] in *.
  - split; [ auto | ].
    change (lit "retrieved_" ++ take 10 cid ++ lit ".bin")
      with (retrieved_name cid ".bin").
    unfold display_image, try_except, bind, lift, print.
    destruct (Image_open content) as [img | e]; [ discriminate | ].
    unfold write_file. cbn [ext exchanges stdout files].
    destruct (open_error (retrieved_name cid ".bin") (ext w));
      eexists; split; reflexivity.
  - unfold decode in Hbad.
    unfold display_json, try_except. unfold bind at 1. unfold lift at 1.
    unfold decode.
    destruct (utf8_decode content) as [text | ]; cbn.
    + destruct (json_loads text) as [data | e]; [ discriminate | ]. cbn.
      split; [ destruct (is_JSONDecodeError e); auto | ].
      unfold bind, print, write_file.
      destruct (is_JSONDecodeError e); cbn.
      * change (lit "retrieved_" ++ take 10 cid ++ lit ".txt")
          with (retrieved_name cid ".txt").
        destruct (open_error (retrieved_name cid ".txt") (ext w));
          eexists; split; reflexivity.
      * change (lit "retrieved_" ++ take 10 cid ++ lit ".bin")
          with (retrieved_name cid ".bin").
        destruct (open_error (retrieved_name cid ".bin") (ext w));
          eexists; split; reflexivity.
    + split; [ auto | ].
      change (lit "retrieved_" ++ take 10 cid ++ lit ".bin")
        with (retrieved_name cid ".bin").
      unfold bind, print, write_file. cbn.
      destruct (open_error (retrieved_name cid ".bin") (ext w));
        eexists; split; reflexivity.
Qed.

End Claims.

Import Reference Scenario.

(** C4, as stated, fails: after a leading space the first byte that is not
    whitespace is an opening brace, yet the payload is classified as
    unknown and saved as .bin without [display_json] being called. *)
Lemma space_brace_is_not_json :
  startswith space_brace JPEG_MAGIC = false /\
  startswith space_brace PNG_MAGIC = false /\
  first_non_whitespace space_brace = Some x7b /\
  classify space_brace = ClsUnknown /\
  announced (printed (sniff_and_display space_brace X) (fresh []))
  = [ClsUnknown] /\
  files (snd (sniff_and_display space_brace X (fresh [])))
  = {[ retrieved_name X ".bin" := space_brace ]} /\
  sniff_and_display space_brace X (fresh [])
  <> (print (L_detected LabelJSON) ;; display_json space_brace X) (fresh []).
Proof.
  repeat split; try (vm_compute; reflexivity).
  vm_compute. discriminate.
Qed.

Lemma leading_brace_routes_to_json_witness :
  startswith wallet_body JPEG_MAGIC = false /\
  startswith wallet_body PNG_MAGIC = false /\
  hd_error wallet_body = Some x7b /\
  classify wallet_body = ClsJSON /\
  sniff_and_display wallet_body X (fresh [])
  = (print (L_detected LabelJSON) ;; display_json wallet_body X) (fresh []).
Proof.
  split; [ reflexivity | ]. split; [ reflexivity | ].
  split; [ reflexivity | ].
  apply (leading_brace_routes_to_json wallet_body X (fresh []));
    [ reflexivity | reflexivity | left; reflexivity ].
Defined.

(** The files named after [X] and [Y] can be opened in the reference
    environment, those named after [slashed] cannot. *)
Lemma openable_X e : openable X e.
Proof.
  intros extension Hin. unfold extensions in Hin. simpl in Hin.
  repeat (destruct Hin as [<- | Hin]; [ vm_compute; reflexivity | ]).
  destruct Hin.
Qed.


(** C5, as stated, fails twice.  A JSON payload is parsed and written back
    with indent 2, so none of the four files holds the retrieved bytes.
    And when the files named after the identifier cannot be opened, the
    routine raises and no file is left at all. *)
Lemma reserialised_json_differs :
  (files (snd (sniff_and_display one_in_brackets X (fresh [])))
   = {[ retrieved_name X ".json" := [x5b; x0a; x20; x20; x31; x0a; x5d] ]} /\
   Forall
     (fun extension =>
        files (snd (sniff_and_display one_in_brackets X (fresh [])))
          !! retrieved_name X extension
        <> Some one_in_brackets)
     extensions) /\
  (sniff_and_display one_pixel_png slashed (fresh [])
   = (Raise (OSError (lit "[Errno 2] No such file or directory")),
      mkWorld (mkScript [] 1700000000) []
        [ L_detected LabelPNG; L_image_ok; L_image_format (lit "PNG");
          L_image_size 1 1; L_image_mode (lit "RGBA");
          L_image_error (OSError (lit "[Errno 2] No such file or directory")) ]
        ∅)).
Proof.
  split; [ split; [ vm_compute; reflexivity | ] | vm_compute; reflexivity ].
  repeat constructor; vm_compute; discriminate.
Qed.

Lemma payload_persisted_witness :
  openable X (ext (fresh [])) /\
  exists w',
    sniff_and_display wallet_body X (fresh []) = (Ok tt, w') /\
    files w' = <[ lit "retrieved_bafybeicoz.json" := wallet_pretty ]> ∅.
Proof.
  split; [ apply openable_X | ].
  destruct (payload_persisted wallet_body X (fresh []) (openable_X _))
    as (w' & Hrun & Hfiles).
  exists w'. split; [ exact Hrun | ].
  assert (Hw : w' = snd (sniff_and_display wallet_body X (fresh [])))
    by (rewrite Hrun; reflexivity).
  rewrite Hw. vm_compute. reflexivity.
Defined.

(** C6, as stated, fails: when the file for the raw payload cannot be
    opened, the error of [open] inside the [except] clause leaves the
    routine, and nothing is saved. *)
Lemma unopenable_file_raises :
  unreadable JsonRoutine not_json = true /\
  render JsonRoutine not_json slashed (fresh [])
  = (Raise (OSError (lit "[Errno 2] No such file or directory")),
     mkWorld (mkScript [] 1700000000) []
       [ L_not_json; L_first_500; L_head_text not_json ] ∅) /\
  unreadable ImageRoutine truncated_png = true /\
  render ImageRoutine truncated_png slashed (fresh [])
  = (Raise (OSError (lit "[Errno 2] No such file or directory")),
     mkWorld (mkScript [] 1700000000) []
       [ L_image_error UnidentifiedImageError ] ∅).
Proof. repeat split; vm_compute; reflexivity. Qed.

Lemma unreadable_payload_saved_raw_witness :
  (unreadable JsonRoutine not_json = true /\
   exists w',
     render JsonRoutine not_json X (fresh []) = (Ok tt, w') /\
     files w' = <[ lit "retrieved_bafybeicoz.txt" := not_json ]> ∅) /\
  (unreadable ImageRoutine truncated_png = true /\
   exists w',
     render ImageRoutine truncated_png slashed (fresh [])
     = (Raise (OSError (lit "[Errno 2] No such file or directory")), w') /\
     files w' = ∅).
Proof.
  split; (split; [ reflexivity | ]).
  - exact (proj2 (unreadable_payload_saved_raw JsonRoutine not_json X
                    (fresh []) eq_refl)).
  - exact (proj2 (unreadable_payload_saved_raw ImageRoutine truncated_png
                    slashed (fresh []) eq_refl)).
Defined.

End RenderFacts.

(** * The batch driver *)

Module DriverFacts.
Import RetrieveCid QuietFacts ResolverFacts RenderFacts Locality.

Section Facts.

Context {Ext : Type} `{!External Ext} `{!Codecs}.
Variable cfg : Config.





(** The identifiers are taken in input order: when the first part of a
    list has been processed, the run goes on with the second part from
    where the first one ended. *)
Lemma for_cids_app cids1 cids2 :
  forall w w0 : World Ext,
    for_cids cfg cids1 w = (Ok tt, w0) ->
    for_cids cfg (cids1 ++ cids2) w = for_cids cfg cids2 w0.
Proof.
  induction cids1 as [| cid cids1 IH]; intros w w0.
  - intros [= <-]. reflexivity.
  - simpl. unfold bind.
    destruct (loop_body cfg cid w) as [[[] | e] w1]; [ apply IH | ].
    discriminate.
Qed.

(** C7.  The batch driver takes the identifiers one at a time in input
    order, and an identifier for which every gateway misses does not end
    the run.  Once the identifiers before it have been processed, its
    candidates are all asked, each once and in priority order, no file is
    written for it, its pass through the loop ends normally, and the run
    goes on with the identifiers that follow: the next one is processed
    from the world the failing one left. *)
Theorem batch_continues_past_failure cids1 cid cids2 (w w0 : World Ext) e1 :
  for_cids cfg cids1 w = (Ok tt, w0) ->
  all_miss (gateways cfg cid) (ext w0) = Some e1 ->
  exists w1,
    loop_body cfg cid w0 = (Ok tt, w1) /\
    sent w1 = sent w0 ++ candidate_requests cfg cid /\
    ext w1 = e1 /\
    files w1 = files w0 /\
    for_cids cfg (cids1 ++ cid :: cids2) w = for_cids cfg cids2 w1 /\
    forall next rest,
      cids2 = next :: rest ->
      for_cids cfg (cids1 ++ cid :: cids2) w
      = (loop_body cfg next ;; for_cids cfg rest) w1.
Proof.
  intros Hbefore Hmiss.
  assert (Hbody :
    exists w1, loop_body cfg cid w0 = (Ok tt, w1) /\
               sent w1 = sent w0 ++ map request_of (gateways cfg cid) /\
               ext w1 = e1 /\ files w1 = files w0).
  { unfold loop_body. unfold bind at 1. unfold print at 1.
    cbv beta iota. unfold bind at 1.
    match goal with
    | |- context [retrieve_from_ipfs cfg cid ?W] =>
        destruct (retrieve_all_miss cfg cid W e1 Hmiss)
          as (w1 & Hrun & Hsent & Hext & Hfiles)
    end.
    exists w1. rewrite Hrun. auto. }
  destruct Hbody as (w1 & Hbody & Hsent & Hext & Hfiles).
  rewrite candidate_requests_spelled in Hsent.
  assert (Hgo : for_cids cfg (cids1 ++ cid :: cids2) w = for_cids cfg cids2 w1).
  { rewrite (for_cids_app _ _ _ _ Hbefore). simpl. unfold bind at 1.
    rewrite Hbody. reflexivity. }
  exists w1. repeat split; auto.
  intros next rest ->. rewrite Hgo. reflexivity.
Qed.


End Facts.

Import Reference Scenario.

Lemma batch_continues_past_failure_witness :
  for_cids cfg_public [] (fresh fails_then_answers)
  = (Ok tt, fresh fails_then_answers) /\
  all_miss (gateways cfg_public X) (ext (fresh fails_then_answers))
  = Some (mkScript [Responds wallet_response] 1700000000) /\
  (exists w1,
     loop_body cfg_public X (fresh fails_then_answers) = (Ok tt, w1) /\
     sent w1 =
       [ mkRequest GET (lit "https://ipfs.io/ipfs/" ++ X) [] [] NoBody 30;
         mkRequest GET (lit "https://gateway.pinata.cloud/ipfs/" ++ X) [] []
                   NoBody 30;
         mkRequest GET (lit "https://dweb.link/ipfs/" ++ X) [] [] NoBody 30;
         mkRequest GET
           (lit "https://amethyst-impossible-ptarmigan-368.mypinata.cloud/ipfs/"
            ++ X) [] [] NoBody 30 ] /\
     ext w1 = mkScript [Responds wallet_response] 1700000000 /\
     files w1 = ∅ /\
     for_cids cfg_public [X; Y] (fresh fails_then_answers)
     = for_cids cfg_public [Y] w1) /\
  sent (snd (for_cids cfg_public [X; Y] (fresh fails_then_answers)))
  = candidate_requests cfg_public X
    ++ [ mkRequest GET (lit "https://ipfs.io/ipfs/" ++ Y) [] [] NoBody 30 ] /\
  announced (stdout (snd (for_cids cfg_public [X; Y]
                                   (fresh fails_then_answers))))
  = [ClsJSON] /\
  dom (files (snd (for_cids cfg_public [X; Y] (fresh fails_then_answers))))
  = {[ retrieved_name Y ".json" ]}.
Proof.
  assert (Hbefore : for_cids cfg_public [] (fresh fails_then_answers)
                    = (Ok tt, fresh fails_then_answers)) by reflexivity.
  assert (Hmiss : all_miss (gateways cfg_public X)
                           (ext (fresh fails_then_answers))
                  = Some (mkScript [Responds wallet_response] 1700000000))
    by reflexivity.
  split; [ exact Hbefore | ]. split; [ exact Hmiss | ].
  split.
  - destruct (batch_continues_past_failure cfg_public [] X [Y]
                (fresh fails_then_answers) (fresh fails_then_answers)
                (mkScript [Responds wallet_response] 1700000000)
                Hbefore Hmiss)
      as (w1 & Hrun & Hsent & Hext & Hfiles & Hgo & _).
    exists w1. split; [ exact Hrun | ]. split; [ exact Hsent | ].
    split; [ exact Hext | ]. split; [ exact Hfiles | exact Hgo ].
  - repeat split; vm_compute; reflexivity.
Defined.



End DriverFacts.

(** * The upload endpoints *)

Module UploadFacts.
Import UploadService.

Section Facts.

Context {Ext : Type} {io : External Ext} {lib : Codecs}.
Variable cfg : Config.

Lemma bind_ok {A B} (m : M Ext A) (k : A -> M Ext B) w b w' :
  bind m k w = (Ok b, w') ->
  exists a w1, m w = (Ok a, w1) /\ k a w1 = (Ok b, w').
Proof.
  unfold bind. destruct (m w) as [[a | e] w1]; [ eauto | discriminate ].
Qed.

(** A handler that always raises lets no failure of the body through as a
    success. *)
Lemma try_except_ok {A} (m : M Ext A) handler w a w' :
  (forall e w0, exists e' w1, handler e w0 = (Raise e', w1)) ->
  try_except m handler w = (Ok a, w') ->
  m w = (Ok a, w').
Proof.
  intros Hh. unfold try_except. destruct (m w) as [[a0 | e] w0]; [ auto | ].
  destruct (Hh e w0) as (e' & w1 & ->). discriminate.
Qed.

Lemma print_exchanges l (w : World Ext) r w' :
  print l w = (r, w') -> exchanges w' = exchanges w.
Proof. unfold print. intros [= <- <-]. reflexivity. Qed.

(** A successful [upload_to_ipfs] makes one exchange, a multipart upload
    of the file under its name, whose answer carries the identifier it
    returns. *)
Lemma upload_to_ipfs_ok file_data filename metadata (w : World Ext) c w' :
  upload_to_ipfs cfg file_data filename metadata w = (Ok c, w') ->
  exists x,
    exchanges w' = exchanges w ++ [x] /\
    pinned [x] = [c] /\ rows [x] = [] /\
    ipfs_hash_of (snd x) = Some c /\
    req_payload (fst x)
    = Multipart filename file_data (lit "application/octet-stream")
        (JDict [ (lit "name", JStr filename); (lit "keyvalues", metadata) ])
        (JDict [ (lit "cidVersion", JInt 1) ]).
Proof.
  unfold upload_to_ipfs. intros H.
  apply bind_ok in H as (headers & w0 & Hh & H).
  assert (w0 = w) as ->.
  { destruct (truthy (PINATA_API_KEY cfg) && truthy (PINATA_SECRET_KEY cfg));
      [ | destruct (truthy (PINATA_JWT cfg)) ];
      cbv [ret raise] in Hh; congruence. }
  clear Hh.
  apply try_except_ok in H.
  2: { intros e w0. destruct (is_RequestException e); eexists _, _; reflexivity. }
  cbv zeta in H.
  apply bind_ok in H as (response & w1 & Hsend & H).
  unfold send in Hsend.
  destruct (requests_send _ (ext w)) as [[r | msg] e'] eqn:Hnet;
    [ | discriminate ].
  injection Hsend as <- <-.
  apply bind_ok in H as ([] & w2 & Hstatus & H).
  destruct (negb (status_code r =? 200)%Z); [ discriminate | ].
  injection Hstatus as <-.
  apply bind_ok in H as ([] & w3 & Hrfs & H).
  unfold raise_for_status in Hrfs.
  destruct ((400 <=? status_code r)%Z && (status_code r <? 600)%Z);
    [ discriminate | ].
  injection Hrfs as <-.
  apply bind_ok in H as (result & w4 & Hjson & H).
  unfold response_json in Hjson.
  destruct (Response_json r) as [result' | ] eqn:Hbody; [ | discriminate ].
  injection Hjson as <- <-.
  apply bind_ok in H as (ipfs_hash & w5 & Hget & H).
  unfold lift in Hget. injection Hget as Hget <-.
  apply bind_ok in H as ([] & w6 & Htruthy & H).
  destruct (negb (py_truthy ipfs_hash)); [ discriminate | ].
  injection Htruthy as <-.
  apply bind_ok in H as ([] & w7 & Hprint & H).
  injection H as <- <-.
  apply print_exchanges in Hprint. rewrite Hprint. simpl.
  eexists. split; [ reflexivity | ].
  unfold pinned, rows. simpl. rewrite Hbody, Hget. auto.
Qed.

Lemma file_names_differ (a b : str) :
  lit "original_" ++ a <> lit "metadata_" ++ b.
Proof. discriminate. Qed.

(** A successful [store_in_supabase] makes one or two exchanges, none of
    them an upload, each posting the row of its three arguments. *)
Lemma store_in_supabase_ok wallet image_cid metadata_cid (w : World Ext)
    res w' :
  store_in_supabase cfg wallet image_cid metadata_cid w = (Ok res, w') ->
  exists xs,
    exchanges w' = exchanges w ++ xs /\
    pinned xs = [] /\
    rows xs <> [] /\
    Forall (eq (row wallet image_cid metadata_cid)) (rows xs).
Proof.
  unfold store_in_supabase. intros H.
  apply try_except_ok in H.
  2: { intros e w0. destruct (is_HTTPException e);
         [ | destruct (is_RequestException e) ]; eexists _, _; reflexivity. }
  cbv zeta in H.
  apply bind_ok in H as (response & w1 & Hsend & H).
  unfold send in Hsend.
  destruct (requests_send _ (ext w)) as [[r | msg] e'] eqn:Hnet;
    [ | discriminate ].
  injection Hsend as <- <-.
  apply bind_ok in H as (response & w2 & Hretry & H).
  assert (Hlog :
    exists xs,
      exchanges w2 = exchanges w ++ xs /\
      pinned xs = [] /\ rows xs <> [] /\
      Forall (eq (row wallet image_cid metadata_cid)) (rows xs)).
  { destruct (status_code r =? 401)%Z.
    - apply bind_ok in Hretry as ([] & w1' & Hprint & Hsend).
      injection Hprint as <-.
      unfold send in Hsend. cbn [ext exchanges stdout files] in Hsend.
      destruct (requests_send _ e') as [[r' | msg] e''];
        [ | discriminate ].
      injection Hsend as <- <-. cbn [exchanges].
      rewrite <- app_assoc. eexists. split; [ reflexivity | ].
      unfold pinned, rows. simpl.
      split; [ reflexivity | split; [ discriminate | repeat constructor ] ].
    - injection Hretry as <- <-. cbn [exchanges].
      eexists. split; [ reflexivity | ].
      unfold pinned, rows. simpl.
      split; [ reflexivity | split; [ discriminate | repeat constructor ] ]. }
  clear Hretry.
  destruct Hlog as (xs & Hlog & Hpinned & Hrows & Hall).
  exists xs. split; [ | auto ].
  rewrite <- Hlog. clear Hlog.
  apply bind_ok in H as ([] & w3 & H401 & H).
  destruct (status_code response =? 401)%Z.
  { apply bind_ok in H401 as ([] & w'' & _ & Habs). discriminate. }
  injection H401 as <-.
  apply bind_ok in H as ([] & w4 & H404 & H).
  destruct (status_code response =? 404)%Z.
  { apply bind_ok in H404 as ([] & w'' & _ & Habs). discriminate. }
  injection H404 as <-.
  apply bind_ok in H as ([] & w5 & Hrfs & H).
  unfold raise_for_status in Hrfs.
  destruct ((400 <=? status_code response)%Z && (status_code response <? 600)%Z);
    [ discriminate | ].
  injection Hrfs as <-.
  apply bind_ok in H as (result & w6 & Hjson & H).
  unfold response_json in Hjson.
  destruct (Response_json response); [ | discriminate ].
  injection Hjson as <- <-.
  apply bind_ok in H as ([] & w7 & Hprint & H).
  injection H as <- <-.
  apply print_exchanges in Hprint. assumption.
Qed.

Lemma endpoint_errors_raises {A} e (w : World Ext) :
  exists e' w1, endpoint_errors (A := A) e w = (Raise e', w1).
Proof.
  unfold endpoint_errors. destruct (is_HTTPException e); eexists _, _; reflexivity.
Qed.

Lemma parse_metadata_ok metadata (w : World Ext) v w' :
  parse_metadata metadata w = (Ok v, w') -> w' = w.
Proof.
  unfold parse_metadata, try_except, lift.
  destruct (json_loads metadata) as [v' | e]; [ congruence | ].
  destruct (is_JSONDecodeError e); discriminate.
Qed.

(** C10.  A successful POST to /upload makes one upload to the pinning
    provider, and every row it posts to the record store is the object with
    the members wallet_address, image_cid and metadata_cid in which both
    image_cid and metadata_cid are the one identifier the provider
    returned.  A successful POST to /upload-json makes two different
    uploads, and every row it posts has the identifier returned for the
    first as image_cid and the identifier returned for the second as
    metadata_cid: two identifiers, which differ whenever the two answers of
    the provider do. *)
Theorem upload_records_single_cid endpoint wallet image metadata
    (w : World Ext) res w' :
  handle cfg endpoint wallet image metadata w = (Ok res, w') ->
  exists xs,
    exchanges w' = exchanges w ++ xs /\
    rows xs <> [] /\
    match endpoint with
    | Upload =>
        exists c,
          pinned xs = [c] /\
          Forall (eq (JDict [ (lit "wallet_address", JStr wallet);
                              (lit "image_cid", c);
                              (lit "metadata_cid", c) ]))
                 (rows xs) /\
          cid res = c /\ metadata_cid res = None
    | UploadJson =>
        exists image_cid json_cid,
          pinned xs = [image_cid; json_cid] /\
          Forall (eq (JDict [ (lit "wallet_address", JStr wallet);
                              (lit "image_cid", image_cid);
                              (lit "metadata_cid", json_cid) ]))
                 (rows xs) /\
          cid res = image_cid /\ metadata_cid res = Some json_cid /\
          exists x1 x2 rest,
            xs = x1 :: x2 :: rest /\
            fst x1 <> fst x2 /\
            ipfs_hash_of (snd x1) = Some image_cid /\
            ipfs_hash_of (snd x2) = Some json_cid /\
            (ipfs_hash_of (snd x1) <> ipfs_hash_of (snd x2) ->
             image_cid <> json_cid)
    end.
Proof.
  destruct endpoint; simpl; intros Hrun.
  - unfold upload_capture in Hrun.
    apply try_except_ok in Hrun; [ | apply endpoint_errors_raises ].
    cbv zeta in Hrun.
    apply bind_ok in Hrun as (md & w1 & Hparse & Hrun).
    apply parse_metadata_ok in Hparse as ->.
    apply bind_ok in Hrun as (md' & w1 & Hset & Hrun).
    unfold lift in Hset. injection Hset as _ <-.
    apply bind_ok in Hrun as (c & w2 & Hpin & Hrun).
    apply upload_to_ipfs_ok in Hpin as (x & Hlog1 & Hpinned1 & Hrows1 & _).
    apply bind_ok in Hrun as (stored & w3 & Hstore & Hrun).
    apply store_in_supabase_ok
      in Hstore as (xs & Hlog2 & Hpinned2 & Hrows2 & Hall).
    injection Hrun as <- <-.
    exists ([x] ++ xs). unfold pinned, rows in *.
    rewrite !omap_app, Hrows1, Hpinned1, Hpinned2.
    repeat split.
    + rewrite Hlog2, Hlog1, <- app_assoc. reflexivity.
    + assumption.
    + exists c. split; [ reflexivity | ]. split; [ exact Hall | ]. auto.
  - unfold upload_json_capture in Hrun.
    apply try_except_ok in Hrun; [ | apply endpoint_errors_raises ].
    cbv zeta in Hrun.
    apply bind_ok in Hrun as (md & w1 & Hparse & Hrun).
    apply parse_metadata_ok in Hparse as ->.
    apply bind_ok in Hrun as (timestamp & w1 & Hnow & Hrun).
    assert (exchanges w1 = exchanges w) as Hlog0.
    { unfold now in Hnow. destruct (time_time (ext w)).
      injection Hnow as _ <-. reflexivity. }
    apply bind_ok in Hrun as ([] & w2 & Hp1 & Hrun).
    apply print_exchanges in Hp1.
    apply bind_ok in Hrun as (image_cid & w3 & Hpin1 & Hrun).
    apply upload_to_ipfs_ok
      in Hpin1 as (x1 & Hlog1 & Hpinned1 & Hrows1 & Hhash1 & Hload1).
    apply bind_ok in Hrun as ([] & w4 & Hp2 & Hrun).
    apply print_exchanges in Hp2.
    apply bind_ok in Hrun as (md1 & w5 & Hset1 & Hrun).
    unfold lift in Hset1. injection Hset1 as _ <-.
    apply bind_ok in Hrun as (md2 & w5 & Hset2 & Hrun).
    unfold lift in Hset2. injection Hset2 as _ <-.
    apply bind_ok in Hrun as ([] & w5 & Hp3 & Hrun).
    apply print_exchanges in Hp3.
    apply bind_ok in Hrun as (json_cid & w6 & Hpin2 & Hrun).
    apply upload_to_ipfs_ok
      in Hpin2 as (x2 & Hlog2 & Hpinned2 & Hrows2 & Hhash2 & Hload2).
    apply bind_ok in Hrun as ([] & w7 & Hp4 & Hrun).
    apply print_exchanges in Hp4.
    apply bind_ok in Hrun as ([] & w8 & Hp5 & Hrun).
    apply print_exchanges in Hp5.
    apply bind_ok in Hrun as (stored & w9 & Hstore & Hrun).
    apply store_in_supabase_ok
      in Hstore as (xs & Hlog3 & Hpinned3 & Hrows3 & Hall).
    apply bind_ok in Hrun as ([] & w10 & Hp6 & Hrun).
    apply print_exchanges in Hp6.
    injection Hrun as <- <-.
    exists ([x1] ++ [x2] ++ xs). unfold pinned, rows in *.
    rewrite !omap_app, Hrows1, Hrows2, Hpinned1, Hpinned2, Hpinned3.
    split; [ | split ].
    + rewrite Hp6, Hlog3, Hp5, Hp4, Hlog2, Hp3, Hp2, Hlog1, Hp1, Hlog0.
      rewrite <- !app_assoc. reflexivity.
    + assumption.
    + exists image_cid, json_cid.
      split; [ reflexivity | ]. split; [ exact Hall | ].
      split; [ reflexivity | ]. split; [ reflexivity | ].
      exists x1, x2, xs. split; [ reflexivity | ].
      split; [ | split; [ exact Hhash1 | split; [ exact Hhash2 | ] ] ].
      * intros Hsame. rewrite Hsame, Hload2 in Hload1.
        apply (f_equal (fun p => match p with
                                 | Multipart name _ _ _ _ => name
                                 | _ => []
                                 end)) in Hload1.
        symmetry in Hload1. revert Hload1. apply file_names_differ.
      * rewrite Hhash1, Hhash2. congruence.
Qed.

End Facts.

Import Reference Scenario.

Lemma upload_records_single_cid_witness :
  load_config service_environ = Ok service_cfg /\
  (exists res w',
     handle service_cfg Upload wallet capture capture_metadata
            (fresh pin_then_store) = (Ok res, w') /\
     exists xs,
       exchanges w' = exchanges (fresh pin_then_store) ++ xs /\
       rows xs <> [] /\
       exists c,
         pinned xs = [c] /\
         Forall (eq (JDict [ (lit "wallet_address", JStr wallet);
                             (lit "image_cid", c);
                             (lit "metadata_cid", c) ]))
                (rows xs) /\
         cid res = c /\ metadata_cid res = None) /\
  (exists res w',
     handle service_cfg UploadJson wallet capture capture_metadata
            (fresh pin_twice_then_store) = (Ok res, w') /\
     exists xs,
       exchanges w' = exchanges (fresh pin_twice_then_store) ++ xs /\
       rows xs <> [] /\
       exists image_cid json_cid,
         pinned xs = [image_cid; json_cid] /\
         Forall (eq (JDict [ (lit "wallet_address", JStr wallet);
                             (lit "image_cid", image_cid);
                             (lit "metadata_cid", json_cid) ]))
                (rows xs) /\
         cid res = image_cid /\ metadata_cid res = Some json_cid /\
         exists x1 x2 rest,
           xs = x1 :: x2 :: rest /\
           fst x1 <> fst x2 /\
           ipfs_hash_of (snd x1) = Some image_cid /\
           ipfs_hash_of (snd x2) = Some json_cid /\
           (ipfs_hash_of (snd x1) <> ipfs_hash_of (snd x2) ->
            image_cid <> json_cid)) /\
  rows (exchanged (handle service_cfg Upload wallet capture capture_metadata)
                  (fresh pin_then_store))
  = [ JDict [ (lit "wallet_address", JStr (lit "0xabc"));
              (lit "image_cid", JStr (lit "bafkreiaaa"));
              (lit "metadata_cid", JStr (lit "bafkreiaaa")) ];
      JDict [ (lit "wallet_address", JStr (lit "0xabc"));
              (lit "image_cid", JStr (lit "bafkreiaaa"));
              (lit "metadata_cid", JStr (lit "bafkreiaaa")) ] ] /\
  rows (exchanged (handle service_cfg UploadJson wallet capture
                          capture_metadata)
                  (fresh pin_twice_then_store))
  = [ JDict [ (lit "wallet_address", JStr (lit "0xabc"));
              (lit "image_cid", JStr (lit "bafkreiaaa"));
              (lit "metadata_cid", JStr (lit "bafkreibbb")) ] ].
Proof.
  split; [ vm_compute; reflexivity | ].
  split.
  { eexists _, _. split; [ vm_compute; reflexivity | ].
    eapply (upload_records_single_cid service_cfg Upload wallet capture
              capture_metadata (fresh pin_then_store)).
    vm_compute. reflexivity. }
  split.
  { eexists _, _. split; [ vm_compute; reflexivity | ].
    eapply (upload_records_single_cid service_cfg UploadJson wallet capture
              capture_metadata (fresh pin_twice_then_store)).
    vm_compute. reflexivity. }
  split; vm_compute; reflexivity.
Defined.

End UploadFacts.

(** * Runs of the retriever *)

Module Runs.
Import RetrieveCid Reference Scenario.

Section Signatures.

Context {lib : Codecs}.

(** A payload that begins with FF D8 FF is a JPEG, whatever follows. *)
Lemma jpeg_signature rest : classify (xff :: xd8 :: xff :: rest) = ClsJPEG.
Proof. reflexivity. Qed.

(** A payload that begins with 89 50 4E 47 is a PNG, whatever follows. *)
Lemma png_signature rest :
  classify (x89 :: x50 :: x4e :: x47 :: rest) = ClsPNG.
Proof. reflexivity. Qed.

End Signatures.

(** The first gateway times out, the second answers 404, the third answers
    200 with a JSON object: three requests are made, the payload is
    announced as JSON and written back, indented, under the first ten
    characters of the identifier. *)
Example third_gateway_serves_json :
  sent (snd (main cfg_public [lit "retrieve_cid.py"; X] (fresh third_answers)))
  = map request_of [ipfs_io X; pinata_public X; dweb_link X] /\
  announced (stdout (snd (main cfg_public [lit "retrieve_cid.py"; X]
                               (fresh third_answers))))
  = [ClsJSON] /\
  files (snd (main cfg_public [lit "retrieve_cid.py"; X] (fresh third_answers)))
  = {[ lit "retrieved_bafybeicoz.json" := wallet_pretty ]}.
Proof. repeat split; vm_compute; reflexivity. Qed.

(** Without arguments the two built-in identifiers are fetched, in that
    order. *)
Example no_argument_run :
  map req_url
      (sent (snd (main cfg_public [lit "retrieve_cid.py"]
                       (fresh [ respond 200 one_pixel_png;
                                Responds wallet_response ]))))
  = [ lit "https://ipfs.io/ipfs/" ++ image_cid;
      lit "https://ipfs.io/ipfs/" ++ metadata_cid ] /\
  announced (stdout (snd (main cfg_public [lit "retrieve_cid.py"]
                               (fresh [ respond 200 one_pixel_png;
                                        Responds wallet_response ]))))
  = [ClsPNG; ClsJSON].
Proof. repeat split; vm_compute; reflexivity. Qed.

(** With a token the authenticated gateway is asked first, with the bearer
    header. *)
Example token_run :
  sent (snd (retrieve_from_ipfs cfg_jwt X (fresh [Responds wallet_response])))
  = [ mkRequest GET
        (lit "https://amethyst-impossible-ptarmigan-368.mypinata.cloud/ipfs/"
         ++ X)
        [ (lit "Authorization", lit "Bearer secret-token") ] [] NoBody 30 ].
Proof. vm_compute. reflexivity. Qed.

(** A JSON text after a leading space misses the first-byte test and is
    recognised by the decode-and-parse branch. *)
Example json_by_fallback :
  startswith space_then_object (blit "{") = false /\
  classify space_then_object = ClsJSON.
Proof. split; reflexivity. Qed.

(** DE AD BE EF is unknown and saved as .bin. *)
Example dead_beef_is_unknown :
  classify dead_beef = ClsUnknown /\
  sniff_and_display dead_beef X (fresh [])
  = (Ok tt,
     mkWorld (mkScript [] 1700000000) []
       [ L_unknown; L_size 4; L_head_hex dead_beef; L_head_text dead_beef;
         L_saved (retrieved_name X ".bin") ]
       {[ retrieved_name X ".bin" := dead_beef ]}).
Proof. split; vm_compute; reflexivity. Qed.

(** A PNG file is announced as PNG and saved under the .jpg extension. *)
Example png_saved_as_jpg :
  Image_open one_pixel_png = Ok (mkImageInfo (lit "PNG") 1 1 (lit "RGBA")) /\
  files (snd (sniff_and_display one_pixel_png Y (fresh [])))
  = {[ lit "retrieved_bafkreifuo.jpg" := one_pixel_png ]}.
Proof. split; vm_compute; reflexivity. Qed.

(** A JSON list that contains the string data is parsed and written, then
    [data.get] raises AttributeError and the payload is also saved as
    .bin. *)
Example inspect_failure_adds_bin :
  files (snd (display_json (dq "['data']") X (fresh [])))
  = {[ retrieved_name X ".json" :=
         blit "[" ++ [x0a] ++ dq "  'data'" ++ [x0a] ++ blit "]";
       retrieved_name X ".bin" := dq "['data']" ]} /\
  fst (display_json (dq "['data']") X (fresh [])) = Ok tt.
Proof. split; vm_compute; reflexivity. Qed.

(** When the configured gateway is itself a public host, the bearer token
    is sent to that host, and the second candidate repeats the address
    without it. *)
Example token_reaches_public_host :
  sent (snd (retrieve_from_ipfs cfg_jwt_on_public_host X
                                (fresh [respond 404 []; Responds wallet_response])))
  = [ mkRequest GET (lit "https://ipfs.io/ipfs/" ++ X)
        [ (lit "Authorization", lit "Bearer secret-token") ] [] NoBody 30;
      mkRequest GET (lit "https://ipfs.io/ipfs/" ++ X) [] [] NoBody 30 ].
Proof. vm_compute. reflexivity. Qed.

(** An identifier with a slash in its first ten characters: the file
    cannot be opened, neither can the .bin file of the error path, and the
    run ends there, before the next identifier and without the completion
    line. *)
Example unopenable_file_ends_the_run :
  main cfg_public [lit "retrieve_cid.py"; slashed; X]
       (fresh [respond 200 one_pixel_png; Responds wallet_response])
  = (Raise (OSError (lit "[Errno 2] No such file or directory")),
     mkWorld (mkScript [Responds wallet_response] 1700000000)
       [ (mkRequest GET (lit "https://ipfs.io/ipfs/a/b") [] [] NoBody 30,
          respond 200 one_pixel_png) ]
       [ L_rule; L_title; L_rule;
         L_gateway (lit "amethyst-impossible-ptarmigan-368.mypinata.cloud");
         L_blank; L_rule_nl; L_retrieving slashed;
         L_trying (lit "IPFS.io Public Gateway"); L_success;
         L_detected LabelPNG; L_image_ok; L_image_format (lit "PNG");
         L_image_size 1 1; L_image_mode (lit "RGBA");
         L_image_error (OSError (lit "[Errno 2] No such file or directory")) ]
       ∅).
Proof. vm_compute. reflexivity. Qed.

End Runs.

(** * More on the resolver *)

Module ResolverBounds.
Import RetrieveCid QuietFacts ResolverFacts.

Section Facts.

Context {Ext : Type} {io : External Ext}.
Variable cfg : Config.

(** The loop asks the candidates in order and stops at the first 200
    answer: what it returns is the body of that answer, and the requests it
    sends are the requests of the first [k] candidates, [k] being at least
    one when there is a candidate. *)
Lemma for_gateways_prefix cid gs :
  forall i (w : World Ext),
    exists w1 k,
      for_gateways cid i gs w
      = (Ok (content <$> first_answer gs (ext w)), w1) /\
      files w1 = files w /\
      (k <= length gs)%nat /\
      (gs <> [] -> 1 <= k)%nat /\
      sent w1 = sent w ++ take k (map request_of gs) /\
      (first_answer gs (ext w) = None -> k = length gs).
Proof.
  induction gs as [| gateway gs IH]; intros i w.
  - exists w, 0%nat. simpl. rewrite app_nil_r. repeat split; auto.
    intros Hne. contradiction.
  - destruct (attempt_exchange cid i gateway w)
      as (s & w1 & Hrun & Hext & Hlog & Hfiles & Hs).
    simpl. unfold bind at 1. rewrite Hrun.
    destruct (requests_send (request_of gateway) (ext w)) as [o e'].
    simpl in Hext, Hs, Hlog.
    assert (Hstop :
      exists k,
        files w1 = files w /\ (k <= S (length gs))%nat /\
        (gateway :: gs <> [] -> 1 <= k)%nat /\
        sent w1 = sent w ++ take k (request_of gateway :: map request_of gs)).
    { exists 1%nat. repeat split; auto; try lia.
      rewrite (sent_app_exchange _ _ _ _ Hlog). reflexivity. }
    assert (Hnext :
      exists w2 k,
        for_gateways cid (S i) gs w1
        = (Ok (content <$> first_answer gs e'), w2) /\
        files w2 = files w /\ (k <= S (length gs))%nat /\
        (gateway :: gs <> [] -> 1 <= k)%nat /\
        sent w2 = sent w ++ take k (request_of gateway :: map request_of gs)
        /\
        (first_answer gs e' = None -> k = S (length gs))).
    { destruct (IH (S i) w1) as (w2 & k & Hloop & Hf2 & Hk & _ & Hsent & Hall).
      exists w2, (S k). rewrite Hloop, Hext. repeat split; try lia.
      - congruence.
      - rewrite Hsent, (sent_app_exchange _ _ _ _ Hlog), <- app_assoc.
        reflexivity.
      - intros Hnone. rewrite Hext in Hall. rewrite (Hall Hnone).
        reflexivity. }
    destruct o as [r | msg]; [ destruct (status_code r =? 200)%Z | ];
      subst s; auto.
    destruct Hstop as (k & Hf & Hk & Hone & Hsent).
    exists w1, k. repeat split; auto. discriminate.
Qed.

(** X1.  Whatever the network does, the resolver returns normally.  Its result
    is the body of the first 200 answer among the candidates asked in
    order, or None when there is none, and it writes no file. *)
Theorem resolver_returns_first_answer cid (w : World Ext) :
  exists w',
    retrieve_from_ipfs cfg cid w
    = (Ok (content <$> first_answer (gateways cfg cid) (ext w)), w') /\
    files w' = files w.
Proof.
  destruct (for_gateways_prefix cid (gateways cfg cid) 0 w)
    as (w1 & k & Hloop & Hfiles & _).
  unfold retrieve_from_ipfs. unfold bind at 1. rewrite Hloop.
  destruct (first_answer (gateways cfg cid) (ext w)) as [r | ]; simpl.
  - exists w1. auto.
  - eexists. split; [ reflexivity | ]. simpl. assumption.
Qed.

(** X2.  One call of the resolver sends at least one request and at most
    five, and those it sends are the first entries of the priority list
    written out in [candidate_requests], in that order, one request per
    entry: no entry is skipped and none is used twice.  When it returns
    None it has gone through the whole list.  (Two entries are the same
    request when the configured gateway is one of the public hosts and no
    token is set.) *)
Theorem resolver_request_budget cid (w : World Ext) :
  exists k,
    (1 <= k <= 5)%nat /\
    (k <= length (candidate_requests cfg cid))%nat /\
    sent (snd (retrieve_from_ipfs cfg cid w))
    = sent w ++ take k (candidate_requests cfg cid) /\
    (fst (retrieve_from_ipfs cfg cid w) = Ok None ->
     k = length (candidate_requests cfg cid)).
Proof.
  destruct (for_gateways_prefix cid (gateways cfg cid) 0 w)
    as (w1 & k & Hloop & _ & Hk & Hone & Hsent & Hall).
  rewrite <- (candidate_requests_spelled cfg cid), length_map.
  exists k. split; [ | split; [ exact Hk | split ] ].
  - split.
    + apply Hone. unfold gateways.
      destruct (truthy (PINATA_JWT cfg)); discriminate.
    + etransitivity; [ exact Hk | ]. unfold gateways.
      destruct (truthy (PINATA_JWT cfg)); simpl; lia.
  - unfold retrieve_from_ipfs. unfold bind at 1. rewrite Hloop.
    destruct (first_answer (gateways cfg cid) (ext w)); simpl; assumption.
  - unfold retrieve_from_ipfs. unfold bind at 1. rewrite Hloop.
    destruct (first_answer (gateways cfg cid) (ext w)) as [r | ] eqn:Hfirst;
      simpl; [ discriminate | ].
    intros _. apply Hall. reflexivity.
Qed.




End Facts.

Import Reference Scenario.


End ResolverBounds.

(** * More on the rendering routines *)

Module RenderMore.
Import RetrieveCid QuietFacts InspectFacts RenderFacts Inspection Locality.

Section Facts.

Context {Ext : Type} {io : External Ext} {lib : Codecs}.

Local Opaque lit inspect retrieved_name slice_to.

(** X4.  A payload that decodes and parses, when the .json and the .bin
    file of the identifier can be opened, is written to the .json file as
    [json.dump] prints it, and the routine returns normally without making
    a request.  That is the only file touched when the document is
    inspectable; when it is not (a number, a boolean, null, a list or a
    string that contains the word data, a [data] member of the wrong shape)
    the error raised while looking for the images is caught and the payload
    is saved a second time, raw, as .bin.  The document is taken to hold no
    surrogate code point, which a strict standard output would refuse to
    print. *)
Theorem parsed_document_files content cid (w : World Ext) text data :
  decode content = Ok text ->
  json_loads text = Ok data ->
  surrogate_free data = true ->
  open_error (retrieved_name cid ".json") (ext w) = None ->
  open_error (retrieved_name cid ".bin") (ext w) = None ->
  exists w',
    display_json content cid w = (Ok tt, w') /\
    exchanges w' = exchanges w /\
    files w' =
      if inspectable data then
        <[ retrieved_name cid ".json" := json_dump_indent2 data ]> (files w)
      else
        <[ retrieved_name cid ".bin" := content ]>
          (<[ retrieved_name cid ".json" := json_dump_indent2 data ]> (files w)).
Proof.
  intros Hdec Hloads _ Hjson Hbin.
  unfold display_json, try_except. unfold bind at 1. unfold lift at 1.
  rewrite Hdec. cbn. rewrite Hloads. cbn.
  unfold bind at 1. rewrite write_file_ok by exact Hjson. cbn.
  match goal with
  | |- context [inspect data ?W] =>
      destruct (inspect_ends data W) as (r & out & -> & _ & Hr)
  end.
  destruct r as [[] | e].
  - rewrite Hr. eexists. split; [ reflexivity | ]. auto.
  - destruct Hr as [-> He]. rewrite He.
    unfold bind, print. cbn. rewrite write_file_ok by exact Hbin. cbn.
    eexists. split; [ reflexivity | ]. auto.
Qed.

(** X5.  Bytes that are not valid UTF-8 are never echoed or saved as text:
    the UnicodeDecodeError is reported and the payload goes to the .bin
    file.  When that file cannot be opened, the OSError of [open] leaves
    the routine after the report, and nothing is written. *)
Theorem invalid_utf8_saved_as_bin content cid (w : World Ext) :
  utf8_decode content = None ->
  display_json content cid w
  = match open_error (retrieved_name cid ".bin") (ext w) with
    | None =>
        (Ok tt,
         mkWorld (ext w) (exchanges w)
           (stdout w ++ [ L_json_error UnicodeDecodeError;
                          L_saved_raw (retrieved_name cid ".bin") ])
           (<[ retrieved_name cid ".bin" := content ]> (files w)))
    | Some msg =>
        (Raise (OSError msg),
         mkWorld (ext w) (exchanges w)
           (stdout w ++ [ L_json_error UnicodeDecodeError ]) (files w))
    end.
Proof.
  intros Hbad.
  unfold display_json, try_except. unfold bind at 1. unfold lift at 1.
  unfold decode. rewrite Hbad. cbn. unfold bind, print, write_file. cbn.
  destruct (open_error (retrieved_name cid ".bin") (ext w)); cbn;
    rewrite <- ?app_assoc; reflexivity.
Qed.

(** X6.  A text that decodes but does not parse goes to the .txt file when
    the parser raised a JSONDecodeError, after at most its first 500 bytes
    have been echoed, and to the .bin file when the parser raised anything
    else; nothing else is written.  When that file cannot be opened, the
    OSError of [open] leaves the routine and nothing is written. *)
Theorem unparsed_text_saved_raw content cid (w : World Ext) text e :
  decode content = Ok text ->
  json_loads text = Raise e ->
  let extension :=
    if is_JSONDecodeError e then ".txt"%string else ".bin"%string in
  let report :=
    if is_JSONDecodeError e then
      [ L_not_json; L_first_500; L_head_text (take 500 content) ]
    else [ L_json_error e ] in
  display_json content cid w
  = match open_error (retrieved_name cid extension) (ext w) with
    | None =>
        (Ok tt,
         mkWorld (ext w) (exchanges w)
           (stdout w ++ report
            ++ [ L_saved_raw (retrieved_name cid extension) ])
           (<[ retrieved_name cid extension := content ]> (files w)))
    | Some msg =>
        (Raise (OSError msg),
         mkWorld (ext w) (exchanges w) (stdout w ++ report) (files w))
    end.
Proof.
  intros Hdec Hloads. cbv zeta.
  unfold display_json, try_except. unfold bind at 1.
  unfold lift at 1. rewrite Hdec. cbn. rewrite Hloads. cbn.
  unfold bind, print, write_file.
  destruct (is_JSONDecodeError e); cbn.
  - destruct (open_error (retrieved_name cid ".txt") (ext w)); cbn;
      rewrite <- ?app_assoc; reflexivity.
  - destruct (open_error (retrieved_name cid ".bin") (ext w)); cbn;
      rewrite <- ?app_assoc; reflexivity.
Qed.

(** X7.  An image that opens is saved raw under the .jpg extension whatever
    its format, after its format, size and mode have been printed; whether
    the viewer then starts or fails changes neither the file nor the
    outcome, only one more line is printed when it fails.  When the .jpg
    file cannot be opened the payload goes to the .bin file instead, and
    when that cannot be opened either, the OSError of [open] leaves the
    routine and nothing is written. *)
Theorem opened_image_saved_as_jpg content cid (w : World Ext) img :
  Image_open content = Ok img ->
  match open_error (retrieved_name cid ".jpg") (ext w) with
  | None =>
      exists w',
        display_image content cid w = (Ok tt, w') /\
        exchanges w' = exchanges w /\
        files w' = <[ retrieved_name cid ".jpg" := content ]> (files w) /\
        stdout w' =
          stdout w ++
          [ L_image_ok; L_image_format (img_format img);
            L_image_size (img_width img) (img_height img);
            L_image_mode (img_mode img);
            L_saved (retrieved_name cid ".jpg") ] ++
          match fst (Image_show img (ext w)) with
          | Ok _ => []
          | Raise _ => [L_no_display]
          end
  | Some _ =>
      match open_error (retrieved_name cid ".bin") (ext w) with
      | None =>
          exists w',
            display_image content cid w = (Ok tt, w') /\
            exchanges w' = exchanges w /\
            files w' = <[ retrieved_name cid ".bin" := content ]> (files w)
      | Some msg =>
          exists w',
            display_image content cid w = (Raise (OSError msg), w') /\
            exchanges w' = exchanges w /\
            files w' = files w
      end
  end.
Proof.
  intros Hopen.
  unfold display_image, try_except, bind, lift, print, write_file, show.
  rewrite Hopen. cbn.
  destruct (open_error (retrieved_name cid ".jpg") (ext w)); cbn.
  - destruct (open_error (retrieved_name cid ".bin") (ext w)); cbn;
      eexists; split; [ reflexivity | auto | reflexivity | auto ].
  - destruct (Image_show img (ext w)) as [[[] | e] e']; cbn.
    all: eexists; split; [ reflexivity | ]; cbn.
    all: repeat split; rewrite <- ?app_assoc; reflexivity.
Qed.

Local Transparent retrieved_name slice_to.

Lemma retrieved_name_prefix cid1 cid2 extension :
  take 10 cid1 = take 10 cid2 ->
  retrieved_name cid1 extension = retrieved_name cid2 extension.
Proof. unfold retrieved_name, slice_to. intros ->. reflexivity. Qed.

Local Opaque retrieved_name slice_to.

(** X8.  File names keep only the first ten characters of an identifier:
    when two identifiers agree on them, both payloads open as images and
    the .jpg file can be opened, the second image replaces the first one on
    disk. *)
Theorem same_prefix_overwrites content1 content2 cid1 cid2 (w : World Ext)
    img1 img2 :
  take 10 cid1 = take 10 cid2 ->
  Image_open content1 = Ok img1 ->
  Image_open content2 = Ok img2 ->
  (forall e, open_error (retrieved_name cid2 ".jpg") e = None) ->
  files (snd ((display_image content1 cid1 ;; display_image content2 cid2) w))
  = <[ retrieved_name cid2 ".jpg" := content2 ]> (files w).
Proof.
  intros Hprefix Hopen1 Hopen2 Hjpg. unfold bind.
  destruct (display_image_spec content1 cid1 w)
    as (w1 & out1 & -> & _ & _ & _ & Hf1).
  { rewrite Hopen1, (retrieved_name_prefix cid1 cid2 _ Hprefix). apply Hjpg. }
  destruct (display_image_spec content2 cid2 w1)
    as (w2 & out2 & -> & _ & _ & _ & Hf2).
  { rewrite Hopen2. apply Hjpg. }
  rewrite Hopen1 in Hf1. rewrite Hopen2 in Hf2. simpl.
  rewrite Hf2, Hf1, (retrieved_name_prefix cid1 cid2 _ Hprefix).
  apply insert_insert_eq.
Qed.

(** The sniffing code touches no file but those named after the
    identifier. *)
Lemma sniff_and_display_frame content cid (w : World Ext) name :
  (forall extension,
     In extension extensions -> name <> retrieved_name cid extension) ->
  files (snd (sniff_and_display content cid w)) !! name = files w !! name.
Proof.
  intros Hname.
  destruct (sniff_and_display_headed content cid w)
    as (r & w' & out & -> & _ & _ & _ & Hf).
  apply Hf. exact Hname.
Qed.

End Facts.

Import Reference Scenario Scenario2.

Lemma parsed_document_files_witness :
  (decode wallet_body = Ok (sq "{'wallet_address':'0xabc'}") /\
   json_loads (sq "{'wallet_address':'0xabc'}")
   = Ok (JDict [ (lit "wallet_address", JStr (lit "0xabc")) ]) /\
   surrogate_free (JDict [ (lit "wallet_address", JStr (lit "0xabc")) ])
   = true /\
   open_error (retrieved_name X ".json") (ext (fresh [])) = None /\
   open_error (retrieved_name X ".bin") (ext (fresh [])) = None /\
   exists w',
     display_json wallet_body X (fresh []) = (Ok tt, w') /\
     exchanges w' = [] /\
     files w' = {[ retrieved_name X ".json" := wallet_pretty ]}) /\
  (decode list_with_data = Ok (sq "['data']") /\
   json_loads (sq "['data']") = Ok (JList [ JStr (lit "data") ]) /\
   exists w',
     display_json list_with_data X (fresh []) = (Ok tt, w') /\
     exchanges w' = [] /\
     files w' =
       <[ retrieved_name X ".bin" := list_with_data ]>
         {[ retrieved_name X ".json" :=
              blit "[" ++ [x0a] ++ dq "  'data'" ++ [x0a] ++ blit "]" ]}).
Proof.
  split.
  - split; [ reflexivity | ]. split; [ reflexivity | ].
    split; [ reflexivity | ]. split; [ reflexivity | ].
    split; [ reflexivity | ].
    destruct (parsed_document_files wallet_body X (fresh [])
                (sq "{'wallet_address':'0xabc'}")
                (JDict [ (lit "wallet_address", JStr (lit "0xabc")) ]))
      as (w' & Hrun & Hlog & Hfiles);
      [ reflexivity | reflexivity | reflexivity | reflexivity | reflexivity
      | ].
    exists w'. split; [ exact Hrun | ]. split; [ exact Hlog | ].
    rewrite Hfiles. vm_compute. reflexivity.
  - split; [ reflexivity | ]. split; [ reflexivity | ].
    destruct (parsed_document_files list_with_data X (fresh [])
                (sq "['data']") (JList [ JStr (lit "data") ]))
      as (w' & Hrun & Hlog & Hfiles);
      [ reflexivity | reflexivity | reflexivity | reflexivity | reflexivity
      | ].
    exists w'. split; [ exact Hrun | ]. split; [ exact Hlog | ].
    rewrite Hfiles. vm_compute. reflexivity.
Defined.

Lemma invalid_utf8_saved_as_bin_witness :
  utf8_decode dead_beef = None /\
  display_json dead_beef X (fresh [])
  = (Ok tt,
     mkWorld (mkScript [] 1700000000) []
       [ L_json_error UnicodeDecodeError;
         L_saved_raw (retrieved_name X ".bin") ]
       {[ retrieved_name X ".bin" := dead_beef ]}) /\
  display_json dead_beef slashed (fresh [])
  = (Raise (OSError (lit "[Errno 2] No such file or directory")),
     mkWorld (mkScript [] 1700000000) []
       [ L_json_error UnicodeDecodeError ] ∅).
Proof.
  assert (Hbad : utf8_decode dead_beef = None) by reflexivity.
  split; [ exact Hbad | ]. split.
  - rewrite (invalid_utf8_saved_as_bin dead_beef X (fresh []) Hbad).
    vm_compute. reflexivity.
  - rewrite (invalid_utf8_saved_as_bin dead_beef slashed (fresh []) Hbad).
    vm_compute. reflexivity.
Defined.

Lemma unparsed_text_saved_raw_witness :
  decode not_json = Ok (lit "{not json") /\
  json_loads (lit "{not json") = Raise JSONDecodeError /\
  display_json not_json X (fresh [])
  = (Ok tt,
     mkWorld (mkScript [] 1700000000) []
       [ L_not_json; L_first_500; L_head_text not_json;
         L_saved_raw (retrieved_name X ".txt") ]
       {[ retrieved_name X ".txt" := not_json ]}) /\
  display_json not_json slashed (fresh [])
  = (Raise (OSError (lit "[Errno 2] No such file or directory")),
     mkWorld (mkScript [] 1700000000) []
       [ L_not_json; L_first_500; L_head_text not_json ] ∅).
Proof.
  assert (Hdec : decode not_json = Ok (lit "{not json")) by reflexivity.
  assert (Hloads : json_loads (lit "{not json") = Raise JSONDecodeError)
    by reflexivity.
  split; [ exact Hdec | ]. split; [ exact Hloads | ]. split.
  - rewrite (unparsed_text_saved_raw not_json X (fresh []) (lit "{not json")
               JSONDecodeError Hdec Hloads).
    vm_compute. reflexivity.
  - rewrite (unparsed_text_saved_raw not_json slashed (fresh [])
               (lit "{not json") JSONDecodeError Hdec Hloads).
    vm_compute. reflexivity.
Defined.

Lemma opened_image_saved_as_jpg_witness :
  Image_open one_pixel_png = Ok (mkImageInfo (lit "PNG") 1 1 (lit "RGBA")) /\
  (exists w',
     display_image one_pixel_png Y (fresh []) = (Ok tt, w') /\
     exchanges w' = [] /\
     files w' = <[ retrieved_name Y ".jpg" := one_pixel_png ]> ∅ /\
     stdout w' =
       [ L_image_ok; L_image_format (lit "PNG"); L_image_size 1 1;
         L_image_mode (lit "RGBA"); L_saved (retrieved_name Y ".jpg") ]
       ++ [ L_no_display ]) /\
  (exists w',
     display_image one_pixel_png slashed (fresh [])
     = (Raise (OSError (lit "[Errno 2] No such file or directory")), w') /\
     exchanges w' = [] /\
     files w' = ∅).
Proof.
  assert (Hopen : Image_open one_pixel_png
                  = Ok (mkImageInfo (lit "PNG") 1 1 (lit "RGBA")))
    by reflexivity.
  split; [ exact Hopen | ]. split.
  - exact (opened_image_saved_as_jpg one_pixel_png Y (fresh []) _ Hopen).
  - exact (opened_image_saved_as_jpg one_pixel_png slashed (fresh []) _
             Hopen).
Defined.

Lemma same_prefix_overwrites_witness :
  take 10 Y = take 10 Y_sibling /\
  Y <> Y_sibling /\
  Image_open grey_pixel_png = Ok (mkImageInfo (lit "PNG") 1 1 (lit "L")) /\
  (forall e : Script, open_error (retrieved_name Y_sibling ".jpg") e = None) /\
  files (snd ((display_image one_pixel_png Y ;;
               display_image grey_pixel_png Y_sibling) (fresh [])))
  = {[ retrieved_name Y_sibling ".jpg" := grey_pixel_png ]}.
Proof.
  split; [ reflexivity | ]. split; [ vm_compute; discriminate | ].
  split; [ reflexivity | ].
  assert (Hjpg : forall e : Script,
            open_error (retrieved_name Y_sibling ".jpg") e = None)
    by (intros e; vm_compute; reflexivity).
  split; [ exact Hjpg | ].
  assert (H1 : Image_open one_pixel_png
               = Ok (mkImageInfo (lit "PNG") 1 1 (lit "RGBA")))
    by reflexivity.
  assert (H2 : Image_open grey_pixel_png
               = Ok (mkImageInfo (lit "PNG") 1 1 (lit "L")))
    by reflexivity.
  assert (Hprefix : take 10 Y = take 10 Y_sibling) by reflexivity.
  rewrite (same_prefix_overwrites one_pixel_png grey_pixel_png Y Y_sibling
             (fresh []) _ _ Hprefix H1 H2 Hjpg).
  reflexivity.
Defined.

End RenderMore.

(** * More on the batch driver *)

Module DriverMore.
Import RetrieveCid QuietFacts ResolverFacts ResolverBounds RenderFacts
       RenderMore Batch Locality.

Section Facts.

Context {Ext : Type} {io : External Ext} {lib : Codecs}.
Variable cfg : Config.





End Facts.

Import Reference Scenario Scenario2.



End DriverMore.

(** * More on the upload service *)

Module UploadMore.
Import UploadService Service.

Section Facts.

Context {Ext : Type} {io : External Ext} {lib : Codecs}.
Variable cfg : Config.

(** Neither credential header is a Content-Type header: the filter of
    [upload_to_ipfs] keeps them all. *)
Lemma credentials_pass_filter headers :
  pinata_headers cfg = Some headers ->
  filter (fun kv : str * str => str_lower (fst kv) <> lit "content-type")
         headers
  = headers.
Proof.
  unfold pinata_headers.
  destruct (truthy (PINATA_API_KEY cfg) && truthy (PINATA_SECRET_KEY cfg));
    [ | destruct (truthy (PINATA_JWT cfg)); [ | discriminate ] ].
  all: intros [= <-]; reflexivity.
Qed.

Lemma py_get_raises obj key default e :
  py_get obj key default = Raise e -> e = AttributeError.
Proof. destruct obj; simpl; congruence. Qed.

Local Opaque lit.

(** [upload_to_ipfs] under credentials: one request, logged with its
    answer, and a result that is [pin_result] of that answer. *)
Lemma upload_to_ipfs_run headers file_data filename metadata (w : World Ext) :
  pinata_headers cfg = Some headers ->
  let rq := pin_request headers file_data filename metadata in
  exists out,
    upload_to_ipfs cfg file_data filename metadata w
    = (pin_result (fst (requests_send rq (ext w))),
       mkWorld (snd (requests_send rq (ext w)))
               (exchanges w ++ [(rq, fst (requests_send rq (ext w)))])
               (stdout w ++ out) (files w)).
Proof.
  intros Hh rq. subst rq.
  pose proof (credentials_pass_filter headers Hh) as Hfilter.
  assert (Hheaders :
    (if truthy (PINATA_API_KEY cfg) && truthy (PINATA_SECRET_KEY cfg) then
       ret [ (lit "pinata_api_key", fmt_opt (PINATA_API_KEY cfg));
             (lit "pinata_secret_api_key", fmt_opt (PINATA_SECRET_KEY cfg)) ]
     else if truthy (PINATA_JWT cfg) then
       ret [ (lit "Authorization",
              lit "Bearer " ++ fmt_opt (PINATA_JWT cfg)) ]
     else raise (ValueError (lit "No Pinata credentials available"))) w
    = (Ok headers, w)).
  { unfold pinata_headers in Hh.
    destruct (truthy (PINATA_API_KEY cfg) && truthy (PINATA_SECRET_KEY cfg));
      [ | destruct (truthy (PINATA_JWT cfg)); [ | discriminate ] ].
    all: injection Hh as <-; reflexivity. }
  unfold upload_to_ipfs. unfold bind at 1. rewrite Hheaders. cbv zeta.
  rewrite Hfilter.
  unfold pin_request, pin_result, try_except, bind, send, raise_for_status,
    response_json, lift, print, ret, raise.
  destruct (requests_send _ (ext w)) as [[r | msg] e']; cbn.
  2: { exists []. rewrite app_nil_r. reflexivity. }
  destruct (status_code r =? 200)%Z eqn:H200; cbn.
  2: { exists []. rewrite app_nil_r. reflexivity. }
  apply Z.eqb_eq in H200. rewrite H200. cbn.
  destruct (Response_json r) as [result | ]; cbn.
  2: { exists []. rewrite app_nil_r. reflexivity. }
  destruct (py_get result (lit "IpfsHash") JNull) as [h | e] eqn:Hget; cbn.
  2: { apply py_get_raises in Hget as ->. cbn.
       exists []. rewrite app_nil_r. reflexivity. }
  destruct (py_truthy h); cbn.
  - eexists [_]. reflexivity.
  - exists []. rewrite app_nil_r. reflexivity.
Qed.

(** What [store_in_supabase] does once it has settled on an answer. *)
Lemma settle_insert (response : Response) (w : World Ext) :
  exists out,
    try_except
      ((if (status_code response =? 401)%Z then
          print (L_supabase_error (SupabaseAuthFailed (content response))) ;;
          raise (HTTPException 401 (SupabaseAuthFailed (content response)))
        else ret tt) ;;
       (if (status_code response =? 404)%Z then
          print (L_supabase_error SupabaseTableNotFound) ;;
          raise (HTTPException 404 SupabaseTableNotFound)
        else ret tt) ;;
       raise_for_status response ;;
       result <- response_json response ;;
       print L_supabase_ok ;;
       ret result)
      (fun e =>
         if is_HTTPException e then raise e
         else if is_RequestException e then
           print (L_supabase_error (SupabaseInsertFailed (exn_str e))) ;;
           raise (HTTPException 500 (SupabaseInsertFailed (exn_str e)))
         else raise e) w
    = (insert_result (Responds response),
       mkWorld (ext w) (exchanges w) (stdout w ++ out) (files w)).
Proof.
  unfold insert_result, try_except, bind, raise_for_status, response_json,
    print, ret, raise.
  destruct (status_code response =? 401)%Z; cbn.
  { eexists [_]. reflexivity. }
  destruct (status_code response =? 404)%Z; cbn.
  { eexists [_]. reflexivity. }
  destruct ((400 <=? status_code response)%Z && (status_code response <? 600)%Z);
    cbn.
  { eexists [_]. reflexivity. }
  destruct (Response_json response); cbn; eexists [_]; reflexivity.
Qed.

Lemma try_bind_ok {A B} (m : M Ext A) (k : A -> M Ext B) handler w a w1 :
  m w = (Ok a, w1) ->
  try_except (bind m k) handler w = try_except (k a) handler w1.
Proof. intros Hm. unfold try_except, bind. rewrite Hm. reflexivity. Qed.

Lemma try_bind_raise {A B} (m : M Ext A) (k : A -> M Ext B) handler w e w1 :
  m w = (Raise e, w1) ->
  try_except (bind m k) handler w = handler e w1.
Proof. intros Hm. unfold try_except, bind. rewrite Hm. reflexivity. Qed.

Lemma send_run rq (w : World Ext) :
  send rq w
  = (match fst (requests_send rq (ext w)) with
     | Responds r => Ok r
     | Fails msg => Raise (RequestException msg)
     end,
     mkWorld (snd (requests_send rq (ext w)))
             (exchanges w ++ [(rq, fst (requests_send rq (ext w)))])
             (stdout w) (files w)).
Proof. unfold send. destruct (requests_send rq (ext w)). reflexivity. Qed.

(** [store_in_supabase]: a first request to the plain table name; on a
    401 answer, and only then, a second one to the quoted name; the result
    is [insert_result] of the last answer. *)
Lemma store_in_supabase_run wallet image_cid metadata_cid (w : World Ext) :
  let rq1 := insert_request cfg false wallet image_cid metadata_cid in
  let rq2 := insert_request cfg true wallet image_cid metadata_cid in
  let o1 := fst (requests_send rq1 (ext w)) in
  let e1 := snd (requests_send rq1 (ext w)) in
  let o2 := fst (requests_send rq2 e1) in
  let e2 := snd (requests_send rq2 e1) in
  exists out,
    store_in_supabase cfg wallet image_cid metadata_cid w
    = if unauthorized o1 then
        (insert_result o2,
         mkWorld e2 (exchanges w ++ [(rq1, o1); (rq2, o2)])
                 (stdout w ++ out) (files w))
      else
        (insert_result o1,
         mkWorld e1 (exchanges w ++ [(rq1, o1)]) (stdout w ++ out) (files w)).
Proof.
  intros rq1 rq2 o1 e1 o2 e2.
  unfold store_in_supabase. cbv zeta.
  change (mkRequest POST (fmt_opt (SUPABASE_URL cfg) ++ lit "/rest/v1/images")
            (supabase_headers cfg) []
            (JsonBody (row wallet image_cid metadata_cid)) 10) with rq1.
  change (mkRequest POST
            (fmt_opt (SUPABASE_URL cfg) ++ lit "/rest/v1/" ++ [34]
             ++ lit "images" ++ [34])
            (supabase_headers cfg) []
            (JsonBody (row wallet image_cid metadata_cid)) 10) with rq2.
  pose proof (send_run rq1 w) as Hsend1. fold o1 e1 in Hsend1.
  destruct o1 as [r1 | msg1] eqn:Ho1; unfold unauthorized.
  2: { rewrite (try_bind_raise _ _ _ _ _ _ Hsend1). cbn.
       eexists [_]. reflexivity. }
  rewrite (try_bind_ok _ _ _ _ _ _ Hsend1).
  destruct (status_code r1 =? 401)%Z.
  - set (w1 := mkWorld e1 (exchanges w ++ [(rq1, Responds r1)])
                       (stdout w) (files w)).
    pose proof (send_run rq2 (mkWorld e1 (exchanges w1)
                                      (stdout w1 ++ [L_retry_quoted])
                                      (files w1))) as Hsend2.
    cbn [ext exchanges stdout files] in Hsend2. fold o2 e2 in Hsend2.
    assert (Hretry :
      (print L_retry_quoted ;; send rq2) w1
      = (match o2 with
         | Responds r => Ok r
         | Fails msg => Raise (RequestException msg)
         end,
         mkWorld e2 (exchanges w ++ [(rq1, Responds r1); (rq2, o2)])
                 (stdout w ++ [L_retry_quoted]) (files w))).
    { unfold bind at 1. unfold print at 1. cbv beta iota.
      subst w1. cbn [ext exchanges stdout files] in *. rewrite Hsend2.
      rewrite <- app_assoc. reflexivity. }
    destruct o2 as [r2 | msg2].
    + rewrite (try_bind_ok _ _ _ _ _ _ Hretry).
      match goal with
      | |- context [try_except _ _ ?W] =>
          destruct (settle_insert r2 W) as (out & ->)
      end.
      exists ([L_retry_quoted] ++ out). cbn [ext exchanges stdout files].
      rewrite <- app_assoc. reflexivity.
    + rewrite (try_bind_raise _ _ _ _ _ _ Hretry). cbn.
      eexists [_; _]. rewrite <- app_assoc. reflexivity.
  - assert (Hkeep :
      ret (Ext := Ext) r1
          (mkWorld e1 (exchanges w ++ [(rq1, Responds r1)]) (stdout w)
                   (files w))
      = (Ok r1,
         mkWorld e1 (exchanges w ++ [(rq1, Responds r1)]) (stdout w)
                 (files w))) by reflexivity.
    rewrite (try_bind_ok _ _ _ _ _ _ Hkeep).
    match goal with
    | |- context [try_except _ _ ?W] =>
        destruct (settle_insert r1 W) as (out & ->)
    end.
    exists out. reflexivity.
Qed.

(** X11.  With credentials [upload_to_ipfs] sends exactly one request, a POST
    of the file to the pinning endpoint with a 60 second timeout, and what
    it returns is decided by the answer alone: a status other than 200 is
    raised as an HTTPException of that same status, a transport failure or
    a 200 body that is not JSON as an HTTPException 500, a JSON body
    without a usable IpfsHash as a ValueError, and otherwise the IpfsHash
    is returned.  It never retries and writes no file. *)
Theorem pin_outcome_follows_answer headers file_data filename metadata
    (w : World Ext) o e' :
  pinata_headers cfg = Some headers ->
  requests_send (pin_request headers file_data filename metadata) (ext w)
  = (o, e') ->
  exists w',
    upload_to_ipfs cfg file_data filename metadata w = (pin_result o, w') /\
    exchanges w' =
      exchanges w ++ [(pin_request headers file_data filename metadata, o)] /\
    ext w' = e' /\
    files w' = files w.
Proof.
  intros Hh Hsend.
  destruct (upload_to_ipfs_run headers file_data filename metadata w Hh)
    as (out & Hrun).
  rewrite Hsend in Hrun. simpl in Hrun.
  eexists. split; [ exact Hrun | ]. auto.
Qed.

Lemma upload_to_ipfs_unconfigured file_data filename metadata (w : World Ext) :
  pinata_headers cfg = None ->
  upload_to_ipfs cfg file_data filename metadata w
  = (Raise (ValueError (lit "No Pinata credentials available")), w).
Proof.
  unfold pinata_headers, upload_to_ipfs. intros Hh.
  destruct (truthy (PINATA_API_KEY cfg) && truthy (PINATA_SECRET_KEY cfg));
    [ discriminate | ].
  destruct (truthy (PINATA_JWT cfg)); [ discriminate | ]. reflexivity.
Qed.

(** X12.  Without a key pair and without a token [upload_to_ipfs] raises a
    ValueError before anything is sent: the world is left as it was. *)
Theorem pin_without_credentials_sends_nothing file_data filename metadata
    (w : World Ext) :
  pinata_headers cfg = None ->
  upload_to_ipfs cfg file_data filename metadata w
  = (Raise (ValueError (lit "No Pinata credentials available")), w).
Proof. apply upload_to_ipfs_unconfigured. Qed.

(** X13.  [store_in_supabase] posts the row to the plain table name; it posts it
    a second time, to the quoted table name, exactly when the first answer
    is a 401 response, and never a third time.  Its result is decided by
    the last answer: 401 and 404 are raised as HTTPExceptions of the same
    status, any other status from 400 to 599, a transport failure or a body
    that is not JSON as an HTTPException 500, and otherwise the parsed body
    is returned. *)
Theorem insert_retries_only_on_401 wallet image_cid metadata_cid
    (w : World Ext) :
  let rq1 := insert_request cfg false wallet image_cid metadata_cid in
  let rq2 := insert_request cfg true wallet image_cid metadata_cid in
  let o1 := fst (requests_send rq1 (ext w)) in
  let e1 := snd (requests_send rq1 (ext w)) in
  let o2 := fst (requests_send rq2 e1) in
  let e2 := snd (requests_send rq2 e1) in
  exists out,
    store_in_supabase cfg wallet image_cid metadata_cid w
    = if unauthorized o1 then
        (insert_result o2,
         mkWorld e2 (exchanges w ++ [(rq1, o1); (rq2, o2)])
                 (stdout w ++ out) (files w))
      else
        (insert_result o1,
         mkWorld e1 (exchanges w ++ [(rq1, o1)]) (stdout w ++ out) (files w)).
Proof. apply store_in_supabase_run. Qed.

(** The two [except] clauses of an endpoint leave the world as the body
    left it. *)
Lemma snd_endpoint_errors {A} (m : M Ext A) (w : World Ext) :
  snd (try_except m endpoint_errors w) = snd (m w).
Proof.
  unfold try_except, endpoint_errors. destruct (m w) as [[a | e] w1]; simpl;
    [ reflexivity | ].
  destruct (is_HTTPException e); reflexivity.
Qed.

Lemma parse_metadata_run metadata (w : World Ext) :
  parse_metadata metadata w
  = (match json_loads metadata with
     | Ok v => Ok v
     | Raise e =>
         Raise (if is_JSONDecodeError e
                then HTTPException 400 InvalidMetadataJson else e)
     end, w).
Proof.
  unfold parse_metadata, try_except, lift.
  destruct (json_loads metadata) as [v | e]; [ reflexivity | ].
  destruct (is_JSONDecodeError e); reflexivity.
Qed.

(** X15.  Metadata that is not JSON is refused with status 400 by both
    endpoints before anything else happens: no request is sent, nothing is
    printed, nothing is pinned. *)
Theorem invalid_metadata_is_refused endpoint wallet image metadata
    (w : World Ext) e :
  json_loads metadata = Raise e ->
  is_JSONDecodeError e = true ->
  handle cfg endpoint wallet image metadata w
  = (Raise (HTTPException 400 InvalidMetadataJson), w).
Proof.
  intros Hloads He.
  destruct endpoint; simpl; unfold upload_capture, upload_json_capture;
    cbv zeta; unfold try_except; unfold bind at 1;
    rewrite parse_metadata_run, Hloads, He; reflexivity.
Qed.

Lemma py_setitem_run obj key v :
  py_setitem obj key v
  = match obj with
    | JDict d => Ok (JDict (dict_set d key v))
    | _ => Raise TypeError
    end.
Proof. reflexivity. Qed.

(** X16.  Metadata that is JSON but not an object cannot take the
    [wallet_address] member: /upload answers 500 before anything is sent,
    printed or pinned. *)
Theorem upload_refuses_non_object_metadata wallet image metadata
    (w : World Ext) value :
  json_loads metadata = Ok value ->
  Inspection.is_dict value = false ->
  handle cfg Upload wallet image metadata w
  = (Raise (HTTPException 500 (UploadFailed TypeError)), w).
Proof.
  intros Hloads Hshape. simpl. unfold upload_capture. cbv zeta.
  assert (Hparse : parse_metadata metadata w = (Ok value, w))
    by (rewrite parse_metadata_run, Hloads; reflexivity).
  rewrite (try_bind_ok _ _ _ _ _ _ Hparse).
  assert (Hset :
    lift (py_setitem value (lit "wallet_address") (JStr wallet)) w
    = (Raise TypeError, w)).
  { unfold lift. destruct value; simpl in *; congruence. }
  rewrite (try_bind_raise _ _ _ _ _ _ Hset). reflexivity.
Qed.

(** X17.  /upload-json pins the image before it touches the metadata: when the
    metadata is JSON but not an object and the provider accepts the image,
    the image is pinned, then the run ends in a 500, and that upload is the
    only request made: no row is recorded for the pinned image. *)
Theorem upload_json_pins_before_checking_metadata wallet image metadata
    (w : World Ext) value headers t e0 o e1 image_cid :
  json_loads metadata = Ok value ->
  Inspection.is_dict value = false ->
  pinata_headers cfg = Some headers ->
  time_time (ext w) = (t, e0) ->
  let rq :=
    pin_request headers (file_bytes image)
      (lit "original_" ++ take 10 wallet ++ lit "_" ++ str_of_Z t
       ++ lit ".jpg")
      (JDict [ (lit "wallet_address", JStr wallet);
               (lit "type", JStr (lit "original_image")) ]) in
  requests_send rq e0 = (o, e1) ->
  pin_result o = Ok image_cid ->
  exists w',
    handle cfg UploadJson wallet image metadata w
    = (Raise (HTTPException 500 (UploadFailed TypeError)), w') /\
    exchanges w' = exchanges w ++ [(rq, o)] /\
    rows [(rq, o)] = [].
Proof.
  intros Hloads Hshape Hh Htime rq Hsend Hpin. subst rq.
  simpl handle. unfold upload_json_capture. cbv zeta.
  assert (Hparse : parse_metadata metadata w = (Ok value, w))
    by (rewrite parse_metadata_run, Hloads; reflexivity).
  rewrite (try_bind_ok _ _ _ _ _ _ Hparse).
  assert (Hnow :
    now w = (Ok t, mkWorld e0 (exchanges w) (stdout w) (files w)))
    by (unfold now; rewrite Htime; reflexivity).
  rewrite (try_bind_ok _ _ _ _ _ _ Hnow).
  erewrite try_bind_ok by reflexivity.
  match goal with
  | |- context [upload_to_ipfs cfg ?d ?f ?m] =>
      match goal with
      | |- context [try_except _ _ ?W] =>
          destruct (upload_to_ipfs_run headers d f m W Hh) as (out & Hrun)
      end
  end.
  cbn [ext exchanges stdout files] in Hrun. unfold slice_to in *.
  rewrite Hsend in Hrun. cbn [fst snd] in Hrun. rewrite Hpin in Hrun.
  rewrite (try_bind_ok _ _ _ _ _ _ Hrun).
  erewrite try_bind_ok by reflexivity.
  erewrite try_bind_raise.
  2: { unfold lift. rewrite py_setitem_run.
       destruct value; simpl in Hshape; try discriminate; reflexivity. }
  eexists. split; [ reflexivity | ]. split; reflexivity.
Qed.

Lemma snd_bind {A B} (m : M Ext A) (k : A -> M Ext B) (w : World Ext) :
  snd (bind m k w)
  = match m w with
    | (Ok a, w1) => snd (k a w1)
    | (Raise _, w1) => w1
    end.
Proof. unfold bind. destruct (m w) as [[a | e] w1]; reflexivity. Qed.

Lemma pin_result_ok o c :
  pin_result o = Ok c -> ipfs_hash_of o = Some c /\ py_truthy c = true.
Proof.
  unfold pin_result, ipfs_hash_of. destruct o as [r | msg]; [ | discriminate ].
  destruct (status_code r =? 200)%Z; [ | discriminate ].
  destruct (Response_json r) as [result | ]; [ | discriminate ].
  destruct (py_get result (lit "IpfsHash") JNull) as [h | e]; [ | discriminate ].
  destruct (py_truthy h) eqn:Hh; [ | discriminate ].
  intros [= <-]. auto.
Qed.

(** The exchanges of a POST to /upload, whatever its outcome: none; or the
    upload alone; or the upload, accepted by the provider, followed by one
    or two posts of the row. *)
Lemma upload_capture_exchanges wallet image metadata (w : World Ext) :
  let w' := snd (upload_capture cfg wallet image metadata w) in
  files w' = files w /\
  (exchanges w' = exchanges w \/
   exists headers d o rest,
     pinata_headers cfg = Some headers /\
     json_loads metadata = Ok (JDict d) /\
     exchanges w' =
       exchanges w ++
       (pin_request headers (file_bytes image)
          (if truthy (filename image) then default [] (filename image)
           else lit "capture_" ++ take 10 wallet ++ lit ".jpg")
          (JDict (dict_set d (lit "wallet_address") (JStr wallet))), o)
       :: rest /\
     (rest = [] \/
      exists c o1,
        pin_result o = Ok c /\
        (rest = [(insert_request cfg false wallet c c, o1)] \/
         exists o2,
           rest = [(insert_request cfg false wallet c c, o1);
                   (insert_request cfg true wallet c c, o2)]))).
Proof.
  cbv zeta.
  remember (snd (upload_capture cfg wallet image metadata w)) as w' eqn:Hw.
  unfold upload_capture in Hw. rewrite snd_endpoint_errors in Hw.
  cbv zeta in Hw. rewrite snd_bind, parse_metadata_run in Hw.
  destruct (json_loads metadata) as [value | e]; [ | subst w'; auto ].
  rewrite snd_bind in Hw. unfold lift at 1 in Hw.
  rewrite py_setitem_run in Hw.
  destruct value as [| | | | | | d]; try (subst w'; auto; fail).
  rewrite snd_bind in Hw. unfold slice_to in Hw.
  destruct (pinata_headers cfg) as [headers | ] eqn:Hh.
  2: { rewrite upload_to_ipfs_unconfigured in Hw by assumption.
       subst w'. auto. }
  match type of Hw with
  | context [upload_to_ipfs cfg ?b ?f ?m w] =>
      destruct (upload_to_ipfs_run headers b f m w Hh) as (out & Hrun);
      rewrite Hrun in Hw; clear Hrun
  end.
  match type of Hw with
  | context [requests_send ?rq (ext w)] =>
      destruct (requests_send rq (ext w)) as [o e1]
  end.
  cbn [fst snd] in Hw.
  destruct (pin_result o) as [c | e] eqn:Hpin.
  2: { subst w'. cbn. split; [ reflexivity | ]. right.
       exists headers, d, o, []. auto. }
  rewrite snd_bind in Hw.
  match type of Hw with
  | context [store_in_supabase cfg wallet c c ?W] =>
      destruct (store_in_supabase_run wallet c c W) as (out2 & Hrun);
      rewrite Hrun in Hw; clear Hrun
  end.
  cbn [ext exchanges stdout files] in Hw.
  match type of Hw with
  | context [unauthorized ?o1] => destruct (unauthorized o1)
  end.
  - match type of Hw with
    | context [insert_result ?o2] => destruct (insert_result o2)
    end; cbn in Hw; subst w'; cbn; (split; [ reflexivity | ]); right;
      exists headers, d, o; eexists; rewrite <- app_assoc;
      (split; [ reflexivity | ]); (split; [ reflexivity | ]);
      (split; [ reflexivity | ]); right; eauto 10.
  - match type of Hw with
    | context [insert_result ?o1] => destruct (insert_result o1)
    end; cbn in Hw; subst w'; cbn; (split; [ reflexivity | ]); right;
      exists headers, d, o; eexists; rewrite <- app_assoc;
      (split; [ reflexivity | ]); (split; [ reflexivity | ]);
      (split; [ reflexivity | ]); right; eauto 10.
Qed.

(** X18.  A POST to /upload, whatever its outcome, sends at most three requests
    and writes no file.  It never posts a row before the provider has
    returned a usable identifier: when a row was posted, exactly one upload
    was answered with an identifier and every row posted carries that
    identifier as image_cid and as metadata_cid, also when the run then
    fails. *)
Theorem upload_never_records_before_pinning wallet image metadata
    (w : World Ext) :
  exists xs,
    exchanges (snd (handle cfg Upload wallet image metadata w))
    = exchanges w ++ xs /\
    (length xs <= 3)%nat /\
    files (snd (handle cfg Upload wallet image metadata w)) = files w /\
    (rows xs <> [] ->
     exists c,
       pinned xs = [c] /\ py_truthy c = true /\
       Forall (eq (JDict [ (lit "wallet_address", JStr wallet);
                           (lit "image_cid", c);
                           (lit "metadata_cid", c) ]))
              (rows xs)).
Proof.
  simpl handle.
  destruct (upload_capture_exchanges wallet image metadata w)
    as (Hfiles & [Hnone | (headers & d & o & rest & _ & _ & Hlog & Hrest)]).
  - exists []. rewrite app_nil_r. repeat split; auto.
    intros Habs. contradiction.
  - eexists. split; [ exact Hlog | ].
    destruct Hrest as [-> | (c & o1 & Hpin & [-> | (o2 & ->)])].
    + repeat split; auto. intros Habs. contradiction.
    + apply pin_result_ok in Hpin as [Hhash Htruthy].
      repeat split; auto. intros _. exists c.
      unfold pinned, rows. simpl. rewrite Hhash.
      repeat split; auto.
    + apply pin_result_ok in Hpin as [Hhash Htruthy].
      repeat split; auto. intros _. exists c.
      unfold pinned, rows. simpl. rewrite Hhash.
      repeat split; auto.
Qed.

Lemma dict_lookup_set_eq d k v : dict_lookup (dict_set d k v) k = Some v.
Proof.
  induction d as [| [k' v'] d IH]; simpl.
  - rewrite decide_True by reflexivity. reflexivity.
  - destruct (decide (k' = k)) as [-> | Hne]; simpl.
    + rewrite decide_True by reflexivity. reflexivity.
    + rewrite decide_False by assumption. exact IH.
Qed.

Lemma dict_lookup_set_ne d k v k0 :
  k0 <> k -> dict_lookup (dict_set d k v) k0 = dict_lookup d k0.
Proof.
  intros Hne. induction d as [| [k' v'] d IH]; simpl.
  - rewrite decide_False by auto. reflexivity.
  - destruct (decide (k' = k)) as [-> | Hk]; simpl.
    + rewrite !decide_False by auto. reflexivity.
    + destruct (decide (k' = k0)); [ reflexivity | exact IH ].
Qed.

Lemma keyvalues_of_pin_request headers file_data filename metadata :
  keyvalues_of (pin_request headers file_data filename metadata)
  = Some metadata.
Proof. vm_compute. reflexivity. Qed.

(** X19.  The metadata pinned by /upload is the client's object with the
    [wallet_address] member set to the wallet of the form: whatever
    [wallet_address] the client wrote in the metadata is replaced, and every
    other member is pinned as the client sent it. *)
Theorem pinned_metadata_carries_wallet wallet image metadata (w : World Ext)
    x keyvalues :
  In x (exchanged (handle cfg Upload wallet image metadata) w) ->
  keyvalues_of (fst x) = Some keyvalues ->
  exists d,
    json_loads metadata = Ok (JDict d) /\
    py_getitem keyvalues (lit "wallet_address") = Ok (JStr wallet) /\
    forall key,
      key <> lit "wallet_address" ->
      py_getitem keyvalues key = py_getitem (JDict d) key.
Proof.
  unfold exchanged. simpl handle.
  destruct (upload_capture_exchanges wallet image metadata w)
    as (_ & [-> | (headers & d & o & rest & _ & Hloads & -> & Hrest)]).
  - rewrite drop_all. intros [].
  - rewrite drop_app_length. intros Hin Hkv. exists d.
    assert (Hrq : keyvalues
                  = JDict (dict_set d (lit "wallet_address") (JStr wallet))).
    { destruct Hin as [<- | Hin].
      - simpl in Hkv. rewrite keyvalues_of_pin_request in Hkv. congruence.
      - destruct Hrest as [-> | (c & o1 & _ & [-> | (o2 & ->)])];
          simpl in Hin; intuition subst; discriminate. }
    subst keyvalues. split; [ exact Hloads | ]. simpl.
    rewrite dict_lookup_set_eq. split; [ reflexivity | ].
    intros key Hkey. rewrite dict_lookup_set_ne by assumption. reflexivity.
Qed.

(** The exchanges of one POST to /upload-json: nothing; or the upload of
    the image alone; or that upload, answered with an identifier, and the
    upload of the metadata document alone; or both uploads, each answered
    with an identifier, and one or two insertions of the row. *)
Lemma upload_json_capture_exchanges wallet image metadata (w : World Ext) :
  let w' := snd (upload_json_capture cfg wallet image metadata w) in
  let t := fst (time_time (ext w)) in
  files w' = files w /\
  (exchanges w' = exchanges w \/
   exists headers value o1 rest,
     pinata_headers cfg = Some headers /\
     json_loads metadata = Ok value /\
     exchanges w' =
       exchanges w ++
       (pin_request headers (file_bytes image)
          (lit "original_" ++ take 10 wallet ++ lit "_" ++ str_of_Z t
           ++ lit ".jpg")
          (JDict [ (lit "wallet_address", JStr wallet);
                   (lit "type", JStr (lit "original_image")) ]), o1)
       :: rest /\
     (rest = [] \/
      exists d c1 o2 rest2,
        value = JDict d /\
        pin_result o1 = Ok c1 /\
        rest =
          (pin_request headers
             (json_dumps_compact
                (JDict (dict_set
                          (dict_set d (lit "wallet_address") (JStr wallet))
                          (lit "image_cid") c1)))
             (lit "metadata_" ++ take 10 wallet ++ lit "_" ++ str_of_Z t
              ++ lit ".json")
             (JDict [ (lit "wallet_address", JStr wallet);
                      (lit "type", JStr (lit "metadata"));
                      (lit "image_cid", c1) ]), o2)
          :: rest2 /\
        (rest2 = [] \/
         exists c2 o3,
           pin_result o2 = Ok c2 /\
           (rest2 = [(insert_request cfg false wallet c1 c2, o3)] \/
            exists o4,
              rest2 = [(insert_request cfg false wallet c1 c2, o3);
                       (insert_request cfg true wallet c1 c2, o4)])))).
Proof.
  cbv zeta.
  remember (snd (upload_json_capture cfg wallet image metadata w)) as w'
    eqn:Hw.
  unfold upload_json_capture in Hw. rewrite snd_endpoint_errors in Hw.
  cbv zeta in Hw. rewrite snd_bind, parse_metadata_run in Hw.
  destruct (json_loads metadata) as [value | e]; [ | subst w'; auto ].
  rewrite snd_bind in Hw. unfold now at 1 in Hw.
  destruct (time_time (ext w)) as [t e0]. cbn [fst].
  rewrite snd_bind in Hw. unfold print at 1 in Hw.
  rewrite snd_bind in Hw. unfold slice_to in Hw.
  destruct (pinata_headers cfg) as [headers | ] eqn:Hh.
  2: { rewrite upload_to_ipfs_unconfigured in Hw by assumption.
       subst w'. auto. }
  match type of Hw with
  | context [upload_to_ipfs cfg ?b ?f ?m ?W] =>
      destruct (upload_to_ipfs_run headers b f m W Hh) as (out & Hrun);
      rewrite Hrun in Hw; clear Hrun
  end.
  cbn [ext exchanges stdout files] in Hw.
  match type of Hw with
  | context [requests_send ?rq e0] =>
      destruct (requests_send rq e0) as [o1 e1]
  end.
  cbn [fst snd] in Hw.
  destruct (pin_result o1) as [c1 | e] eqn:Hpin1.
  2: { subst w'. cbn. split; [ reflexivity | ]. right.
       exists headers, value, o1, []. auto. }
  rewrite snd_bind in Hw. unfold print at 1 in Hw.
  rewrite snd_bind in Hw. unfold lift at 1 in Hw.
  rewrite py_setitem_run in Hw.
  destruct value as [| | | | | | d];
    try (subst w'; cbn; (split; [ reflexivity | ]); right;
         eexists headers, _, o1, []; auto; fail).
  rewrite snd_bind in Hw. unfold lift at 1 in Hw.
  rewrite py_setitem_run in Hw.
  rewrite snd_bind in Hw. unfold print at 1 in Hw.
  rewrite snd_bind in Hw.
  match type of Hw with
  | context [upload_to_ipfs cfg ?b ?f ?m ?W] =>
      destruct (upload_to_ipfs_run headers b f m W Hh) as (out' & Hrun);
      rewrite Hrun in Hw; clear Hrun
  end.
  cbn [ext exchanges stdout files] in Hw.
  match type of Hw with
  | context [requests_send ?rq e1] =>
      destruct (requests_send rq e1) as [o2 e2]
  end.
  cbn [fst snd] in Hw.
  destruct (pin_result o2) as [c2 | e] eqn:Hpin2.
  2: { subst w'. cbn. split; [ reflexivity | ]. right.
       exists headers, (JDict d), o1. eexists. rewrite <- app_assoc.
       do 3 (split; [ reflexivity | ]). right.
       exists d, c1, o2, []. auto. }
  rewrite snd_bind in Hw. unfold print at 1 in Hw.
  rewrite snd_bind in Hw. unfold print at 1 in Hw.
  rewrite snd_bind in Hw.
  match type of Hw with
  | context [store_in_supabase cfg wallet c1 c2 ?W] =>
      destruct (store_in_supabase_run wallet c1 c2 W) as (out2 & Hrun);
      rewrite Hrun in Hw; clear Hrun
  end.
  cbn [ext exchanges stdout files] in Hw.
  match type of Hw with
  | context [unauthorized ?o3] => destruct (unauthorized o3)
  end.
  - match type of Hw with
    | context [insert_result ?o4] => destruct (insert_result o4)
    end; cbn in Hw; subst w'; cbn; (split; [ reflexivity | ]); right;
      exists headers, (JDict d), o1; eexists; rewrite <- !app_assoc;
      do 3 (split; [ reflexivity | ]); right;
      exists d, c1, o2; eexists;
      (split; [ reflexivity | ]); (split; [ assumption | ]);
      (split; [ reflexivity | ]); right; eauto 10.
  - match type of Hw with
    | context [insert_result ?o3] => destruct (insert_result o3)
    end; cbn in Hw; subst w'; cbn; (split; [ reflexivity | ]); right;
      exists headers, (JDict d), o1; eexists; rewrite <- !app_assoc;
      do 3 (split; [ reflexivity | ]); right;
      exists d, c1, o2; eexists;
      (split; [ reflexivity | ]); (split; [ assumption | ]);
      (split; [ reflexivity | ]); right; eauto 10.
Qed.

(** X20.  A POST to /upload-json, whatever its outcome, sends at most four
    requests and writes no file.  It never posts a row before the provider
    has returned a usable identifier for the image and another for the
    metadata document: when a row was posted, exactly two uploads were
    answered with an identifier and every row posted pairs the first with
    the second, also when the run then fails. *)
Theorem upload_json_never_records_before_both_pins wallet image metadata
    (w : World Ext) :
  exists xs,
    exchanges (snd (handle cfg UploadJson wallet image metadata w))
    = exchanges w ++ xs /\
    (length xs <= 4)%nat /\
    files (snd (handle cfg UploadJson wallet image metadata w)) = files w /\
    (rows xs <> [] ->
     exists image_cid json_cid,
       pinned xs = [image_cid; json_cid] /\
       py_truthy image_cid = true /\ py_truthy json_cid = true /\
       Forall (eq (JDict [ (lit "wallet_address", JStr wallet);
                           (lit "image_cid", image_cid);
                           (lit "metadata_cid", json_cid) ]))
              (rows xs)).
Proof.
  simpl handle.
  destruct (upload_json_capture_exchanges wallet image metadata w)
    as (Hfiles
        & [Hnone | (headers & value & o1 & rest & _ & _ & Hlog & Hrest)]).
  - exists []. rewrite app_nil_r. repeat split; auto.
    intros Habs. contradiction.
  - eexists. split; [ exact Hlog | ].
    destruct Hrest
      as [-> | (d & c1 & o2 & rest2 & _ & Hpin1 & -> & Hrest2)].
    { repeat split; auto. intros Habs. contradiction. }
    apply pin_result_ok in Hpin1 as [Hhash1 Htruthy1].
    destruct Hrest2 as [-> | (c2 & o3 & Hpin2 & [-> | (o4 & ->)])].
    + repeat split; auto. intros Habs. contradiction.
    + apply pin_result_ok in Hpin2 as [Hhash2 Htruthy2].
      repeat split; auto. intros _. exists c1, c2.
      unfold pinned, rows. simpl. rewrite Hhash1, Hhash2.
      repeat split; auto.
    + apply pin_result_ok in Hpin2 as [Hhash2 Htruthy2].
      repeat split; auto. intros _. exists c1, c2.
      unfold pinned, rows. simpl. rewrite Hhash1, Hhash2.
      repeat split; auto.
Qed.

(** X21.  The document that /upload-json pins second is the client's object,
    written compactly, with [wallet_address] set to the wallet of the form
    and [image_cid] set to the identifier the provider returned for the
    image; its tags name the same identifier, and the two file names carry
    the same timestamp, read once from the clock. *)
Theorem metadata_document_links_to_image wallet image metadata
    (w : World Ext) x1 x2 rest :
  exchanged (handle cfg UploadJson wallet image metadata) w
  = x1 :: x2 :: rest ->
  exists headers d image_cid,
    json_loads metadata = Ok (JDict d) /\
    pin_result (snd x1) = Ok image_cid /\
    fst x1 =
      pin_request headers (file_bytes image)
        (lit "original_" ++ take 10 wallet ++ lit "_"
         ++ str_of_Z (fst (time_time (ext w))) ++ lit ".jpg")
        (JDict [ (lit "wallet_address", JStr wallet);
                 (lit "type", JStr (lit "original_image")) ]) /\
    fst x2 =
      pin_request headers
        (json_dumps_compact
           (JDict (dict_set (dict_set d (lit "wallet_address") (JStr wallet))
                            (lit "image_cid") image_cid)))
        (lit "metadata_" ++ take 10 wallet ++ lit "_"
         ++ str_of_Z (fst (time_time (ext w))) ++ lit ".json")
        (JDict [ (lit "wallet_address", JStr wallet);
                 (lit "type", JStr (lit "metadata"));
                 (lit "image_cid", image_cid) ]).
Proof.
  unfold exchanged. simpl handle.
  destruct (upload_json_capture_exchanges wallet image metadata w)
    as (_ & [-> | (headers & value & o1 & tl & _ & Hloads & -> & Hrest)]).
  - rewrite drop_all. discriminate.
  - rewrite drop_app_length.
    destruct Hrest as [-> | (d & c1 & o2 & rest2 & -> & Hpin1 & -> & _)];
      [ discriminate | ].
    intros [= <- <- _]. exists headers, d, c1. simpl. auto.
Qed.

(** ** What can leave an endpoint *)














(** X22.  The checks made when the module is loaded: once they have passed, there
    are credentials for the pinning provider, so the ValueError branch of
    [upload_to_ipfs] cannot be taken, and the record-store address and key
    are non-empty; the service-role key is used when set, the anonymous key
    otherwise. *)
Theorem startup_check_guarantees_credentials environ :
  load_config environ = Ok cfg ->
  (exists headers, pinata_headers cfg = Some headers) /\
  truthy (SUPABASE_URL cfg) = true /\
  truthy (SUPABASE_KEY cfg) = true /\
  SUPABASE_KEY cfg
  = (if truthy (environ !! lit "SUPABASE_SERVICE_ROLE_KEY")
     then environ !! lit "SUPABASE_SERVICE_ROLE_KEY"
     else environ !! lit "SUPABASE_ANON_KEY").
Proof.
  unfold load_config, pinata_headers. cbv zeta. cbn [PINATA_JWT PINATA_API_KEY
    PINATA_SECRET_KEY SUPABASE_URL SUPABASE_KEY].
  destruct (truthy (environ !! lit "PINATA_JWT")) eqn:Hjwt;
    destruct (truthy (environ !! lit "PINATA_API_KEY")) eqn:Hkey;
    destruct (truthy (environ !! lit "PINATA_SECRET_KEY")) eqn:Hsecret;
    simpl; try discriminate.
  all: destruct (truthy (environ !! lit "SUPABASE_URL")) eqn:Hurl;
    simpl; try discriminate.
  all: destruct (truthy (py_or (environ !! lit "SUPABASE_SERVICE_ROLE_KEY")
                               (environ !! lit "SUPABASE_ANON_KEY"))) eqn:Hk;
    simpl; try discriminate.
  all: intros [= <-]; cbn [PINATA_JWT PINATA_API_KEY PINATA_SECRET_KEY
                           SUPABASE_URL SUPABASE_KEY].
  all: rewrite ?Hjwt, ?Hkey, ?Hsecret; simpl.
  all: repeat split; eauto.
Qed.

End Facts.

Import Reference Scenario Scenario2.

Lemma pin_outcome_follows_answer_witness :
  pinata_headers service_cfg = Some token_headers /\
  exists w',
    upload_to_ipfs service_cfg (file_bytes capture) (lit "capture.jpg")
                   (JDict []) (fresh [over_quota])
    = (Raise (HTTPException 429 (PinataApiError 429 (blit "slow down"))),
       w') /\
    exchanges w'
    = [ (pin_request token_headers (file_bytes capture) (lit "capture.jpg")
                     (JDict []), over_quota) ] /\
    files w' = ∅.
Proof.
  split; [ reflexivity | ].
  destruct (pin_outcome_follows_answer service_cfg token_headers
              (file_bytes capture) (lit "capture.jpg") (JDict [])
              (fresh [over_quota]) over_quota (mkScript [] 1700000000))
    as (w' & Hrun & Hlog & _ & Hfiles); [ reflexivity | reflexivity | ].
  exists w'. split; [ exact Hrun | ]. split; [ exact Hlog | exact Hfiles ].
Defined.

Lemma pin_without_credentials_sends_nothing_witness :
  pinata_headers bare_cfg = None /\
  upload_to_ipfs bare_cfg (file_bytes capture) (lit "capture.jpg") (JDict [])
                 (fresh pin_then_store)
  = (Raise (ValueError (lit "No Pinata credentials available")),
     fresh pin_then_store).
Proof.
  split; [ reflexivity | ].
  apply (pin_without_credentials_sends_nothing bare_cfg (file_bytes capture)
           (lit "capture.jpg") (JDict []) (fresh pin_then_store)).
  reflexivity.
Defined.

Lemma invalid_metadata_is_refused_witness :
  json_loads broken_metadata = Raise JSONDecodeError /\
  handle service_cfg Upload wallet capture broken_metadata
         (fresh pin_then_store)
  = (Raise (HTTPException 400 InvalidMetadataJson), fresh pin_then_store) /\
  handle service_cfg UploadJson wallet capture broken_metadata
         (fresh pin_twice_then_store)
  = (Raise (HTTPException 400 InvalidMetadataJson),
     fresh pin_twice_then_store).
Proof.
  split; [ reflexivity | ]. split.
  - apply (invalid_metadata_is_refused service_cfg Upload wallet capture
             broken_metadata (fresh pin_then_store) JSONDecodeError);
      reflexivity.
  - apply (invalid_metadata_is_refused service_cfg UploadJson wallet capture
             broken_metadata (fresh pin_twice_then_store) JSONDecodeError);
      reflexivity.
Defined.

Lemma upload_refuses_non_object_metadata_witness :
  json_loads list_metadata = Ok (JList [JInt 1]) /\
  handle service_cfg Upload wallet capture list_metadata
         (fresh pin_then_store)
  = (Raise (HTTPException 500 (UploadFailed TypeError)),
     fresh pin_then_store).
Proof.
  split; [ reflexivity | ].
  apply (upload_refuses_non_object_metadata service_cfg wallet capture
           list_metadata (fresh pin_then_store) (JList [JInt 1]));
    reflexivity.
Defined.

Lemma upload_json_pins_before_checking_metadata_witness :
  json_loads list_metadata = Ok (JList [JInt 1]) /\
  pin_result (respond 200 (dq "{'IpfsHash':'bafkreiaaa'}")) = Ok hash_one /\
  exists w',
    handle service_cfg UploadJson wallet capture list_metadata
           (fresh pin_twice_then_store)
    = (Raise (HTTPException 500 (UploadFailed TypeError)), w') /\
    exchanges w'
    = [ (pin_request token_headers (file_bytes capture)
           (lit "original_0xabc_1700000000.jpg")
           (JDict [ (lit "wallet_address", JStr wallet);
                    (lit "type", JStr (lit "original_image")) ]),
         respond 200 (dq "{'IpfsHash':'bafkreiaaa'}")) ].
Proof.
  split; [ reflexivity | ]. split; [ vm_compute; reflexivity | ].
  destruct (upload_json_pins_before_checking_metadata service_cfg wallet
              capture list_metadata (fresh pin_twice_then_store)
              (JList [JInt 1]) token_headers 1700000000
              (mkScript pin_twice_then_store 1700000000)
              (respond 200 (dq "{'IpfsHash':'bafkreiaaa'}"))
              (mkScript (drop 1 pin_twice_then_store) 1700000000)
              hash_one)
    as (w' & Hrun & Hlog & _);
    [ reflexivity | reflexivity | reflexivity | reflexivity | reflexivity
    | vm_compute; reflexivity | ].
  exists w'. split; [ exact Hrun | ].
  rewrite Hlog. vm_compute. reflexivity.
Defined.

Lemma pinned_metadata_carries_wallet_witness :
  In (pin_request token_headers (file_bytes capture) (lit "capture.jpg")
        (JDict [ (lit "wallet_address", JStr wallet);
                 (lit "depth", JInt 1) ]),
      respond 200 (dq "{'IpfsHash':'bafkreiaaa'}"))
     (exchanged (handle service_cfg Upload wallet capture claiming_metadata)
                (fresh pin_then_store)) /\
  json_loads claiming_metadata
  = Ok (JDict [ (lit "wallet_address", JStr (lit "0xother"));
                (lit "depth", JInt 1) ]) /\
  py_getitem (JDict [ (lit "wallet_address", JStr wallet);
                      (lit "depth", JInt 1) ])
             (lit "wallet_address")
  = Ok (JStr wallet).
Proof.
  assert (Hin :
    In (pin_request token_headers (file_bytes capture) (lit "capture.jpg")
          (JDict [ (lit "wallet_address", JStr wallet);
                   (lit "depth", JInt 1) ]),
        respond 200 (dq "{'IpfsHash':'bafkreiaaa'}"))
       (exchanged (handle service_cfg Upload wallet capture claiming_metadata)
                  (fresh pin_then_store))).
  { vm_compute. left. reflexivity. }
  split; [ exact Hin | ].
  destruct (pinned_metadata_carries_wallet service_cfg wallet capture
              claiming_metadata (fresh pin_then_store) _ _ Hin eq_refl)
    as (d & Hloads & Hwallet & _).
  split; [ vm_compute; reflexivity | exact Hwallet ].
Defined.

Lemma metadata_document_links_to_image_witness :
  exchanged (handle service_cfg UploadJson wallet capture capture_metadata)
            (fresh pin_twice_then_store)
  = [ (pin_request token_headers (file_bytes capture)
         (lit "original_0xabc_1700000000.jpg")
         (JDict [ (lit "wallet_address", JStr wallet);
                  (lit "type", JStr (lit "original_image")) ]),
       respond 200 (dq "{'IpfsHash':'bafkreiaaa'}"));
      (pin_request token_headers
         (dq "{'depth':1,'wallet_address':'0xabc','image_cid':'bafkreiaaa'}")
         (lit "metadata_0xabc_1700000000.json")
         (JDict [ (lit "wallet_address", JStr wallet);
                  (lit "type", JStr (lit "metadata"));
                  (lit "image_cid", hash_one) ]),
       respond 200 (dq "{'IpfsHash':'bafkreibbb'}"));
      (insert_request service_cfg false wallet hash_one hash_two,
       respond 201 (dq "[{'id':2}]")) ] /\
  exists headers d image_cid,
    json_loads capture_metadata = Ok (JDict d) /\
    pin_result (respond 200 (dq "{'IpfsHash':'bafkreiaaa'}")) = Ok image_cid /\
    json_dumps_compact
      (JDict (dict_set (dict_set d (lit "wallet_address") (JStr wallet))
                       (lit "image_cid") image_cid))
    = dq "{'depth':1,'wallet_address':'0xabc','image_cid':'bafkreiaaa'}" /\
    headers = token_headers.
Proof.
  assert (Hrun :
    exchanged (handle service_cfg UploadJson wallet capture capture_metadata)
              (fresh pin_twice_then_store)
    = [ (pin_request token_headers (file_bytes capture)
           (lit "original_0xabc_1700000000.jpg")
           (JDict [ (lit "wallet_address", JStr wallet);
                    (lit "type", JStr (lit "original_image")) ]),
         respond 200 (dq "{'IpfsHash':'bafkreiaaa'}"));
        (pin_request token_headers
           (dq "{'depth':1,'wallet_address':'0xabc','image_cid':'bafkreiaaa'}")
           (lit "metadata_0xabc_1700000000.json")
           (JDict [ (lit "wallet_address", JStr wallet);
                    (lit "type", JStr (lit "metadata"));
                    (lit "image_cid", hash_one) ]),
         respond 200 (dq "{'IpfsHash':'bafkreibbb'}"));
        (insert_request service_cfg false wallet hash_one hash_two,
         respond 201 (dq "[{'id':2}]")) ])
    by (vm_compute; reflexivity).
  split; [ exact Hrun | ].
  destruct (metadata_document_links_to_image service_cfg wallet capture
              capture_metadata (fresh pin_twice_then_store) _ _ _ Hrun)
    as (headers & d & image_cid & Hloads & Hpin & Hfirst & Hsecond).
  exists headers, d, image_cid.
  split; [ exact Hloads | ]. split; [ exact Hpin | ].
  cbn [fst] in Hfirst, Hsecond. unfold pin_request in Hfirst, Hsecond.
  split; [ injection Hsecond | injection Hfirst ]; intros; congruence.
Defined.


Lemma startup_check_guarantees_credentials_witness :
  load_config service_environ = Ok service_cfg /\
  pinata_headers service_cfg = Some token_headers /\
  truthy (SUPABASE_URL service_cfg) = true /\
  SUPABASE_KEY service_cfg = Some (lit "anon-key").
Proof.
  assert (Hload : load_config service_environ = Ok service_cfg)
    by (vm_compute; reflexivity).
  split; [ exact Hload | ].
  destruct (startup_check_guarantees_credentials service_cfg service_environ
              Hload) as ((headers & Hh) & Hurl & _ & Hkey).
  split; [ reflexivity | ]. split; [ exact Hurl | ].
  rewrite Hkey. vm_compute. reflexivity.
Defined.

End UploadMore.

(** * The registration check *)

Module RegistrationFacts.
Import UploadService Registration.

Section Facts.

Context {Ext : Type} {io : External Ext} {lib : Codecs}.
Variable cfg : Config.

(** One run of the body of the [try]: a single exchange, after which the
    answer alone decides. *)
Lemma is_registered_run wallet (w : World Ext) :
  is_registered cfg wallet w
  = (match fst (requests_send (lookup_request cfg wallet) (ext w)) with
     | Fails msg => Raise (RequestException msg)
     | Responds r =>
         if (400 <=? status_code r)%Z && (status_code r <? 600)%Z
         then Raise (RequestException (lit "HTTPError"))
         else match Response_json r with
              | None => Raise RequestsJSONDecodeError
              | Some data =>
                  match py_len data with
                  | Ok n => Ok (0 <? n)%nat
                  | Raise e => Raise e
                  end
              end
     end,
     mkWorld (snd (requests_send (lookup_request cfg wallet) (ext w)))
             (exchanges w
              ++ [ (lookup_request cfg wallet,
                    fst (requests_send (lookup_request cfg wallet) (ext w))) ])
             (stdout w) (files w)).
Proof.
  unfold is_registered, bind at 1. unfold send.
  destruct (requests_send (lookup_request cfg wallet) (ext w)) as [o e'].
  destruct o as [r | msg]; [ | reflexivity ].
  cbn [fst snd]. unfold bind at 1. unfold raise_for_status.
  destruct ((400 <=? status_code r)%Z && (status_code r <? 600)%Z);
    [ reflexivity | ].
  unfold ret at 1. unfold bind at 1. unfold response_json.
  destruct (Response_json r) as [data | ]; [ | reflexivity ].
  unfold ret at 1. unfold bind, lift.
  destruct (py_len data); reflexivity.
Qed.

(** X23.  The registration check only reads: it sends exactly one request,
    a GET of /rest/v1/Devices under the configured address of the record
    store, with the key as apikey and as bearer token, the query
    wallet_address=eq.<wallet> and select=wallet_address, no body and a 10
    second timeout; it prints nothing, writes no file and posts no row,
    whatever the record store answers. *)
Theorem registration_check_only_reads wallet (w : World Ext) :
  let rq :=
    mkRequest GET (fmt_opt (SUPABASE_URL cfg) ++ lit "/rest/v1/Devices")
      [ (lit "apikey", fmt_opt (SUPABASE_KEY cfg));
        (lit "Authorization", lit "Bearer " ++ fmt_opt (SUPABASE_KEY cfg));
        (lit "Content-Type", lit "application/json") ]
      [ (lit "wallet_address", lit "eq." ++ wallet);
        (lit "select", lit "wallet_address") ]
      NoBody 10 in
  exists o e',
    snd (check_registration cfg wallet w)
    = mkWorld e' (exchanges w ++ [(rq, o)]) (stdout w) (files w) /\
    requests_send rq (ext w) = (o, e') /\
    rows (drop (length (exchanges w))
               (exchanges (snd (check_registration cfg wallet w)))) = [].
Proof.
  cbv zeta. change (mkRequest GET _ _ _ NoBody 10)
    with (lookup_request cfg wallet).
  exists (fst (requests_send (lookup_request cfg wallet) (ext w))),
         (snd (requests_send (lookup_request cfg wallet) (ext w))).
  assert (Hw :
    snd (check_registration cfg wallet w)
    = mkWorld (snd (requests_send (lookup_request cfg wallet) (ext w)))
        (exchanges w
         ++ [ (lookup_request cfg wallet,
               fst (requests_send (lookup_request cfg wallet) (ext w))) ])
        (stdout w) (files w)).
  { unfold check_registration. rewrite is_registered_run.
    destruct (match fst (requests_send (lookup_request cfg wallet) (ext w))
              with Fails msg => _ | Responds r => _ end);
      reflexivity. }
  split; [ exact Hw | ]. split.
  - destruct (requests_send (lookup_request cfg wallet) (ext w)); reflexivity.
  - rewrite Hw. cbn [exchanges]. rewrite drop_app_length. reflexivity.
Qed.

(** X24.  What the registration check reports is decided by the one answer.  The
    device counts as registered exactly when the answer has a status
    outside 400..599 and a JSON body of non-zero length: any status below
    400 will do, and so will an object or a string in place of the list of
    rows.  A transport failure, a status from 400 to 599 and a body that is
    not JSON are reported as the 500 of the check.  A JSON body that has no
    length (a number, a boolean, null) raises a TypeError that the function
    does not catch. *)
Theorem registration_verdict_follows_answer wallet (w : World Ext) :
  let o := fst (requests_send (lookup_request cfg wallet) (ext w)) in
  match fst (check_registration cfg wallet w) with
  | Content registered reported =>
      reported = wallet /\
      exists r data n,
        o = Responds r /\
        ((400 <=? status_code r)%Z && (status_code r <? 600)%Z) = false /\
        Response_json r = Some data /\
        py_len data = Ok n /\
        registered = (0 <? n)%nat
  | CheckFailed msg =>
      o = Fails msg \/
      exists r,
        o = Responds r /\
        (((400 <=? status_code r)%Z && (status_code r <? 600)%Z) = true /\
         msg = lit "HTTPError"
         \/ Response_json r = None /\ msg = [])
  | Uncaught e =>
      e = TypeError /\
      exists r data,
        o = Responds r /\
        ((400 <=? status_code r)%Z && (status_code r <? 600)%Z) = false /\
        Response_json r = Some data /\
        Inspection.sized data = false
  end.
Proof.
  cbv zeta. unfold check_registration. rewrite is_registered_run.
  destruct (fst (requests_send (lookup_request cfg wallet) (ext w)))
    as [r | msg]; [ | simpl; auto ].
  destruct ((400 <=? status_code r)%Z && (status_code r <? 600)%Z) eqn:Hst.
  { simpl. right. exists r. auto. }
  destruct (Response_json r) as [data | ] eqn:Hjson.
  2: { simpl. right. exists r. auto. }
  destruct data; simpl; eauto 10.
Qed.

(** X25.  A body without length escapes the [except] clause: the check ends in a
    TypeError, not in its HTTPException. *)
Theorem registration_check_leaks_type_error wallet (w : World Ext) r data e' :
  requests_send (lookup_request cfg wallet) (ext w) = (Responds r, e') ->
  ((400 <=? status_code r)%Z && (status_code r <? 600)%Z) = false ->
  Response_json r = Some data ->
  Inspection.sized data = false ->
  fst (check_registration cfg wallet w) = Uncaught TypeError.
Proof.
  intros Hsend Hst Hjson Hsized.
  unfold check_registration. rewrite is_registered_run, Hsend. cbn [fst].
  rewrite Hst, Hjson. destruct data; simpl in *; congruence.
Qed.

End Facts.

Import Reference Scenario Scenario2.

(** One check, run: the request as it is sent. *)
Example registration_check_run :
  sent (snd (check_registration service_cfg wallet (fresh [one_device])))
  = [ mkRequest GET (lit "https://db.example/rest/v1/Devices")
        [ (lit "apikey", lit "anon-key");
          (lit "Authorization", lit "Bearer anon-key");
          (lit "Content-Type", lit "application/json") ]
        [ (lit "wallet_address", lit "eq.0xabc");
          (lit "select", lit "wallet_address") ]
        NoBody 10 ] /\
  files (snd (check_registration service_cfg wallet (fresh [one_device])))
  = ∅ /\
  stdout (snd (check_registration service_cfg wallet (fresh [one_device])))
  = [].
Proof. repeat split; vm_compute; reflexivity. Qed.

Lemma registration_check_leaks_type_error_witness :
  Response_json (mkResponse 200 [] (blit "1")) = Some (JInt 1) /\
  fst (check_registration service_cfg wallet (fresh [bare_number]))
  = Uncaught TypeError /\
  fst (check_registration service_cfg wallet (fresh [one_device]))
  = Content true wallet /\
  fst (check_registration service_cfg wallet (fresh [no_device]))
  = Content false wallet /\
  fst (check_registration service_cfg wallet (fresh [error_object]))
  = Content true wallet /\
  fst (check_registration service_cfg wallet (fresh []))
  = CheckFailed (lit "connection refused").
Proof.
  split; [ vm_compute; reflexivity | ]. split.
  - apply (registration_check_leaks_type_error service_cfg wallet
             (fresh [bare_number]) (mkResponse 200 [] (blit "1")) (JInt 1)
             (mkScript [] 1700000000));
      vm_compute; reflexivity.
  - repeat split; vm_compute; reflexivity.
Defined.

End RegistrationFacts.
